(** * Skinne Advisor: the scoring and matching core of [Skinne_Advisor.py]

    A shallow embedding of the survey-to-recommendation pipeline:
    [render_question], [render_survey], [extract_concern_code],
    [display_p_score], [convert_t_score], [filter_treatments],
    [calculate_d_score], [load_data], [recommend_treatments],
    [generate_voucher_code], the voucher row of
    [generate_pdf_from_dataframe] and the submit step of [main], followed
    by the properties of the specification that concern them and by
    further properties of the program.

    Conventions of the embedding.
    - A Python [str] is a [string]; its characters are read as code points
      below 256.
    - A Python [int] is a [Z] (unbounded).
    - An exception is a value of [exn]; a function that may raise returns a
      [result].  Code that also touches the Streamlit session or the page
      runs in the monad [M] over a [world].
    - A pandas table is a list of typed rows together with its column
      names; the "Concern Code" column holds strings or missing cells. *)

From Stdlib Require Import ZArith String Ascii List Sorting.Sorted Sorting.Permutation Lia.
From Stdlib Require Import DecimalString DecimalNat.
From stdpp Require Import base option list sorting strings gmap.

Local Open Scope string_scope.
Local Open Scope list_scope.

(** ** Exceptions and results *)

Inductive exn : Type :=
  | ValueError (msg : string)
  | TypeError
  | KeyError (key : string)
  | AttributeError
  | IndexError.

Inductive result (A : Type) : Type :=
  | Ok (a : A)
  | Raise (e : exn).
Arguments Ok {A} a.
Arguments Raise {A} e.

Global Instance result_ret : MRet result := fun _ a => Ok a.
Global Instance result_bind : MBind result := fun _ _ f r =>
  match r with
  | Ok a => f a
  | Raise e => Raise e
  end.

(** [for x in xs: f x], collecting the values; the first exception wins. *)
Fixpoint mapR {A B : Type} (f : A -> result B) (xs : list A) : result (list B) :=
  match xs with
  | [] => Ok []
  | x :: rest =>
      y ← f x;
      ys ← mapR f rest;
      Ok (y :: ys)
  end.

(** ** Python values that occur in score lists and in the response mapping *)

Inductive pyval : Type :=
  | VStr (s : string)
  | VInt (z : Z)
  | VNone.

(** Truthiness, as used by [if x:] and [not x]. *)
Definition truthy (v : pyval) : bool :=
  match v with
  | VStr s => negb (String.eqb s "")
  | VInt z => negb (Z.eqb z 0)
  | VNone => false
  end.

(** ** String primitives *)

Module PyStr.

(** Characters removed by [str.strip()]. *)
Definition is_space (c : ascii) : bool :=
  let n := nat_of_ascii c in
  (Nat.leb 9 n && Nat.leb n 13) || (Nat.leb 28 n && Nat.leb n 32)
  || Nat.eqb n 133 || Nat.eqb n 160.

Fixpoint lstrip_by (p : ascii -> bool) (s : string) : string :=
  match s with
  | EmptyString => EmptyString
  | String c rest => if p c then lstrip_by p rest else s
  end.

Fixpoint rstrip_by (p : ascii -> bool) (s : string) : string :=
  match s with
  | EmptyString => EmptyString
  | String c rest =>
      match rstrip_by p rest with
      | EmptyString => if p c then EmptyString else String c EmptyString
      | kept => String c kept
      end
  end.

Definition strip_by (p : ascii -> bool) (s : string) : string :=
  rstrip_by p (lstrip_by p s).

(** [s.strip()] *)
Definition strip (s : string) : string := strip_by is_space s.

Fixpoint mem_char (c : ascii) (chars : string) : bool :=
  match chars with
  | EmptyString => false
  | String d rest => Ascii.eqb c d || mem_char c rest
  end.

(** [s.strip(chars)] *)
Definition strip_chars (chars s : string) : string :=
  strip_by (fun c => mem_char c chars) s.

(** [s.replace(c, "")] for a one-character [c]. *)
Fixpoint remove_char (c : ascii) (s : string) : string :=
  match s with
  | EmptyString => EmptyString
  | String d rest =>
      if Ascii.eqb c d then remove_char c rest else String d (remove_char c rest)
  end.

(** [s.split(sep)] for a non-empty [sep]: occurrences of [sep] are found
    from the left and do not overlap.  [skip] counts the characters of a
    separator just matched that are still to be passed over, [piece] is
    the segment being collected. *)
Fixpoint split_go (sep : string) (skip : nat) (piece s : string) : list string :=
  match s with
  | EmptyString => [piece]
  | String c rest =>
      match skip with
      | S k => split_go sep k piece rest
      | O =>
          if String.prefix sep s
          then piece :: split_go sep (String.length sep - 1) EmptyString rest
          else split_go sep 0 (piece +:+ String c EmptyString) rest
      end
  end.

Definition split (sep s : string) : list string := split_go sep 0 EmptyString s.

(** [s.startswith(p)] *)
Definition startswith (s p : string) : bool := String.prefix p s.

Definition digit_value (c : ascii) : option Z :=
  let n := nat_of_ascii c in
  if Nat.leb 48 n && Nat.leb n 57 then Some (Z.of_nat (n - 48)) else None.

(** The digits of a decimal literal after its first digit: a digit, or
    one underscore followed by a digit, repeatedly. *)
Fixpoint digits_go (acc : Z) (s : string) : option Z :=
  match s with
  | EmptyString => Some acc
  | String c rest =>
      match digit_value c with
      | Some d => digits_go (acc * 10 + d) rest
      | None =>
          if Ascii.eqb c "_" then
            match rest with
            | String c' rest' =>
                match digit_value c' with
                | Some d => digits_go (acc * 10 + d) rest'
                | None => None
                end
            | EmptyString => None
            end
          else None
      end
  end.

Definition digits (s : string) : option Z :=
  match s with
  | String c rest =>
      match digit_value c with
      | Some d => digits_go d rest
      | None => None
      end
  | EmptyString => None
  end.

(** The characters that [int()] skips at both ends of a string: those of
    [str.strip()] except the separators 28 to 31. *)
Definition is_int_space (c : ascii) : bool :=
  let n := nat_of_ascii c in
  (Nat.leb 9 n && Nat.leb n 13) || Nat.eqb n 32 || Nat.eqb n 133 || Nat.eqb n 160.

(** [int(s)] on a string, base 10: surrounding white space, an optional
    sign, then digits.  [None] stands for the [ValueError].  The
    interpreter's limit on the length of a literal (by default a
    [ValueError] beyond 4300 digits) is a setting of the interpreter and is
    not part of this function; statements about literals that could pass
    it carry the bound. *)
Definition parse_int (s : string) : option Z :=
  match strip_by is_int_space s with
  | String "-" body => Z.opp <$> digits body
  | String "+" body => digits body
  | body => digits body
  end.

End PyStr.

(** ** The score encoder *)

(** A cell of the "T-Score" column as the workbook delivers it. *)
Inductive cell : Type :=
  | CStr (s : string)
  | CNum (z : Z)
  | CNaN.

Module TScore.
(** The helper nested in [convert_t_score]: [int(value.strip())], with
    [ValueError] turned into -1.  Its argument is always a [str]. *)
Definition safe_int_conversion (value : string) : Z :=
  match PyStr.parse_int (PyStr.strip value) with
  | Some n => n
  | None => (-1)%Z
  end.
End TScore.

(** [t_score_str.strip("[]").replace("'", "").split(", ")] *)
Definition t_score_elements (t_score_str : string) : list string :=
  PyStr.split ", " (PyStr.remove_char "'" (PyStr.strip_chars "[]" t_score_str)).

Definition convert_t_score (t_score_str : cell) : result (list pyval) :=
  match t_score_str with
  | CStr s =>
      if String.eqb s "" then
        Raise (ValueError "Input must be a non-empty string representing a T-Score.")
      else
        match t_score_elements s with
        | [] =>
            Raise (ValueError
              "Input string is not in the expected format. Must contain at least one element.")
        | id :: values => Ok (VStr id :: map (fun i => VInt (TScore.safe_int_conversion i)) values)
        end
  | CNum _ | CNaN =>
      Raise (ValueError "Input must be a non-empty string representing a T-Score.")
  end.

(** [int(value)]; the text of the [ValueError] is immaterial, every caller
    catches it. *)
Definition py_int (value : pyval) : result Z :=
  match value with
  | VInt z => Ok z
  | VStr s =>
      match PyStr.parse_int s with
      | Some n => Ok n
      | None => Raise (ValueError "invalid literal for int() with base 10")
      end
  | VNone => Raise TypeError
  end.

Module DScore.
(** The helper nested in [calculate_d_score]: only [ValueError] is caught. *)
Definition safe_int_conversion (value : pyval) : result Z :=
  match py_int value with
  | Raise (ValueError _) => Ok (-1)%Z
  | r => r
  end.

(** [p - n] for an integer [n]. *)
Definition minus (p : pyval) (n : Z) : result Z :=
  match p with
  | VInt z => Ok (z - n)%Z
  | VStr _ | VNone => Raise TypeError
  end.

(** One item of the generator: [abs(p - safe_int_conversion(t))]. *)
Definition term (pt : pyval * pyval) : result Z :=
  n ← safe_int_conversion pt.2;
  d ← minus pt.1 n;
  Ok (Z.abs d).

(** [sum(...)] over the generator, from the left, starting at [acc]. *)
Fixpoint sum_terms (acc : Z) (pairs : list (pyval * pyval)) : result Z :=
  match pairs with
  | [] => Ok acc
  | pt :: rest =>
      d ← term pt;
      sum_terms (acc + d)%Z rest
  end.
End DScore.

(** The [isinstance(..., list)] guard holds by typing. *)
Definition calculate_d_score (p_score t_score : list pyval) : result Z :=
  if negb (Nat.eqb (length p_score) (length t_score)) then
    Raise (ValueError "p_score and t_score must have the same length.")
  else if Nat.leb (length p_score) 1 || Nat.leb (length t_score) 1 then
    Raise (ValueError
      "p_score and t_score must contain at least one scoring element beyond the first identifier.")
  else
    DScore.sum_terms 0%Z (zip (drop 1 p_score) (drop 1 t_score)).

Definition extract_concern_code (specific_interest : pyval) : result (option string) :=
  match specific_interest with
  | VStr s =>
      if String.eqb s "" then Ok None
      else
        match PyStr.split " " s with
        | _ :: code :: _ => Ok (Some code)
        | _ => Ok None
        end
  | VInt z => if Z.eqb z 0 then Ok None else Raise AttributeError
  | VNone => Ok None
  end.

(** ** Tables *)

(** A catalog row as loaded from the workbook.  [Concern_Code] is [None]
    for a missing cell; [attributes] are the descriptive cells, which the
    matcher never reads. *)
Record treatment : Type := {
  label : nat;
  Concern_Code : option string;
  T_Score_cell : cell;
  attributes : list string
}.

(** A catalog row after the "T-Score" column has been converted and the
    "D-Score" column added. *)
Record scored : Type := {
  source : treatment;
  T_Score : list pyval;
  D_Score : Z
}.

Record DataFrame (R : Type) : Type := {
  columns : list string;
  rows : list R
}.
Arguments columns {R} d.
Arguments rows {R} d.

(** [pd.DataFrame()] *)
Definition empty_frame {R : Type} : DataFrame R := {| columns := []; rows := [] |}.

(** [df.empty]: some axis has length 0. *)
Definition df_empty {R : Type} (d : DataFrame R) : bool :=
  match rows d, columns d with
  | [], _ | _, [] => true
  | _, _ => false
  end.

(** Row types that carry a "Concern Code" cell. *)
Class Coded (R : Type) : Type := concern_code_of : R -> option string.
Global Instance treatment_coded : Coded treatment := Concern_Code.
Global Instance scored_coded : Coded scored := fun r => Concern_Code (source r).

Section Filter.
Context {R : Type} `{Coded R}.

(** Survives [dropna(subset=["Concern Code"])]. *)
Definition has_code (r : R) : bool :=
  match concern_code_of r with
  | Some _ => true
  | None => false
  end.

(** A row whose concern code starts with [concern_code]. *)
Definition code_matches (concern_code : string) (r : R) : bool :=
  match concern_code_of r with
  | Some c => PyStr.startswith c concern_code
  | None => false
  end.

(** One entry of the mask [data["Concern Code"].str.startswith(concern_code)]:
    missing where the cell is missing. *)
Definition startswith_mask (concern_code : string) (r : R) : option bool :=
  match concern_code_of r with
  | Some c => Some (PyStr.startswith c concern_code)
  | None => None
  end.

(** [data[mask]]: the rows whose entry of the mask is true.  A mask with a
    missing entry does not index. *)
Fixpoint boolean_index (mask : R -> option bool) (l : list R) : result (list R) :=
  match l with
  | [] => Ok []
  | r :: rest =>
      match mask r with
      | None =>
          Raise (ValueError "Cannot mask with non-boolean array containing NA / NaN values")
      | Some keep =>
          kept ← boolean_index mask rest;
          Ok (if keep then r :: kept else kept)
      end
  end.

(** The [isinstance(data, pd.DataFrame)] guard holds by typing.  A
    "Concern Code" column in which every cell is missing is read from the
    workbook as a column of numbers, for which [.str] raises
    [AttributeError]; in a table that is not empty this is the case in
    which [dropna] leaves no row. *)
Definition filter_treatments (data : DataFrame R) (concern_code : pyval)
  : result (DataFrame R) :=
  if df_empty data then
    Raise (ValueError "Input data must be a non-empty Pandas DataFrame.")
  else if negb (bool_decide ("Concern Code" ∈ columns data)) then
    Raise (ValueError "Data does not contain the required 'Concern Code' column.")
  else
    match concern_code with
    | VStr code =>
        if String.eqb (PyStr.strip code) "" then
          Raise (ValueError "Concern Code must be a non-empty string.")
        else
          let data' := {| columns := columns data;
                          rows := List.filter has_code (rows data) |} in
          (* no string in the column: no [.str] *)
          if bool_decide (rows data' = []) then Raise AttributeError
          else
            kept ← boolean_index (startswith_mask code) (rows data');
            let filtered_data := {| columns := columns data'; rows := kept |} in
            if df_empty filtered_data then
              Raise (ValueError ("No treatments found for Concern Code: " +:+ code))
            else Ok filtered_data
    | VInt _ | VNone => Raise (ValueError "Concern Code must be a non-empty string.")
    end.
End Filter.

(** [df.nsmallest(n, "D-Score")] of pandas, with its default [keep="first"],
    as the library documents it: the first [n] rows in ascending order of
    the key, rows of equal key in their order of appearance.  It is
    rendered as the first [n] rows of a stable insertion sort. *)
Section NSmallest.
Context {A : Type} (key : A -> Z).

Fixpoint insert_by (x : A) (l : list A) : list A :=
  match l with
  | [] => [x]
  | y :: rest => if (key x <=? key y)%Z then x :: l else y :: insert_by x rest
  end.

Fixpoint sort_by (l : list A) : list A :=
  match l with
  | [] => []
  | x :: rest => insert_by x (sort_by rest)
  end.

Definition nsmallest (n : nat) (l : list A) : list A := take n (sort_by l).
End NSmallest.

(** Whether pandas gives a column of Python integers a numeric dtype:
    [int64] when every value fits it, [uint64] when none is negative and
    every value fits that; otherwise the column holds objects, and
    [nsmallest] refuses it with a [TypeError]. *)
Definition numeric_column (values : list Z) : bool :=
  forallb (fun v => (- 2 ^ 63 <=? v)%Z && (v <? 2 ^ 63)%Z) values
  || forallb (fun v => (0 <=? v)%Z && (v <? 2 ^ 64)%Z) values.

(** ** The session, the page and the environment *)

Record question : Type := {
  q_question : option string;   (* [None]: the entry has no "question" key *)
  q_options : list string
}.

Record pdf : Type := {
  pdf_table : DataFrame scored;
  pdf_voucher : string
}.

(** What a run puts on the page (and on standard output). *)
Inductive event : Type :=
  | StError (msg : string)
  | StSuccess (msg : string)
  | StWrite (msg : string)
  | StTable (table : DataFrame scored)
  | StDownloadButton (file : pdf)
  | Print (n : nat).

(** [st.session_state]; an absent "responses" entry reads as the empty
    mapping. *)
Record session_state : Type := {
  responses : gmap string pyval;
  final_table : option (DataFrame scored);
  voucher_code : option string
}.

Record world : Type := {
  session : session_state;
  page : list event
}.

(** What the program reads and does not own: the loaded question list, the
    outcome of [pd.read_excel] for each sheet name (the text of the
    exception, or the table), and the value of [str(uuid.uuid4())]. *)
Record env : Type := {
  questions : list question;
  read_excel : string -> string + DataFrame treatment;
  uuid4 : string
}.

Definition M (A : Type) : Type := world -> result A * world.

Global Instance M_ret : MRet M := fun _ a w => (Ok a, w).
Global Instance M_bind : MBind M := fun _ _ f m w =>
  match m w with
  | (Ok a, w') => f a w'
  | (Raise e, w') => (Raise e, w')
  end.

Definition lift {A : Type} (r : result A) : M A := fun w => (r, w).
Definition emit (e : event) : M unit :=
  fun w => (Ok (), {| session := session w; page := page w ++ [e] |}).
Definition get_responses : M (gmap string pyval) :=
  fun w => (Ok (responses (session w)), w).
Definition get_final_table : M (option (DataFrame scored)) :=
  fun w => (Ok (final_table (session w)), w).
Definition get_voucher_code : M (option string) :=
  fun w => (Ok (voucher_code (session w)), w).
Definition set_final_table (t : DataFrame scored) : M unit :=
  fun w => (Ok (), {| session := {| responses := responses (session w);
                                    final_table := Some t;
                                    voucher_code := voucher_code (session w) |};
                      page := page w |}).
Definition set_voucher_code (v : string) : M unit :=
  fun w => (Ok (), {| session := {| responses := responses (session w);
                                    final_table := final_table (session w);
                                    voucher_code := Some v |};
                      page := page w |}).

Definition nl : string := String (ascii_of_nat 10) EmptyString.

(** The no-break space, code point 160. *)
Definition nbsp : string := String (ascii_of_nat 160) EmptyString.

(** Join the lines of a multi-line column title. *)
Fixpoint lines (l : list string) : string :=
  match l with
  | [] => ""
  | [s] => s
  | s :: rest => s +:+ nl +:+ lines rest
  end.

(** The [columns=] mapping of the [rename] call. *)
Definition display_names : list (string * string) :=
  [ ("Treatment Brand/Name", "Treatment Name");
    (lines ["Budget Level:"; "(Price Per Session)"; ""; "1: SGD 20 - 99";
            "2: SGD 100 - 199"; "3: SGD 200 - 299"; "4: SGD 300 - 399";
            "5: SGD 400 - 499"; "6: SGD 500 - 699"; "7: SGD 700 - 999";
            "8: SGD 1000 - 1499"; "9: SGD 1500 - 3000"; "10: Above SGD 3000"],
     "Budget Level (SGD)");
    (lines ["Duration of Results:"; ""; "1: 12 months"; "2: 6 months"; ""],
     "Duration of Results (months)");
    (lines ["Number of Sessions Required:"; ""; "1: 1 session"; "2: 2 sessions";
            "3: 4 sessions"; "4: 6 sessions"],
     "Sessions Required");
    (lines ["Level of Discomfort:"; ""; "1: Low"; "2: Low-moderate"; "3: Moderate";
            "4: Moderate-high"; "5: High"],
     "Discomfort Level");
    (lines ["Amount of Downtime:"; ""; "1: None"; "2: 1 day"; "3: 3 days"; "4: 7 days "],
     "Downtime");
    (lines ["Prescribed Intervals between Sessions:"; ""; "1: 1 day"; "2: 1 week";
            "3: 2 weeks"; "4: 1 month"; "5: 3 months"; "6: 6 months"],
     "Interval Between Sessions");
    ("Delivery Mode", "Delivery Mode") ].

Definition rename_column (c : string) : string :=
  match List.find (fun kv => String.eqb kv.1 c) display_names with
  | Some kv => kv.2
  | None => c
  end.

Definition columns_to_display : list string :=
  [ "Treatment Name"; "Budget Level (SGD)"; "Duration of Results (months)";
    "Sessions Required"; "Discomfort Level"; "Delivery Mode"; "Downtime";
    "Interval Between Sessions" ].

(** [top_recommendations.index = range(1, len(top_recommendations) + 1)] *)
Fixpoint relabel (i : nat) (l : list scored) : list scored :=
  match l with
  | [] => []
  | r :: rest =>
      {| source := {| label := i;
                      Concern_Code := Concern_Code (source r);
                      T_Score_cell := T_Score_cell (source r);
                      attributes := attributes (source r) |};
         T_Score := T_Score r;
         D_Score := D_Score r |} :: relabel (S i) rest
  end.

(** ** The matcher *)

Section Program.
Variable E : env.

Definition generate_voucher_code : string := String.substring 0 8 (uuid4 E).

Definition load_data (sheet_name : string) : M (DataFrame treatment) :=
  match read_excel E sheet_name with
  | inr table => mret table
  | inl e =>
      emit (StError ("Error loading data from sheet '" +:+ sheet_name +:+ "': " +:+ e));;
      mret empty_frame
  end.

(** Lines 251-252 of [recommend_treatments]: the "T-Score" column is
    converted for every row of the sheet, then the "D-Score" column is
    computed for every row of the sheet. *)
Definition score_rows (p_score : list pyval) (data : DataFrame treatment)
  : result (DataFrame scored) :=
  if negb (bool_decide ("T-Score" ∈ columns data)) then Raise (KeyError "T-Score")
  else
    t_scores ← mapR (fun r => convert_t_score (T_Score_cell r)) (rows data);
    d_scores ← mapR (calculate_d_score p_score) t_scores;
    Ok {| columns := if bool_decide ("D-Score" ∈ columns data) then columns data
                     else columns data ++ ["D-Score"];
          rows := zip_with (fun r td => {| source := r; T_Score := td.1; D_Score := td.2 |})
                    (rows data) (zip t_scores d_scores) |}.

(** [repr] of a list of strings that hold no quote or escape. *)
Definition repr_labels (labels : list string) : string :=
  "[" +:+ String.concat ", " (map (fun c => "'" +:+ c +:+ "'") labels) +:+ "]".

(** The [rename], the new index and the selection
    [top_recommendations[columns_to_display]]: for each label of the list,
    every column that bears it after the rename, so that a label borne by
    two columns gives two columns.  A label borne by none raises
    [KeyError]; when no label is found at all, pandas prints the whole
    index in the message, which is given here on one line. *)
Definition display_table (top : DataFrame scored) : result (DataFrame scored) :=
  let renamed := map rename_column (columns top) in
  match List.filter (fun c => negb (bool_decide (c ∈ renamed))) columns_to_display with
  | [] =>
      Ok {| columns := flat_map (fun c => List.filter (String.eqb c) renamed)
                         columns_to_display;
            rows := relabel 1 (rows top) |}
  | not_found =>
      Raise (KeyError
        (if Nat.eqb (length not_found) (length columns_to_display) then
           "None of [Index(" +:+ repr_labels columns_to_display
           +:+ ", dtype='object')] are in the [columns]"
         else repr_labels not_found +:+ " not in index"))
  end.

Definition recommend_treatments (p_score : list pyval) : M unit :=
  responses ← get_responses;
  let injectable_preference := responses !! "Delivery Mode" in
  match
    match injectable_preference with
    | Some (VInt 1) => Some "Non-injectable"
    | Some (VInt 2) => Some "All treatments"
    | _ => None
    end
  with
  | None => emit (StError "Invalid selection for injectable preference.")
  | Some sheet_name =>
      data ← load_data sheet_name;
      if df_empty data then
        emit (StError ("Unable to load data from the '" +:+ sheet_name +:+ "' sheet."))
      else
        concern_code ← lift (match p_score with
                             | c :: _ => Ok c
                             | [] => Raise IndexError
                             end);
        if negb (truthy concern_code) then
          emit (StError "Invalid concern code extracted. Please check your responses.")
        else
          data ← lift (score_rows p_score data);
          filtered_data ← lift (filter_treatments data concern_code);
          if df_empty filtered_data then
            emit (StError ("No treatments found for the Concern Code '"
                           +:+ match concern_code with VStr c => c | _ => "" end +:+ "'."))
          else
            (* the dtype of "D-Score" was fixed when the column was added *)
            top_recommendations ←
              lift (if numeric_column (map D_Score (rows data)) then
                      Ok {| columns := columns filtered_data;
                            rows := nsmallest D_Score 5 (rows filtered_data) |}
                    else Raise TypeError);
            final_table ← lift (display_table top_recommendations);
            set_final_table final_table;;
            if negb (df_empty final_table) then
              emit (StWrite "### Top 5 Recommended Treatments");;
              emit (StTable final_table)
            else
              emit (StError "No matching treatments found after filtering and scoring.")
  end.

(** The list comprehension of [display_p_score]; [q["question"]] raises
    [KeyError] on an entry without that key. *)
Definition answers (responses : gmap string pyval) (qs : list question)
  : result (list pyval) :=
  mapR (fun q => match q_question q with
                 | Some k => Ok (default (VInt 1) (responses !! k))
                 | None => Raise (KeyError "question")
                 end) qs.

Definition incomplete_data : string :=
  "Incomplete data. Please answer all the questions before submitting.".

Definition display_p_score : M unit :=
  responses ← get_responses;
  if bool_decide (questions E = []) then
    emit (StError "Questions data is missing or improperly formatted.")
  else
    specific_interest_code ←
      lift (extract_concern_code (default (VStr "") (responses !! "Specific Interest")));
    match specific_interest_code with
    | None | Some EmptyString =>
        emit (StError
          "Specific Interest Code is invalid or missing. Please ensure you have completed the survey.")
    | Some code =>
        match answers responses (drop 1 (questions E)) with
        | Raise (KeyError _) => emit (StError "Missing question key: 'question'")
        | Raise e => lift (Raise e)
        | Ok tail =>
            let scores := VStr code :: tail in
            if negb (Nat.eqb (length scores) (length (questions E))) then
              emit (StError incomplete_data);;
              emit (Print (length scores));;
              emit (Print (length (questions E)))
            else
              recommend_treatments scores;;
              let voucher_code := generate_voucher_code in
              set_voucher_code voucher_code;;
              emit (StSuccess ("Thank you for completing the survey! Your unique voucher code is: **"
                               +:+ voucher_code +:+ "**"))
        end
    end.

Definition generate_pdf_from_dataframe (df : DataFrame scored) : M pdf :=
  voucher_code ← get_voucher_code;
  mret {| pdf_table := df; pdf_voucher := default "N/A" voucher_code |}.

(** [main] from the submit button on.  The title and [render_survey] run
    before it and leave the world that is passed in; [submit] is the value
    of [st.button("Submit")]. *)
Definition main (submit : bool) : M unit :=
  (if submit then display_p_score else mret ());;
  final_table ← get_final_table;
  match final_table with
  | Some table =>
      pdf_buffer ← generate_pdf_from_dataframe table;
      emit (StWrite ("**Please download the pdf and this will be your exclusive"
                     +:+ nbsp +:+ "coupon!**"));;
      emit (StDownloadButton pdf_buffer)
  | None => mret ()
  end.

End Program.

(** ** The survey form *)

(** [str(n)] for a natural number. *)
Definition str_of_nat (n : nat) : string := NilEmpty.string_of_uint (Nat.to_uint n).

(** [[f"{i + 1}) {option}" for i, option in enumerate(options)]] *)
Definition numbered (options : list string) : list string :=
  imap (fun i option => str_of_nat (i + 1) +:+ ") " +:+ option) options.

Definition placeholder : string := "Select one option".

(** [st.selectbox(label, options, index=0)]: the option at the position
    the user picked.  A widget that was not touched, and a position past
    the end of the list, read as the first option.  What Streamlit itself
    checks (two select boxes that cannot be told apart) is outside the
    embedding. *)
Definition selectbox (options : list string) (pick : nat) : string :=
  default (default "" (head options)) (options !! pick).

(** [int(response.split(")")[0])] *)
Definition leading_number (response : string) : result Z :=
  match PyStr.split ")" response with
  | first :: _ => py_int (VStr first)
  | [] => Raise IndexError
  end.

(** [l[k]], negative positions counting from the end. *)
Definition py_index {A : Type} (l : list A) (k : Z) : result A :=
  let i := if (k <? 0)%Z then (Z.of_nat (length l) + k)%Z else k in
  if (i <? 0)%Z then Raise IndexError
  else match l !! Z.to_nat i with
       | Some x => Ok x
       | None => Raise IndexError
       end.

(** [pick] is the position chosen in the select box of the question; the
    result is the [int] returned, or [VNone]. *)
Definition render_question (question_data : question) (pick : nat) : result pyval :=
  let numbered_options := numbered (q_options question_data) in
  match q_question question_data with
  | None => Raise (KeyError "question")
  | Some _ =>
      let response := selectbox (placeholder :: numbered_options) pick in
      if negb (String.eqb response placeholder) then
        n ← leading_number response;
        Ok (VInt n)
      else Ok VNone
  end.

(** The positions the user has chosen in the select boxes of the form:
    primary concern, specific interest, and each further question by its
    position in the question list. *)
Record picks : Type := {
  primary_pick : nat;
  specific_pick : nat;
  question_pick : nat -> nat
}.

Definition set_response (k : string) (v : pyval) : M unit :=
  fun w => (Ok (), {| session := {| responses := <[k := v]> (responses (session w));
                                    final_table := final_table (session w);
                                    voucher_code := voucher_code (session w) |};
                      page := page w |}).

(** The loop of [render_survey] over [enumerate(questions[1:], start=1)],
    from position [i] on. *)
Fixpoint render_general (ui : picks) (i : nat) (qs : list question) : M unit :=
  match qs with
  | [] => mret ()
  | question :: rest =>
      response ← lift (render_question question (question_pick ui i));
      (if truthy response then
         match q_question question with
         | Some k => set_response k response
         | None => lift (Raise (KeyError "question"))
         end
       else mret ());;
      (if Nat.eqb (i + 1) 6 then set_response "Delivery Mode" response else mret ());;
      render_general ui (S i) rest
  end.

(** [render_survey(questions)].  [concerns] is the loaded concern mapping.
    The select boxes themselves leave no trace on [page], which records
    messages, tables and the download button. *)
Definition render_survey (concerns : gmap string (list string))
           (questions : list question) (ui : picks) : M (gmap string pyval) :=
  first ← lift (match questions with
                | q :: _ => Ok q
                | [] => Raise IndexError
                end);
  primary_concern_index ← lift (render_question first (primary_pick ui));
  (if truthy primary_concern_index then
     primary_concern ← lift (match primary_concern_index with
                             | VInt n => py_index (q_options first) (n - 1)
                             | VStr _ | VNone => Raise TypeError
                             end);
     set_response "Primary Concern" (VStr primary_concern);;
     let specific_options := default [] (concerns !! primary_concern) in
     let numbered_specific_options := numbered specific_options in
     let specific_choice :=
       selectbox (placeholder :: numbered_specific_options) (specific_pick ui) in
     if negb (String.eqb specific_choice placeholder) then
       n ← lift (leading_number specific_choice);
       chosen ← lift (py_index numbered_specific_options (n - 1));
       set_response "Specific Interest" (VStr chosen)
     else mret ()
   else mret ());;
  render_general ui 1 (drop 1 questions);;
  get_responses.

(** Line 311 of [generate_pdf_from_dataframe]: the last row of the table,
    [["VOUCHER CODE", voucher_code] + [""] * (len(df.columns) - 2)]; a
    count that is not positive repeats nothing. *)
Definition voucher_row (voucher_code : string) (df : DataFrame scored) : list string :=
  ["VOUCHER CODE"; voucher_code] ++ replicate (length (columns df) - 2) "".

(** * Notions of the specification *)

(** The distance as the specification words it: the sum of the absolute
    differences of corresponding numeric elements. *)
Definition sum_abs_differences (ps ts : list Z) : Z :=
  foldr Z.add 0%Z (zip_with (fun p t => Z.abs (p - t)) ps ts).

(** The order and the tie classes of a selection by [key]. *)
Definition key_le {A : Type} (key : A -> Z) (a b : A) : Prop := (key a <= key b)%Z.
Definition has_key {A : Type} (key : A -> Z) (d : Z) (a : A) : bool := (key a =? d)%Z.

(** The matcher in the order the specification gives: filter by concern
    code, score the rows that remain, select the five nearest. *)
Definition matcher_filter_first (p_score : list pyval) (data : DataFrame treatment)
           (concern_code : pyval) : result (list scored) :=
  filtered_data ← filter_treatments data concern_code;
  scored_data ← score_rows p_score filtered_data;
  Ok (nsmallest D_Score 5 (rows scored_data)).

(** A scored row carries the conversion of its own T-Score cell and the
    distance of that T-Score from the P-Score. *)
Definition scored_by (p_score : list pyval) (z : scored) : Prop :=
  convert_t_score (T_Score_cell (source z)) = Ok (T_Score z)
  /\ calculate_d_score p_score (T_Score z) = Ok (D_Score z).

(** The sheet chosen by the answer stored under "Delivery Mode". *)
Definition chosen_sheet (responses : gmap string pyval) : option string :=
  match responses !! "Delivery Mode" with
  | Some (VInt 1) => Some "Non-injectable"
  | Some (VInt 2) => Some "All treatments"
  | _ => None
  end.

(** What only the "Incomplete data" branch puts on the page or prints. *)
Definition from_length_check (e : event) : Prop :=
  e = StError incomplete_data \/ exists n, e = Print n.

(** A run extends the page by events that do not come from that branch. *)
Definition extends_clean (w w' : world) : Prop :=
  exists new, page w' = page w ++ new /\ forall e, e ∈ new -> ~ from_length_check e.

(** [s] has no character for which [p] fails. *)
Fixpoint forall_chars (p : ascii -> bool) (s : string) : bool :=
  match s with
  | EmptyString => true
  | String c rest => p c && forall_chars p rest
  end.

Definition is_digit (c : ascii) : bool :=
  match PyStr.digit_value c with
  | Some _ => true
  | None => false
  end.

(** [s] does not contain the character [c]. *)
Definition lacks (c : ascii) (s : string) : bool := negb (PyStr.mem_char c s).

(** What [render_question] returns for a position picked in the select box
    of [q]: the position when it names an option, [None] otherwise. *)
Definition answer_of (q : question) (pick : nat) : pyval :=
  if bool_decide (1 <= pick <= length (q_options q)) then VInt (Z.of_nat pick) else VNone.

(** The world after [responses[k] = v]. *)
Definition write (k : string) (v : pyval) (w : world) : world := (set_response k v w).2.

(** The world after one round of the loop of [render_survey], for the
    question [q] titled [title] at position [i]. *)
Definition after_question (ui : picks) (i : nat) (q : question) (title : string)
           (w : world) : world :=
  let a := answer_of q (question_pick ui i) in
  let w1 := if truthy a then write title a w else w in
  if Nat.eqb (i + 1) 6 then write "Delivery Mode" a w1 else w1.

(** A step that touches nothing but the response mapping, and removes no
    entry from it. *)
Definition keeps_answers (w w' : world) : Prop :=
  final_table (session w') = final_table (session w)
  /\ voucher_code (session w') = voucher_code (session w)
  /\ page w' = page w
  /\ forall k, is_Some (responses (session w) !! k) -> is_Some (responses (session w') !! k).

(** Every entry of the question list has its "question" key. *)
Definition titled (qs : list question) : Prop :=
  Forall (fun q => q_question q <> None) qs.

(** No entry of the question list is titled [k]. *)
Definition untitled (k : string) (qs : list question) : Prop :=
  Forall (fun q => q_question q <> Some k) qs.

(** The world after the first part of [render_survey]: the primary concern
    and, when one is picked, the specific interest. *)
Definition after_primary (concerns : gmap string (list string)) (first : question)
           (ui : picks) (w : world) : world :=
  match primary_pick ui with
  | 0 => w
  | S i =>
      match q_options first !! i with
      | None => w
      | Some primary_concern =>
          let w1 := write "Primary Concern" (VStr primary_concern) w in
          match specific_pick ui with
          | 0 => w1
          | S j =>
              match default [] (concerns !! primary_concern) !! j with
              | None => w1
              | Some label =>
                  write "Specific Interest"
                    (VStr (str_of_nat (j + 1) +:+ ") " +:+ label)) w1
              end
          end
      end
  end.

(** [str(z)] for an integer. *)
Definition str_of_Z (z : Z) : string :=
  if (z <? 0)%Z then "-" +:+ str_of_nat (Z.to_nat (- z)) else str_of_nat (Z.to_nat z).

(** The fields after the identifier in the text of a T-Score, each led by
    the separator. *)
Fixpoint repr_values (values : list Z) : string :=
  match values with
  | [] => ""
  | v :: rest => ", " +:+ str_of_Z v +:+ repr_values rest
  end.

(** The text of a T-Score in the format of the docstring of
    [convert_t_score], ['[id, value1, value2, ...]'], with the identifier
    in single quotes (as Python prints a list) or bare. *)
Definition t_score_repr (quoted : bool) (id : string) (values : list Z) : string :=
  let q := if quoted then "'" else "" in
  "[" +:+ (q +:+ id +:+ q +:+ repr_values values) +:+ "]".

(** An identifier free of the characters that the format gives a meaning. *)
Definition plain (id : string) : bool :=
  forall_chars (fun c => negb (PyStr.mem_char c "[]',")) id.

(** The world after more events are put on the page. *)
Definition show (es : list event) (w : world) : world :=
  {| session := session w; page := page w ++ es |}.

(** The world after [st.session_state["final_table"] = t]. *)
Definition store_table (t : DataFrame scored) (w : world) : world := (set_final_table t w).2.

(** The world after [st.session_state["voucher_code"] = v]. *)
Definition store_voucher (v : string) (w : world) : world := (set_voucher_code v w).2.

(** The error messages with which [recommend_treatments] declines to
    recommend and returns. *)
Inductive refusal : list event -> Prop :=
  | refuse_selection :
      refusal [StError "Invalid selection for injectable preference."]
  | refuse_unreadable (sheet err : string) :
      refusal [StError ("Error loading data from sheet '" +:+ sheet +:+ "': " +:+ err);
               StError ("Unable to load data from the '" +:+ sheet +:+ "' sheet.")]
  | refuse_empty (sheet : string) :
      refusal [StError ("Unable to load data from the '" +:+ sheet +:+ "' sheet.")]
  | refuse_code :
      refusal [StError "Invalid concern code extracted. Please check your responses."].

(** The columns of a displayed table: the display labels in the order of
    [columns_to_display], each as often as a column bears it, and at least
    once. *)
Definition display_columns (cols : list string) : Prop :=
  exists count : string -> nat,
    (forall c, c ∈ columns_to_display -> 1 <= count c)
    /\ cols = flat_map (fun c => replicate (count c) c) columns_to_display.

(** The columns shown for a sheet: for each display label in turn, one
    column for every column of the sheet that bears the label after the
    rename. *)
Definition shown_columns (sheet_columns : list string) : list string :=
  flat_map (fun c => List.filter (String.eqb c) (map rename_column sheet_columns))
    columns_to_display.

(** A table of recommendations for a concern code: display columns, one
    to five rows numbered from 1, in ascending order of D-Score, each with
    a concern code that starts with the code asked for. *)
Definition recommendation (concern_code : pyval) (t : DataFrame scored) : Prop :=
  display_columns (columns t)
  /\ 1 <= length (rows t) <= 5
  /\ map (fun r => label (source r)) (rows t) = seq 1 (length (rows t))
  /\ StronglySorted (key_le D_Score) (rows t)
  /\ exists code, concern_code = VStr code
                  /\ Forall (fun r => code_matches code r = true) (rows t).

(** The two messages of [recommend_treatments] that follow a test which
    cannot succeed. *)
Definition dead_message (e : event) : Prop :=
  (exists code, e = StError ("No treatments found for the Concern Code '" +:+ code +:+ "'."))
  \/ e = StError "No matching treatments found after filtering and scoring.".

(** The message of [display_p_score] after [recommend_treatments]. *)
Definition thanks (voucher : string) : event :=
  StSuccess ("Thank you for completing the survey! Your unique voucher code is: **"
             +:+ voucher +:+ "**").

(** Whenever a table is stored, a voucher is stored. *)
Definition voucher_with_table (w : world) : Prop :=
  final_table (session w) <> None -> voucher_code (session w) <> None.

(** The error messages with which [display_p_score] stops before the
    recommendation. *)
Definition questions_missing : event :=
  StError "Questions data is missing or improperly formatted.".
Definition code_missing : event :=
  StError "Specific Interest Code is invalid or missing. Please ensure you have completed the survey.".
Definition key_missing : event := StError "Missing question key: 'question'".
Definition selection_invalid : event :=
  StError "Invalid selection for injectable preference.".
Definition please_download : event :=
  StWrite ("**Please download the pdf and this will be your exclusive"
           +:+ nbsp +:+ "coupon!**").

(** The download that [main] offers for a stored table. *)
Definition download (t : DataFrame scored) (voucher : option string) : event :=
  StDownloadButton {| pdf_table := t; pdf_voucher := default "N/A" voucher |}.

(** The world after the second half of [main]. *)
Definition offer_pdf (w : world) : world :=
  match final_table (session w) with
  | Some t => show [please_download; download t (voucher_code (session w))] w
  | None => w
  end.

(** * A small survey and catalogs *)

Definition example_questions : list question :=
  [ {| q_question := Some "What is your primary concern?"; q_options := ["Acne"; "Other"] |};
    {| q_question := Some "Budget"; q_options := ["Low"; "Mid"; "High"] |};
    {| q_question := Some "Downtime"; q_options := ["None"; "1 day"; "3 days"] |};
    {| q_question := Some "Sessions"; q_options := ["1"; "2"] |} ].

Definition catalog_columns : list string :=
  "Concern Code" :: "T-Score" :: map fst display_names.

Definition example_row (i : nat) (code t_score name : string) : treatment :=
  {| label := i; Concern_Code := Some code; T_Score_cell := CStr t_score;
     attributes := [name] |}.

Definition example_catalog : DataFrame treatment :=
  {| columns := catalog_columns;
     rows := [ example_row 0 "A1" "['A1', 2, 1, 1]" "Peel";
               example_row 1 "B1" "['B1', 1, 1, 1]" "Laser";
               example_row 2 "A12" "['A12', 2, 3, 1]" "Facial" ] |}.

(** The same catalog scored against the P-Score ["A1", 2, 3, 1], and what
    the filter for "A1" keeps of it. *)
Definition example_scored_row (i : nat) (code name : string) (values : list Z) (d : Z)
  : scored :=
  {| source := example_row i code (t_score_repr true code values) name;
     T_Score := VStr code :: map VInt values;
     D_Score := d |}.

Definition example_scored : DataFrame scored :=
  {| columns := catalog_columns ++ ["D-Score"];
     rows := [ example_scored_row 0 "A1" "Peel" [2; 1; 1]%Z 2;
               example_scored_row 1 "B1" "Laser" [1; 1; 1]%Z 3;
               example_scored_row 2 "A12" "Facial" [2; 3; 1]%Z 0 ] |}.

Definition example_filtered : DataFrame scored :=
  {| columns := catalog_columns ++ ["D-Score"];
     rows := [ example_scored_row 0 "A1" "Peel" [2; 1; 1]%Z 2;
               example_scored_row 2 "A12" "Facial" [2; 3; 1]%Z 0 ] |}.

Definition example_env (catalog : DataFrame treatment) : env :=
  {| questions := example_questions;
     read_excel := fun sheet => if String.eqb sheet "Non-injectable" then inr catalog
                                else inl "Worksheet not found";
     uuid4 := "3f2b8c1e-7a4d-4e5f-9b6a-0c1d2e3f4a5b" |}.

(** The session after a survey in which "Sessions" was left unanswered. *)
Definition example_world (specific_interest : string) : world :=
  {| session := {| responses := <["Specific Interest" := VStr specific_interest]>
                                (<["Delivery Mode" := VInt 1]>
                                 (<["Budget" := VInt 2]> (<["Downtime" := VInt 3]> ∅)));
                   final_table := None;
                   voucher_code := None |};
     page := [] |}.

Definition survey_questions : list question :=
  [ {| q_question := Some "What is your primary concern?"; q_options := ["Acne"; "Pigmentation"] |};
    {| q_question := Some "Budget"; q_options := ["Low"; "Mid"; "High"] |};
    {| q_question := Some "Downtime"; q_options := ["None"; "1 day"; "3 days"] |};
    {| q_question := Some "Sessions"; q_options := ["1"; "2"] |};
    {| q_question := Some "Discomfort"; q_options := ["Low"; "High"] |};
    {| q_question := Some "Are you open to injectables?"; q_options := ["Yes"; "No"] |} ].

Definition survey_concerns : gmap string (list string) :=
  <["Acne" := ["A1 - Active acne"; "A2 - Acne scars"] ]>
    (<["Pigmentation" := ["P1 - Melasma"] ]> ∅).

(** Primary concern "Acne", specific interest "A2 - Acne scars", the
    second option everywhere else except the first for the sixth
    question. *)
Definition survey_picks : picks :=
  {| primary_pick := 1; specific_pick := 2;
     question_pick := fun i => if Nat.eqb i 5 then 1 else 2 |}.

Definition fresh_world : world :=
  {| session := {| responses := ∅; final_table := None; voucher_code := None |};
     page := [] |}.

(** A session that holds the table and the voucher of an earlier
    submission, and a new specific interest but no "Delivery Mode". *)
Definition stale_table : DataFrame scored :=
  {| columns := columns_to_display;
     rows := [ {| source := example_row 1 "B1" "['B1', 1, 1, 1]" "Laser";
                  T_Score := [VStr "B1"; VInt 1; VInt 1; VInt 1];
                  D_Score := 0 |} ] |}.

Definition stale_world : world :=
  {| session := {| responses := <["Specific Interest" := VStr "1) A1 - Acne"]> ∅;
                   final_table := Some stale_table;
                   voucher_code := Some "0a1b2c3d" |};
     page := [] |}.

(** A catalog with the four codes of the specification's example. *)
Definition coded (i : nat) (code : option string) : treatment :=
  {| label := i; Concern_Code := code; T_Score_cell := CNaN; attributes := [] |}.

Definition example_codes : DataFrame treatment :=
  {| columns := ["Concern Code"];
     rows := [coded 0 (Some "A"); coded 1 (Some "B1"); coded 2 (Some "A1");
              coded 3 None; coded 4 (Some "A23")] |}.

(** A catalog whose second row belongs to another concern and has a
    T-Score one field short. *)
Definition short_row_catalog : DataFrame treatment :=
  {| columns := catalog_columns;
     rows := [ example_row 0 "A1" "['A1', 2, 1, 1]" "Peel";
               example_row 1 "B1" "['B1', 2, 1]" "Laser" ] |}.

(** The environment of the six-question survey. *)
Definition survey_env (catalog : DataFrame treatment) : env :=
  {| questions := survey_questions;
     read_excel := fun sheet => if String.eqb sheet "Non-injectable" then inr catalog
                                else inl "Worksheet not found";
     uuid4 := "3f2b8c1e-7a4d-4e5f-9b6a-0c1d2e3f4a5b" |}.

(** A sheet for that survey without a row for the concern "A2"; its
    second row has a T-Score three fields short. *)
Definition unmatched_catalog : DataFrame treatment :=
  {| columns := catalog_columns;
     rows := [ example_row 0 "A1" "['A1', 2, 2, 2, 2, 1]" "Peel";
               example_row 1 "B1" "['B1', 2, 1]" "Laser" ] |}.

(** * Properties *)

(** ** The D-Score *)

Lemma sum_terms_ints (ps ts : list Z) (acc : Z) :
  DScore.sum_terms acc (zip (map VInt ps) (map VInt ts))
  = Ok (acc + sum_abs_differences ps ts)%Z.
Proof.
  revert ts acc. induction ps as [|p ps IH]; intros [|t ts] acc; simpl;
    try (f_equal; unfold sum_abs_differences; simpl; lia).
  rewrite IH. f_equal. unfold sum_abs_differences. simpl. lia.
Qed.

Lemma calculate_d_score_ints (idp idt : pyval) (ps ts : list Z) :
  length ps = length ts -> ps <> [] ->
  calculate_d_score (idp :: map VInt ps) (idt :: map VInt ts)
  = Ok (sum_abs_differences ps ts).
Proof.
  intros Hlen Hne. unfold calculate_d_score. simpl.
  rewrite !length_map, Hlen, Nat.eqb_refl. simpl.
  destruct ps as [|p ps]; [done|]. destruct ts as [|t ts]; [done|]. simpl.
  rewrite sum_terms_ints. reflexivity.
Qed.

Lemma sum_abs_differences_nonneg (ps ts : list Z) : (0 <= sum_abs_differences ps ts)%Z.
Proof.
  revert ts. induction ps as [|p ps IH]; intros [|t ts]; unfold sum_abs_differences;
    simpl; try lia.
  specialize (IH ts). unfold sum_abs_differences in IH. lia.
Qed.

Lemma sum_abs_differences_zero (ps ts : list Z) :
  length ps = length ts ->
  sum_abs_differences ps ts = 0%Z <-> ps = ts.
Proof.
  revert ts. induction ps as [|p ps IH]; intros [|t ts] Hlen; simpl in Hlen; try lia.
  - done.
  - injection Hlen as Hlen. specialize (IH ts Hlen).
    pose proof (sum_abs_differences_nonneg ps ts) as Hpos.
    unfold sum_abs_differences in *. simpl. split.
    + intros Hz. assert (p = t) by lia. subst t. f_equal. apply IH. lia.
    + intros [= -> ->]. destruct IH as [_ IH]. rewrite IH by done. lia.
Qed.

(** C1. On score lists of equal length at least 2 whose elements after the
    identifier are integers, [calculate_d_score] returns the sum of the
    absolute differences of corresponding elements, the identifier left
    out; on ["A1", 2, 3, 1] and ["A1", 2, 1, 1] it returns 2. *)
Theorem calculate_d_score_sum_abs (idp idt : pyval) (ps ts : list Z) :
  length (idp :: map VInt ps) = length (idt :: map VInt ts) ->
  2 <= length (idp :: map VInt ps) ->
  calculate_d_score (idp :: map VInt ps) (idt :: map VInt ts)
  = Ok (sum_abs_differences ps ts)
  /\ calculate_d_score [VStr "A1"; VInt 2; VInt 3; VInt 1]
                       [VStr "A1"; VInt 2; VInt 1; VInt 1] = Ok 2%Z.
Proof.
  simpl. rewrite !length_map. intros Hlen Hge. split; [|reflexivity].
  apply calculate_d_score_ints; [lia|]. destruct ps; simpl in *; [lia|done].
Qed.

Lemma calculate_d_score_sum_abs_witness :
  calculate_d_score (VStr "A1" :: map VInt [2; 3; 1]%Z) (VStr "B7" :: map VInt [5; 3; 0]%Z)
  = Ok 4%Z.
Proof.
  apply (calculate_d_score_sum_abs (VStr "A1") (VStr "B7") [2; 3; 1]%Z [5; 3; 0]%Z);
    simpl; lia.
Defined.

(** C4. On lists of unequal length [calculate_d_score] raises the
    validation error, whatever the lists hold (no term of the distance is
    evaluated), and produces no D-Score. *)
Theorem calculate_d_score_length_mismatch (p_score t_score : list pyval) :
  length p_score <> length t_score ->
  calculate_d_score p_score t_score
  = Raise (ValueError "p_score and t_score must have the same length.")
  /\ forall d, calculate_d_score p_score t_score <> Ok d.
Proof.
  intros Hne. unfold calculate_d_score.
  destruct (Nat.eqb_spec (length p_score) (length t_score)) as [Heq|_]; [done|].
  simpl. split; [reflexivity|discriminate].
Qed.

Lemma calculate_d_score_length_mismatch_witness :
  calculate_d_score [VStr "A1"; VNone; VStr "x"] [VStr "A1"; VNone]
  = Raise (ValueError "p_score and t_score must have the same length.")
  /\ forall d, calculate_d_score [VStr "A1"; VNone; VStr "x"] [VStr "A1"; VNone] <> Ok d.
Proof.
  apply (calculate_d_score_length_mismatch [VStr "A1"; VNone; VStr "x"] [VStr "A1"; VNone]).
  simpl. lia.
Defined.

(** C8. On a valid pair of equal length (identifier first, integers after
    it, at least one of them) the D-Score is at least 0, and it is 0
    exactly when the numeric elements agree position by position. *)
Theorem calculate_d_score_nonneg_zero_iff (idp idt : pyval) (ps ts : list Z) :
  length (idp :: map VInt ps) = length (idt :: map VInt ts) ->
  ps <> [] ->
  exists d, calculate_d_score (idp :: map VInt ps) (idt :: map VInt ts) = Ok d
            /\ (0 <= d)%Z
            /\ (d = 0%Z <-> ps = ts).
Proof.
  simpl. rewrite !length_map. intros [= Hlen] Hne.
  exists (sum_abs_differences ps ts). split; [by apply calculate_d_score_ints|].
  split; [apply sum_abs_differences_nonneg | by apply sum_abs_differences_zero].
Qed.

Lemma calculate_d_score_nonneg_zero_iff_witness :
  exists d, calculate_d_score (VStr "A1" :: map VInt [2; 3]%Z) (VStr "A1" :: map VInt [2; 3]%Z)
            = Ok d
            /\ (0 <= d)%Z /\ (d = 0%Z <-> [2; 3]%Z = [2; 3]%Z).
Proof.
  apply (calculate_d_score_nonneg_zero_iff (VStr "A1") (VStr "A1") [2; 3]%Z [2; 3]%Z);
    [reflexivity | discriminate].
Defined.

(** ** The T-Score conversion *)

Lemma split_go_nonempty (sep : string) (s : string) :
  forall skip piece, PyStr.split_go sep skip piece s <> [].
Proof.
  induction s as [|c s IH]; intros skip piece; simpl; [done|].
  destruct skip; [|apply IH].
  match goal with |- context [if ?b then _ else _] => destruct b end; [done|apply IH].
Qed.

Lemma t_score_elements_nonempty (s : string) :
  exists id values, t_score_elements s = id :: values.
Proof.
  unfold t_score_elements, PyStr.split.
  destruct (PyStr.split_go _ _ _ _) as [|id values] eqn:Hs; [|by eauto].
  by apply split_go_nonempty in Hs.
Qed.

(** C7. On a non-empty T-Score string [convert_t_score] does not raise:
    it returns one value per element of the string, and an element after
    the identifier that fails integer parsing becomes -1 while every
    element that parses becomes its integer. *)
Theorem convert_t_score_sentinel (s : string) :
  s <> "" ->
  exists out,
    convert_t_score (CStr s) = Ok out
    /\ length out = length (t_score_elements s)
    /\ forall i v, t_score_elements s !! S i = Some v ->
         out !! S i = Some (VInt match PyStr.parse_int (PyStr.strip v) with
                                 | Some n => n
                                 | None => (-1)%Z
                                 end).
Proof.
  intros Hne. unfold convert_t_score.
  destruct (String.eqb_spec s "") as [->|_]; [done|].
  destruct (t_score_elements_nonempty s) as (id & values & ->).
  eexists. split; [reflexivity|]. split; [simpl; by rewrite length_map|].
  intros i v Hv. simpl in *. rewrite list_lookup_fmap, Hv. reflexivity.
Qed.

Lemma convert_t_score_sentinel_witness :
  exists out,
    convert_t_score (CStr "['A1', 2, x, 3, , 4_0]") = Ok out
    /\ length out = 6
    /\ forall i v, t_score_elements "['A1', 2, x, 3, , 4_0]" !! S i = Some v ->
         out !! S i = Some (VInt match PyStr.parse_int (PyStr.strip v) with
                                 | Some n => n
                                 | None => (-1)%Z
                                 end).
Proof.
  apply (convert_t_score_sentinel "['A1', 2, x, 3, , 4_0]"). discriminate.
Defined.

Example convert_t_score_malformed_field :
  convert_t_score (CStr "['A1', 2, x, 3, , 4_0]")
  = Ok [VStr "A1"; VInt 2; VInt (-1); VInt 3; VInt (-1); VInt 40].
Proof. reflexivity. Qed.

(** ** The prefix filter *)

Lemma filter_none {A : Type} (f : A -> bool) (l : list A) :
  (forall x, x ∈ l -> f x = false) -> List.filter f l = [].
Proof.
  induction l as [|x l IH]; intros Hall; simpl; [done|].
  rewrite (Hall x) by constructor. apply IH. intros y Hy. apply Hall. by constructor.
Qed.

Section FilterFacts.
Context {R : Type} `{Coded R}.

Lemma code_matches_has_code (code : string) (r : R) :
  code_matches code r = true -> has_code r = true.
Proof. unfold code_matches, has_code. by destruct (concern_code_of r). Qed.

Lemma filter_matches_after_dropna (code : string) (l : list R) :
  List.filter (code_matches code) (List.filter has_code l)
  = List.filter (code_matches code) l.
Proof.
  induction l as [|r l IH]; simpl; [done|].
  destruct (has_code r) eqn:Hc; simpl; rewrite IH; [done|].
  destruct (code_matches code r) eqn:Hm; [|done].
  apply code_matches_has_code in Hm. congruence.
Qed.

Lemma df_empty_false (d : DataFrame R) :
  df_empty d = false <-> rows d <> [] /\ columns d <> [].
Proof.
  unfold df_empty. destruct (rows d), (columns d); split; try done; by intros [? ?].
Qed.

(** After the drop the mask has no missing entry, and indexing by it keeps
    the rows whose code starts with the target. *)
Lemma boolean_index_after_dropna (code : string) (l : list R) :
  boolean_index (startswith_mask code) (List.filter has_code l)
  = Ok (List.filter (code_matches code) l).
Proof.
  induction l as [|r l IH]; [done|]. cbn [List.filter].
  destruct (concern_code_of r) as [c|] eqn:Hc.
  - replace (has_code r) with true by (unfold has_code; by rewrite Hc).
    replace (code_matches code r) with (PyStr.startswith c code)
      by (unfold code_matches; by rewrite Hc).
    cbn [boolean_index].
    replace (startswith_mask code r) with (Some (PyStr.startswith c code))
      by (unfold startswith_mask; by rewrite Hc).
    rewrite IH. simpl. by destruct (PyStr.startswith c code).
  - replace (has_code r) with false by (unfold has_code; by rewrite Hc).
    replace (code_matches code r) with false by (unfold code_matches; by rewrite Hc).
    apply IH.
Qed.

(** Without the drop a missing code stops the indexing. *)
Lemma boolean_index_missing (code : string) (l : list R) :
  (exists r, r ∈ l /\ concern_code_of r = None) ->
  forall kept, boolean_index (startswith_mask code) l <> Ok kept.
Proof.
  intros (r & Hr & Hnone). induction l as [|x l IH]; [by apply not_elem_of_nil in Hr|].
  intros kept. cbn [boolean_index].
  destruct (startswith_mask code x) as [keep|] eqn:Hx; [|done].
  apply elem_of_cons in Hr as [->|Hr].
  { unfold startswith_mask in Hx. by rewrite Hnone in Hx. }
  destruct (boolean_index _ l) as [k|e] eqn:Hk; [|done].
  by destruct (IH Hr k).
Qed.

(** What [filter_treatments] computes once its three guards are passed. *)
Lemma filter_treatments_guarded (data : DataFrame R) (code : string) :
  df_empty data = false ->
  "Concern Code" ∈ columns data ->
  PyStr.strip code <> "" ->
  filter_treatments data (VStr code)
  = match List.filter has_code (rows data) with
    | [] => Raise AttributeError
    | _ :: _ =>
        match List.filter (code_matches code) (rows data) with
        | [] => Raise (ValueError ("No treatments found for Concern Code: " +:+ code))
        | kept => Ok {| columns := columns data; rows := kept |}
        end
    end.
Proof.
  intros Hdata Hcol Hcode. unfold filter_treatments. rewrite Hdata.
  rewrite bool_decide_eq_true_2 by done. simpl.
  destruct (String.eqb_spec (PyStr.strip code) "") as [?|_]; [done|].
  rewrite boolean_index_after_dropna.
  destruct (List.filter has_code (rows data)) eqn:Hdrop; [done|].
  rewrite bool_decide_eq_false_2 by done. unfold df_empty. simpl.
  destruct (List.filter (code_matches code) _); [done|].
  destruct (columns data); [|done]. by apply not_elem_of_nil in Hcol.
Qed.

(** Any table that [filter_treatments] returns passed the three guards. *)
Lemma filter_treatments_ok_inv (data : DataFrame R) (concern_code : pyval)
      (out : DataFrame R) :
  filter_treatments data concern_code = Ok out ->
  exists code, concern_code = VStr code
               /\ df_empty data = false
               /\ "Concern Code" ∈ columns data
               /\ PyStr.strip code <> "".
Proof.
  unfold filter_treatments. destruct (df_empty data); [done|].
  destruct (bool_decide_reflect ("Concern Code" ∈ columns data)); [|done]. simpl.
  destruct concern_code as [code| |]; [|done..].
  destruct (String.eqb_spec (PyStr.strip code) ""); [done|]. eauto.
Qed.

Lemma filter_treatments_ok_rows (data : DataFrame R) (code : string)
      (out : DataFrame R) :
  filter_treatments data (VStr code) = Ok out ->
  columns out = columns data
  /\ rows out = List.filter (code_matches code) (rows data).
Proof.
  intros Hok. destruct (filter_treatments_ok_inv _ _ _ Hok) as (c & [= <-] & Hd & Hc & Hs).
  rewrite filter_treatments_guarded in Hok by done.
  destruct (List.filter has_code _); [done|].
  destruct (List.filter _ _) eqn:Hf; [done|]. by injection Hok as <-.
Qed.

(** A table that [filter_treatments] returns is never empty, so the test
    of [filtered_data.empty] that follows the call in
    [recommend_treatments] cannot succeed. *)
Lemma filter_treatments_ok_nonempty (data : DataFrame R) (concern_code : pyval)
      (out : DataFrame R) :
  filter_treatments data concern_code = Ok out -> df_empty out = false.
Proof.
  intros Hok. destruct (filter_treatments_ok_inv _ _ _ Hok) as (code & -> & Hd & Hc & Hs).
  rewrite filter_treatments_guarded in Hok by done.
  destruct (List.filter has_code _); [done|].
  destruct (List.filter _ _) eqn:Hf; [done|]. injection Hok as <-.
  apply df_empty_false. simpl. split; [done|].
  intros Hnil. rewrite Hnil in Hc. by apply not_elem_of_nil in Hc.
Qed.

Lemma code_matches_spec (code : string) (r : R) :
  code_matches code r = true
  <-> exists c, concern_code_of r = Some c /\ PyStr.startswith c code = true.
Proof.
  unfold code_matches. destruct (concern_code_of r) as [c|].
  - split; [eauto|]. by intros (c' & [= <-] & ?).
  - split; [done|]. by intros (c' & ? & ?).
Qed.
End FilterFacts.

(** C3. A table returned by [filter_treatments] holds exactly the rows of
    the catalog whose concern code starts with the target code, in catalog
    order; a table is returned whenever the target is not blank and some
    row matches; target "A" keeps the rows coded "A", "A1", "A23" and not
    the row coded "B1". *)
Theorem filter_treatments_prefix {R : Type} `{Coded R}
        (data : DataFrame R) (code : string) :
  (forall out, filter_treatments data (VStr code) = Ok out ->
     columns out = columns data
     /\ rows out = List.filter (code_matches code) (rows data)
     /\ forall r, r ∈ rows out
          <-> r ∈ rows data
              /\ exists c, concern_code_of r = Some c /\ PyStr.startswith c code = true)
  /\ (PyStr.strip code <> "" -> "Concern Code" ∈ columns data ->
      (exists r, r ∈ rows data /\ code_matches code r = true) ->
      exists out, filter_treatments data (VStr code) = Ok out)
  /\ filter_treatments example_codes (VStr "A")
     = Ok {| columns := ["Concern Code"];
             rows := [coded 0 (Some "A"); coded 2 (Some "A1"); coded 4 (Some "A23")] |}.
Proof.
  split; [|split; [|reflexivity]].
  - intros out Hok. destruct (filter_treatments_ok_rows _ _ _ Hok) as [Hc Hr].
    split; [done|]. split; [done|]. intros r.
    rewrite Hr, !list_elem_of_In, filter_In, code_matches_spec. done.
  - intros Hcode Hcol (r & Hr & Hm).
    assert (df_empty data = false) as Hd.
    { apply df_empty_false. split.
      - intros Hnil. rewrite Hnil in Hr. by apply not_elem_of_nil in Hr.
      - intros Hnil. rewrite Hnil in Hcol. by apply not_elem_of_nil in Hcol. }
    rewrite filter_treatments_guarded by done.
    destruct (List.filter has_code _) eqn:Hdrop.
    { assert (r ∈ List.filter has_code (rows data)) as Hin.
      { rewrite list_elem_of_In, filter_In, <- list_elem_of_In.
        split; [done|]. by apply code_matches_has_code with code. }
      rewrite Hdrop in Hin. by apply not_elem_of_nil in Hin. }
    destruct (List.filter (code_matches _) _) eqn:Hf; [|by eauto].
    assert (r ∈ List.filter (code_matches code) (rows data)) as Hin.
    { rewrite list_elem_of_In, filter_In, <- list_elem_of_In. done. }
    rewrite Hf in Hin. by apply not_elem_of_nil in Hin.
Qed.

Lemma filter_treatments_prefix_witness :
  exists out, filter_treatments example_codes (VStr "A1") = Ok out
              /\ rows out = [coded 2 (Some "A1")].
Proof.
  destruct (filter_treatments_prefix example_codes "A1") as (Hexact & Htotal & _).
  destruct Htotal as [out Hout].
  - discriminate.
  - constructor.
  - exists (coded 2 (Some "A1")). split; [|reflexivity].
    apply list_elem_of_In. simpl. tauto.
  - exists out. split; [done|]. by destruct (Hexact out Hout) as (_ & -> & _).
Defined.

Section MissingCodes.
Context {R : Type} `{Coded R}.

Lemma dropna_skips (missing : R) (before after : list R) :
  concern_code_of missing = None ->
  List.filter has_code (before ++ missing :: after)
  = List.filter has_code (before ++ after).
Proof.
  intros Hm. rewrite !List.filter_app. simpl. unfold has_code at 2. by rewrite Hm.
Qed.

Lemma matches_skip_missing (code : string) (missing : R) (before after : list R) :
  concern_code_of missing = None ->
  List.filter (code_matches code) (before ++ missing :: after)
  = List.filter (code_matches code) (before ++ after).
Proof.
  intros Hm. rewrite !List.filter_app. simpl. unfold code_matches at 2. by rewrite Hm.
Qed.

(** The drop leaves nothing exactly when every code is missing. *)
Lemma dropna_nil (l : list R) :
  List.filter has_code l = [] <-> Forall (fun r => concern_code_of r = None) l.
Proof.
  induction l as [|r l IH]; simpl; [by split; [constructor|]|].
  unfold has_code at 1. destruct (concern_code_of r) as [c|] eqn:Hc; simpl.
  - split; [done|]. intros Hall. apply Forall_cons in Hall as [Hr _]. congruence.
  - rewrite IH. split; [by constructor|]. by intros [_ ?]%Forall_cons.
Qed.

Lemma filter_treatments_rows_coded (data out : DataFrame R) (concern_code : pyval) (r : R) :
  filter_treatments data concern_code = Ok out ->
  r ∈ rows out -> concern_code_of r <> None.
Proof.
  intros Hok Hr. destruct (filter_treatments_ok_inv _ _ _ Hok) as (code & -> & _).
  apply filter_treatments_ok_rows in Hok as [_ Hrows].
  rewrite Hrows, list_elem_of_In, filter_In, code_matches_spec in Hr.
  destruct Hr as (_ & c & -> & _). done.
Qed.
End MissingCodes.

(** C10. A row whose concern code is missing is dropped before the prefix
    filter.  The catalog with the row returns a table exactly when the
    catalog without it does, and the same one; the row, like any row
    without a code, is not in it; and next to other rows the whole outcome,
    errors included, is that of the catalog without the row.  Past the
    three input guards [filter_treatments] raises exactly when the prefix
    filter leaves nothing of the rows that have a code: with the error for
    an empty result when some row has a code, and, when none has, with
    [AttributeError], since the drop then leaves a column without
    strings. *)
Theorem filter_treatments_drops_missing {R : Type} `{Coded R}
        (cols : list string) (before after : list R) (missing : R)
        (concern_code : pyval) :
  concern_code_of missing = None ->
  let data := {| columns := cols; rows := before ++ missing :: after |} in
  let without := {| columns := cols; rows := before ++ after |} in
  (forall out, filter_treatments data concern_code = Ok out
               <-> filter_treatments without concern_code = Ok out)
  /\ (forall out, filter_treatments data concern_code = Ok out ->
      (missing ∉ rows out) /\ forall r, r ∈ rows out -> concern_code_of r <> None)
  /\ (before ++ after <> [] ->
      filter_treatments data concern_code = filter_treatments without concern_code)
  /\ (forall code, concern_code = VStr code ->
      "Concern Code" ∈ cols -> PyStr.strip code <> "" ->
      ((exists e, filter_treatments data concern_code = Raise e)
       <-> List.filter (code_matches code) (before ++ after) = [])
      /\ (Exists (fun r => concern_code_of r <> None) (before ++ after) ->
          filter_treatments data concern_code
          = match List.filter (code_matches code) (before ++ after) with
            | [] => Raise (ValueError ("No treatments found for Concern Code: " +:+ code))
            | kept => Ok {| columns := cols; rows := kept |}
            end)
      /\ (Forall (fun r => concern_code_of r = None) (before ++ after) ->
          filter_treatments data concern_code = Raise AttributeError)).
Proof.
  intros Hm data without.
  assert (before ++ after <> [] ->
          filter_treatments data concern_code = filter_treatments without concern_code)
    as Hsame.
  { intros Hne. unfold filter_treatments, data, without. simpl.
    rewrite (dropna_skips missing) by done.
    replace (df_empty {| columns := cols; rows := before ++ missing :: after |})
      with (df_empty {| columns := cols; rows := before ++ after |}); [done|].
    unfold df_empty. simpl. destruct (before ++ after) eqn:Hba; [done|].
    by destruct before. }
  split; [|split; [|split; [done|]]].
  - intros out. destruct (decide (before ++ after = [])) as [Hnil|Hne];
      [|by rewrite (Hsame Hne)].
    split; intros Hok; exfalso.
    + pose proof (filter_treatments_ok_nonempty _ _ _ Hok) as [Hr _]%df_empty_false.
      destruct (filter_treatments_ok_inv _ _ _ Hok) as (code & -> & _).
      apply filter_treatments_ok_rows in Hok as [_ Hrows]. apply Hr.
      rewrite Hrows. unfold data. cbn [rows].
      by rewrite (matches_skip_missing code missing), Hnil.
    + pose proof (filter_treatments_ok_inv _ _ _ Hok) as (code & _ & Hd & _).
      apply df_empty_false in Hd as [Hd _]. by apply Hd.
  - intros out Hok. split.
    + intros Hin. by apply (filter_treatments_rows_coded _ _ _ _ Hok Hin).
    + intros r. by apply filter_treatments_rows_coded with (data := data) (concern_code := concern_code).
  - intros code -> Hcol Hcode.
    assert (filter_treatments data (VStr code)
            = match List.filter has_code (before ++ after) with
              | [] => Raise AttributeError
              | _ :: _ =>
                  match List.filter (code_matches code) (before ++ after) with
                  | [] => Raise (ValueError ("No treatments found for Concern Code: " +:+ code))
                  | kept => Ok {| columns := cols; rows := kept |}
                  end
              end) as ->.
    { rewrite filter_treatments_guarded; [|..|done|done].
      - unfold data. simpl.
        by rewrite (dropna_skips missing), (matches_skip_missing code missing).
      - apply df_empty_false. simpl. split; [by destruct before|].
        intros ->. by apply not_elem_of_nil in Hcol. }
    split; [|split].
    + destruct (List.filter has_code (before ++ after)) as [|h hs] eqn:Hdrop.
      * split; [|by eexists]. intros _. apply dropna_nil in Hdrop.
        apply filter_none. intros r Hr.
        pose proof (proj1 (Forall_forall _ _) Hdrop r Hr) as Hnone.
        unfold code_matches. by rewrite Hnone.
      * destruct (List.filter (code_matches code) (before ++ after)); [by split; [|eexists]|].
        split; [by intros [e ?]|done].
    + intros Hex. destruct (List.filter has_code _) eqn:Hdrop; [|done].
      apply dropna_nil in Hdrop. apply Exists_exists in Hex as (r & Hr & Hc).
      by destruct Hc, (proj1 (Forall_forall _ _) Hdrop r).
    + intros Hall. by rewrite (proj2 (dropna_nil _) Hall).
Qed.

Lemma filter_treatments_drops_missing_witness :
  filter_treatments example_codes (VStr "A")
  = filter_treatments
      {| columns := ["Concern Code"];
         rows := [coded 0 (Some "A"); coded 1 (Some "B1"); coded 2 (Some "A1");
                  coded 4 (Some "A23")] |} (VStr "A").
Proof.
  refine (proj1 (proj2 (proj2 (filter_treatments_drops_missing ["Concern Code"]
    [coded 0 (Some "A"); coded 1 (Some "B1"); coded 2 (Some "A1")]
    [coded 4 (Some "A23")] (coded 3 None) (VStr "A") _))) _).
  - reflexivity.
  - discriminate.
Defined.

(** A catalog in which every concern code is missing passes the guards on
    the input; its "Concern Code" column holds no string, and the [.str]
    accessor refuses it. *)
Example filter_treatments_all_missing :
  filter_treatments {| columns := ["Concern Code"]; rows := [coded 0 None] |} (VStr "A")
  = Raise AttributeError.
Proof. reflexivity. Qed.

(** ** The selection of the five nearest rows *)

Section NSmallestFacts.
Context {A : Type} (key : A -> Z).

Lemma insert_by_perm (x : A) (l : list A) : insert_by key x l ≡ₚ x :: l.
Proof.
  induction l as [|y l IH]; simpl; [done|].
  destruct (key x <=? key y)%Z; [done|]. rewrite IH. apply Permutation_swap.
Qed.

Lemma sort_by_perm (l : list A) : sort_by key l ≡ₚ l.
Proof.
  induction l as [|x l IH]; simpl; [done|]. by rewrite insert_by_perm, IH.
Qed.

Lemma insert_by_sorted (x : A) (l : list A) :
  StronglySorted (key_le key) l -> StronglySorted (key_le key) (insert_by key x l).
Proof.
  induction l as [|y l IH]; intros Hs; simpl.
  - repeat constructor.
  - destruct (Z.leb_spec (key x) (key y)) as [Hle|Hgt].
    + constructor; [done|]. apply StronglySorted_cons in Hs as [Hall _].
      constructor; [done|]. eapply Forall_impl; [exact Hall|].
      unfold key_le. intros z Hz. lia.
    + apply StronglySorted_cons in Hs as [Hall Hs]. constructor; [by apply IH|].
      rewrite insert_by_perm. constructor; [unfold key_le; lia|done].
Qed.

Lemma sort_by_sorted (l : list A) : StronglySorted (key_le key) (sort_by key l).
Proof.
  induction l as [|x l IH]; simpl; [constructor|by apply insert_by_sorted].
Qed.

(** Insertion puts [x] ahead of the rows of equal key already placed:
    the rows of any one key keep their order. *)
Lemma insert_by_stable (d : Z) (x : A) (l : list A) :
  List.filter (has_key key d) (insert_by key x l) = List.filter (has_key key d) (x :: l).
Proof.
  induction l as [|y l IH]; simpl; [done|].
  destruct (Z.leb_spec (key x) (key y)) as [Hle|Hgt]; simpl; [done|].
  rewrite IH. simpl. unfold has_key.
  destruct (Z.eqb_spec (key x) d), (Z.eqb_spec (key y) d); try done. lia.
Qed.

Lemma sort_by_stable (d : Z) (l : list A) :
  List.filter (has_key key d) (sort_by key l) = List.filter (has_key key d) l.
Proof.
  induction l as [|x l IH]; simpl; [done|].
  rewrite insert_by_stable. simpl. by rewrite IH.
Qed.

Lemma filter_take_prefix (f : A -> bool) (n : nat) (l : list A) :
  List.filter f (take n l) `prefix_of` List.filter f l.
Proof.
  exists (List.filter f (drop n l)).
  by rewrite <- List.filter_app, take_drop.
Qed.

Lemma nsmallest_length (n : nat) (l : list A) :
  length (nsmallest key n l) = n `min` length l.
Proof.
  unfold nsmallest. by rewrite length_take, (Permutation_length (sort_by_perm l)).
Qed.

Lemma nsmallest_sorted (n : nat) (l : list A) :
  StronglySorted (key_le key) (nsmallest key n l).
Proof.
  unfold nsmallest. pose proof (sort_by_sorted l) as Hs.
  rewrite <- (take_drop n (sort_by key l)) in Hs.
  by apply StronglySorted_app_1_l in Hs.
Qed.

Lemma nsmallest_stable (n : nat) (d : Z) (l : list A) :
  List.filter (has_key key d) (nsmallest key n l) `prefix_of` List.filter (has_key key d) l.
Proof.
  unfold nsmallest. rewrite <- (sort_by_stable d l). apply filter_take_prefix.
Qed.

Lemma nsmallest_least (n : nat) (l : list A) :
  exists rest, nsmallest key n l ++ rest ≡ₚ l
               /\ forall x y, x ∈ nsmallest key n l -> y ∈ rest -> key_le key x y.
Proof.
  exists (drop n (sort_by key l)). unfold nsmallest. split.
  - rewrite take_drop. apply sort_by_perm.
  - intros x y Hx Hy. pose proof (sort_by_sorted l) as Hs.
    rewrite <- (take_drop n (sort_by key l)) in Hs.
    by apply (StronglySorted_app_1_elem_of _ _ _ _ _ Hs).
Qed.
End NSmallestFacts.

(** The selection from a filtered, scored catalog has [min 5 (size of the
    catalog)] rows, is in ascending order of D-Score, consists of rows of
    least D-Score, and lists the rows of any one D-Score in catalog order,
    earliest first. *)
Lemma nsmallest_five (filtered : list scored) :
  let top := nsmallest D_Score 5 filtered in
  length top = 5 `min` length filtered
  /\ StronglySorted (fun a b => (D_Score a <= D_Score b)%Z) top
  /\ (forall d, List.filter (fun r => (D_Score r =? d)%Z) top
                `prefix_of` List.filter (fun r => (D_Score r =? d)%Z) filtered)
  /\ exists rest, top ++ rest ≡ₚ filtered
                  /\ forall x y, x ∈ top -> y ∈ rest -> (D_Score x <= D_Score y)%Z.
Proof.
  split; [apply nsmallest_length|].
  split; [apply (nsmallest_sorted D_Score)|].
  split; [intros d; apply (nsmallest_stable D_Score)|].
  apply (nsmallest_least D_Score).
Qed.

(** ** The pipeline of a submission *)

Lemma mapR_Forall2 {A B : Type} (f : A -> result B) (xs : list A) (ys : list B) :
  mapR f xs = Ok ys -> Forall2 (fun x y => f x = Ok y) xs ys.
Proof.
  revert ys. induction xs as [|x xs IH]; intros ys; simpl.
  - intros [= <-]. constructor.
  - destruct (f x) as [y|e] eqn:Hx; simpl; [|done].
    destruct (mapR f xs) as [ys'|e] eqn:Hxs; simpl; [|done].
    intros [= <-]. constructor; [done|by apply IH].
Qed.

Lemma mapR_length {A B : Type} (f : A -> result B) (xs : list A) (ys : list B) :
  mapR f xs = Ok ys -> length ys = length xs.
Proof. intros Hm. symmetry. by eapply Forall2_length, mapR_Forall2. Qed.

Lemma zip_with_sources (xs : list treatment) (ts : list (list pyval)) (ds : list Z) :
  length ts = length xs -> length ds = length xs ->
  map source (zip_with (fun r td => {| source := r; T_Score := td.1; D_Score := td.2 |})
                xs (zip ts ds)) = xs.
Proof.
  revert ts ds. induction xs as [|x xs IH]; intros [|t ts] [|d ds]; simpl; try done.
  intros [= Ht] [= Hd]. f_equal. by apply IH.
Qed.

(** A scored table has the rows of the sheet, in the same order, and keeps
    its columns. *)
Lemma score_rows_ok (p_score : list pyval) (data : DataFrame treatment)
      (scored_data : DataFrame scored) :
  score_rows p_score data = Ok scored_data ->
  map source (rows scored_data) = rows data
  /\ columns data ⊆ columns scored_data.
Proof.
  unfold score_rows. destruct (bool_decide _); simpl; [|done].
  destruct (mapR _ (rows data)) as [ts|e] eqn:Hts; simpl; [|done].
  destruct (mapR _ ts) as [ds|e] eqn:Hds; simpl; [|done].
  intros [= <-]. simpl. apply mapR_length in Hts, Hds. split.
  - apply zip_with_sources; congruence.
  - destruct (bool_decide _); [done|]. set_solver.
Qed.

Lemma strip_nonblank (code : string) : PyStr.strip code <> "" -> code <> "".
Proof. by intros Hs ->. Qed.

Lemma answers_length (responses : gmap string pyval) (qs : list question)
      (tail : list pyval) :
  answers responses qs = Ok tail -> length tail = length qs.
Proof. apply mapR_length. Qed.

Lemma scores_length (E : env) (responses : gmap string pyval) (code : string)
      (tail : list pyval) :
  questions E <> [] ->
  answers responses (drop 1 (questions E)) = Ok tail ->
  length (VStr code :: tail) = length (questions E).
Proof.
  intros Hq Ha. apply answers_length in Ha. simpl. rewrite Ha, length_drop.
  destruct (questions E); [done|]. simpl. lia.
Qed.

Lemma scored_no_match (code : string) (data : DataFrame treatment)
      (scored_data : DataFrame scored) :
  map source (rows scored_data) = rows data ->
  (forall r, r ∈ rows data -> code_matches code r = false) ->
  List.filter (code_matches code) (rows scored_data) = [].
Proof.
  intros Hsrc Hnone. apply filter_none. intros r Hr.
  change (code_matches code (source r) = false). apply Hnone.
  rewrite <- Hsrc. by apply list_elem_of_fmap_2.
Qed.

Lemma scored_nonempty (p_score : list pyval) (data : DataFrame treatment)
      (scored_data : DataFrame scored) :
  score_rows p_score data = Ok scored_data ->
  df_empty data = false -> df_empty scored_data = false.
Proof.
  intros Hscore Hdata. destruct (score_rows_ok _ _ _ Hscore) as [Hsrc Hcols].
  apply df_empty_false in Hdata as [Hrows Hcol]. apply df_empty_false. split.
  - intros Hnil. rewrite Hnil in Hsrc. simpl in Hsrc. congruence.
  - intros Hnil. destruct (columns data) as [|c cs]; [done|].
    assert (c ∈ columns scored_data) as Hin by (apply Hcols; constructor).
    rewrite Hnil in Hin. by apply not_elem_of_nil in Hin.
Qed.

Lemma scored_some_code (data : DataFrame treatment) (scored_data : DataFrame scored) :
  map source (rows scored_data) = rows data ->
  Exists (fun r => concern_code_of r <> None) (rows data) ->
  List.filter has_code (rows scored_data) <> [].
Proof.
  intros Hsrc Hex Hnil. apply dropna_nil in Hnil.
  rewrite <- Hsrc in Hex. apply Exists_exists in Hex as (r & Hr & Hc).
  apply list_elem_of_fmap in Hr as (z & -> & Hz).
  apply Hc. exact (proj1 (Forall_forall _ _) Hnil z Hz).
Qed.

(** A submission whose rows all score and whose sheet has a concern code
    in some row, but in none a code that starts with the one asked for,
    ends in the error of [filter_treatments]. *)
Lemma recommend_treatments_no_match (E : env) (w : world) (code sheet : string)
      (tail : list pyval) (data : DataFrame treatment) (scored_data : DataFrame scored) :
  chosen_sheet (responses (session w)) = Some sheet ->
  read_excel E sheet = inr data ->
  df_empty data = false ->
  score_rows (VStr code :: tail) data = Ok scored_data ->
  "Concern Code" ∈ columns data ->
  PyStr.strip code <> "" ->
  Exists (fun r => concern_code_of r <> None) (rows data) ->
  (forall r, r ∈ rows data -> code_matches code r = false) ->
  recommend_treatments E (VStr code :: tail) w
  = (Raise (ValueError ("No treatments found for Concern Code: " +:+ code)), w).
Proof.
  intros Hsheet Hread Hdata Hscore Hcol Hcode Hsome Hnone.
  unfold recommend_treatments, mbind, M_bind, get_responses. simpl.
  unfold chosen_sheet in Hsheet. rewrite Hsheet.
  unfold load_data. rewrite Hread. simpl. rewrite Hdata.
  destruct (String.eqb_spec code "") as [->|_]; [done|]. simpl.
  rewrite Hscore. destruct (score_rows_ok _ _ _ Hscore) as [Hsrc Hcols].
  rewrite filter_treatments_guarded;
    [|by eapply scored_nonempty|by apply Hcols|done].
  pose proof (scored_some_code _ _ Hsrc Hsome) as Hdrop.
  destruct (List.filter has_code (rows scored_data)); [done|].
  by rewrite (scored_no_match code data).
Qed.

(** The same from the submit button: the run of [main] ends with that
    exception, nothing is put on the page and the session is left as it
    was. *)
Lemma main_no_match (E : env) (w : world) (code sheet : string)
      (tail : list pyval) (data : DataFrame treatment) (scored_data : DataFrame scored) :
  questions E <> [] ->
  extract_concern_code (default (VStr "") (responses (session w) !! "Specific Interest"))
  = Ok (Some code) ->
  answers (responses (session w)) (drop 1 (questions E)) = Ok tail ->
  chosen_sheet (responses (session w)) = Some sheet ->
  read_excel E sheet = inr data ->
  df_empty data = false ->
  score_rows (VStr code :: tail) data = Ok scored_data ->
  "Concern Code" ∈ columns data ->
  PyStr.strip code <> "" ->
  Exists (fun r => concern_code_of r <> None) (rows data) ->
  (forall r, r ∈ rows data -> code_matches code r = false) ->
  main E true w
  = (Raise (ValueError ("No treatments found for Concern Code: " +:+ code)), w).
Proof.
  intros Hq Hcode Hans Hsheet Hread Hdata Hscore Hcol Hstrip Hsome Hnone.
  pose proof (scores_length E _ code tail Hq Hans) as Hlen.
  pose proof (recommend_treatments_no_match E w code sheet tail data scored_data
                Hsheet Hread Hdata Hscore Hcol Hstrip Hsome Hnone) as Hrec.
  unfold main, display_p_score, mbind, M_bind, get_responses. simpl.
  rewrite bool_decide_eq_false_2 by done.
  unfold lift at 1. rewrite Hcode.
  destruct code as [|c code]; [done|].
  rewrite Hans. simpl in Hlen. simpl. rewrite <- Hlen, Nat.eqb_refl. simpl.
  by rewrite Hrec.
Qed.

(** ** The length check of [display_p_score] *)

Ltac clean_events :=
  eexists; split;
  [ simpl; rewrite <- ?app_assoc; simpl; first [reflexivity | symmetry; apply app_nil_r]
  | let e := fresh "e" in
    let He := fresh "He" in
    intros e He; apply list_elem_of_In in He; simpl in He;
    intros [Hc|[n Hc]]; subst e; intuition discriminate ].

Lemma recommend_treatments_clean (E : env) (p_score : list pyval) (w : world) :
  extends_clean w (recommend_treatments E p_score w).2.
Proof.
  unfold recommend_treatments, mbind, M_bind, get_responses. simpl.
  change (match responses (session w) !! "Delivery Mode" with
          | Some (VInt 1%Z) => Some "Non-injectable"
          | Some (VInt 2%Z) => Some "All treatments"
          | _ => None
          end) with (chosen_sheet (responses (session w))).
  destruct (chosen_sheet _) as [sheet|]; [|clean_events].
  unfold load_data. destruct (read_excel E sheet) as [err|data]; simpl.
  - clean_events.
  - destruct (df_empty data); [clean_events|].
    destruct p_score as [|concern_code tail]; simpl; [clean_events|].
    destruct (truthy concern_code); simpl; [|clean_events].
    destruct (score_rows _ data) as [scored_data|e]; [|clean_events].
    destruct (filter_treatments scored_data concern_code) as [filtered|e]; [|clean_events].
    destruct (df_empty filtered); [destruct concern_code; clean_events|].
    destruct (numeric_column _); simpl; [|clean_events].
    destruct (display_table _) as [final|e]; [|clean_events].
    destruct (df_empty final); simpl; clean_events.
Qed.

Lemma extends_clean_step (w w' : world) (es : list event) (w'' : world) :
  extends_clean w w' ->
  page w'' = page w' ++ es ->
  (forall e, e ∈ es -> ~ from_length_check e) ->
  extends_clean w w''.
Proof.
  intros (new & Hpage & Hclean) Hpage' Hes. exists (new ++ es). split.
  - by rewrite Hpage', Hpage, app_assoc.
  - intros e [He|He]%elem_of_app; [by apply Hclean|by apply Hes].
Qed.

Lemma answers_lookup (responses : gmap string pyval) (qs : list question)
      (tail : list pyval) (i : nat) (q : question) :
  answers responses qs = Ok tail -> qs !! i = Some q ->
  exists k, q_question q = Some k
            /\ tail !! i = Some (default (VInt 1) (responses !! k)).
Proof.
  intros Ha Hq. apply mapR_Forall2 in Ha.
  destruct (Forall2_lookup_l _ _ _ _ _ Ha Hq) as (v & Hv & Hf).
  destruct (q_question q) as [k|]; [|done]. injection Hf as <-. eauto.
Qed.

(** C9. With a non-empty question list and a valid specific-interest code,
    the score list that [display_p_score] builds has one entry per
    question: the code, then for each further question its answer, or 1
    when there is none.  The run never takes the "Incomplete data" branch:
    neither its error nor its two printed lengths appear. *)
Theorem length_check_unreachable (E : env) (w : world) (code : string) :
  questions E <> [] ->
  extract_concern_code (default (VStr "") (responses (session w) !! "Specific Interest"))
  = Ok (Some code) ->
  code <> "" ->
  (forall tail, answers (responses (session w)) (drop 1 (questions E)) = Ok tail ->
     length (VStr code :: tail) = length (questions E)
     /\ forall i q, drop 1 (questions E) !! i = Some q ->
          exists k, q_question q = Some k
                    /\ tail !! i = Some (default (VInt 1) (responses (session w) !! k)))
  /\ extends_clean w (display_p_score E w).2.
Proof.
  intros Hq Hcode Hne. split.
  - intros tail Hans. split; [by eapply scores_length|].
    intros i q Hi. by eapply answers_lookup.
  - unfold display_p_score, mbind, M_bind, get_responses. simpl.
    rewrite bool_decide_eq_false_2 by done.
    unfold lift at 1. rewrite Hcode. destruct code as [|c code]; [done|].
    destruct (answers _ _) as [tail|e] eqn:Hans.
    + pose proof (scores_length E _ (String c code) tail Hq Hans) as Hlen.
      simpl in Hlen. simpl. rewrite <- Hlen, Nat.eqb_refl. simpl.
      pose proof (recommend_treatments_clean E (VStr (String c code) :: tail) w) as Hrec.
      destruct (recommend_treatments E _ w) as [[[]|e] w'] eqn:Hrun; simpl in *; [|done].
      eapply extends_clean_step; [exact Hrec|simpl; reflexivity|].
      intros e He. apply list_elem_of_In in He. simpl in He.
      intros [Hc|[n Hc]]; subst e; intuition discriminate.
    + destruct e; clean_events.
Qed.

Example main_no_match_code_Z :
  main (example_env example_catalog) true (example_world "1) Z - Other")
  = (Raise (ValueError "No treatments found for Concern Code: Z"),
     example_world "1) Z - Other").
Proof. vm_compute. reflexivity. Qed.

Lemma length_check_unreachable_witness :
  extends_clean (example_world "1) A1 - Acne")
    (display_p_score (example_env example_catalog) (example_world "1) A1 - Acne")).2.
Proof.
  refine (proj2 (length_check_unreachable (example_env example_catalog)
                   (example_world "1) A1 - Acne") "A1" _ _ _)).
  - discriminate.
  - reflexivity.
  - discriminate.
Defined.

(** ** The order of filtering and scoring *)

Lemma zip_with_scored_by (p_score : list pyval) (xs : list treatment)
      (ts : list (list pyval)) (ds : list Z) :
  Forall2 (fun x t => convert_t_score (T_Score_cell x) = Ok t) xs ts ->
  Forall2 (fun t d => calculate_d_score p_score t = Ok d) ts ds ->
  Forall (scored_by p_score)
    (zip_with (fun r td => {| source := r; T_Score := td.1; D_Score := td.2 |})
       xs (zip ts ds)).
Proof.
  intros Hts. revert ds. induction Hts as [|x t xs ts Hx Hts IH]; intros ds Hds.
  - constructor.
  - inversion Hds as [|? d ? ds' Hd Hds']; subst. simpl. constructor; [done|by apply IH].
Qed.

Lemma score_rows_sound (p_score : list pyval) (data : DataFrame treatment)
      (scored_data : DataFrame scored) :
  score_rows p_score data = Ok scored_data ->
  "T-Score" ∈ columns data /\ Forall (scored_by p_score) (rows scored_data).
Proof.
  unfold score_rows.
  destruct (bool_decide_reflect ("T-Score" ∈ columns data)) as [Hin|Hin]; simpl; [|done].
  destruct (mapR _ (rows data)) as [ts|e] eqn:Hts; simpl; [|done].
  destruct (mapR _ ts) as [ds|e] eqn:Hds; simpl; [|done].
  intros [= <-]. simpl. split; [done|].
  apply zip_with_scored_by; by apply mapR_Forall2.
Qed.

Lemma mapR_map_ok {A B C : Type} (f : A -> result B) (g : C -> A) (h : C -> B)
      (zs : list C) :
  Forall (fun z => f (g z) = Ok (h z)) zs -> mapR f (map g zs) = Ok (map h zs).
Proof.
  induction 1 as [|z zs Hz _ IH]; simpl; [done|]. by rewrite Hz, IH.
Qed.

Lemma zip_with_rebuild (zs : list scored) :
  zip_with (fun r td => {| source := r; T_Score := td.1; D_Score := td.2 |})
    (map source zs) (zip (map T_Score zs) (map D_Score zs)) = zs.
Proof.
  induction zs as [|[src t d] zs IH]; simpl; [done|]. by rewrite IH.
Qed.

Lemma score_rows_complete (p_score : list pyval) (cols : list string) (zs : list scored) :
  "T-Score" ∈ cols ->
  Forall (scored_by p_score) zs ->
  score_rows p_score {| columns := cols; rows := map source zs |}
  = Ok {| columns := if bool_decide ("D-Score" ∈ cols) then cols else cols ++ ["D-Score"];
          rows := zs |}.
Proof.
  intros Hcol Hzs. unfold score_rows. simpl. rewrite bool_decide_eq_true_2 by done. simpl.
  rewrite (mapR_map_ok _ source T_Score zs)
    by (eapply Forall_impl; [exact Hzs|by intros z [? ?]]).
  simpl.
  rewrite (mapR_map_ok _ T_Score D_Score zs)
    by (eapply Forall_impl; [exact Hzs|by intros z [? ?]]).
  simpl. by rewrite zip_with_rebuild.
Qed.

Lemma filter_map_source (code : string) (zs : list scored) :
  List.filter (code_matches code) (map source zs)
  = map source (List.filter (code_matches code) zs).
Proof.
  induction zs as [|z zs IH]; simpl; [done|].
  change (code_matches code z) with (code_matches code (source z)).
  destruct (code_matches code (source z)); simpl; by rewrite IH.
Qed.

Lemma dropna_map_source (zs : list scored) :
  List.filter has_code (map source zs) = map source (List.filter has_code zs).
Proof.
  induction zs as [|z zs IH]; simpl; [done|].
  change (has_code z) with (has_code (source z)).
  destruct (has_code (source z)); simpl; by rewrite IH.
Qed.

(** Whenever the program's order (score every row, then filter) yields a
    recommendation, the specification's order yields the same rows: the
    two differ only where scoring a row outside the filter raises. *)
Lemma filter_first_agrees (p_score : list pyval) (data : DataFrame treatment)
      (concern_code : pyval) (scored_data filtered_data : DataFrame scored) :
  score_rows p_score data = Ok scored_data ->
  filter_treatments scored_data concern_code = Ok filtered_data ->
  matcher_filter_first p_score data concern_code
  = Ok (nsmallest D_Score 5 (rows filtered_data)).
Proof.
  intros Hscore Hfilter.
  destruct (filter_treatments_ok_inv _ _ _ Hfilter) as (code & -> & Hne & Hcc & Hstrip).
  destruct (filter_treatments_ok_rows _ _ _ Hfilter) as [_ Hrows].
  destruct (score_rows_ok _ _ _ Hscore) as [Hsrc _].
  destruct (score_rows_sound _ _ _ Hscore) as [Hts Hall].
  assert ("Concern Code" ∈ columns data) as Hcc'.
  { revert Hscore Hcc. unfold score_rows. destruct (bool_decide ("T-Score" ∈ _)); simpl; [|done].
    destruct (mapR _ (rows data)); simpl; [|done]. destruct (mapR _ _); simpl; [|done].
    intros [= <-]. simpl. destruct (bool_decide _); [done|].
    intros [?|Hin]%elem_of_app; [done|]. by apply list_elem_of_singleton in Hin. }
  assert (df_empty data = false) as Hne'.
  { apply df_empty_false in Hne as [Hr _]. apply df_empty_false. split.
    - rewrite <- Hsrc. by destruct (rows scored_data).
    - intros Hnil. rewrite Hnil in Hcc'. by apply not_elem_of_nil in Hcc'. }
  unfold matcher_filter_first. rewrite filter_treatments_guarded by done.
  rewrite <- Hsrc, dropna_map_source, filter_map_source, <- Hrows.
  rewrite filter_treatments_guarded in Hfilter by done.
  rewrite <- Hrows in Hfilter.
  destruct (List.filter has_code (rows scored_data)) as [|z0 zs0]; [done|]. cbn [map].
  destruct (rows filtered_data) as [|z zs] eqn:Hfd; [done|].
  simpl mbind. unfold mbind, result_bind.
  change (source z :: map source zs) with (map source (z :: zs)).
  rewrite score_rows_complete; [done|done|].
  rewrite Hrows. apply Forall_forall. intros r Hr.
  rewrite list_elem_of_In, filter_In, <- list_elem_of_In in Hr. destruct Hr as [Hr _].
  by apply (proj1 (Forall_forall _ _) Hall).
Qed.

(** C5. The program scores before it filters.  For concern code "A1" and
    the catalog above, the specification's order recommends the "A1" row at
    distance 2, but [recommend_treatments] computes a D-Score for the "B1"
    row as well and the submission ends in that row's length error. *)
Theorem scoring_runs_before_filter :
  let p_score := [VStr "A1"; VInt 2; VInt 3; VInt 1] in
  let w := example_world "1) A1 - Acne" in
  matcher_filter_first p_score short_row_catalog (VStr "A1")
  = Ok [ {| source := example_row 0 "A1" "['A1', 2, 1, 1]" "Peel";
            T_Score := [VStr "A1"; VInt 2; VInt 1; VInt 1];
            D_Score := 2 |} ]
  /\ recommend_treatments (example_env short_row_catalog) p_score w
     = (Raise (ValueError "p_score and t_score must have the same length."), w)
  /\ main (example_env short_row_catalog) true w
     = (Raise (ValueError "p_score and t_score must have the same length."), w).
Proof. repeat split; vm_compute; reflexivity. Qed.

(** C6. A submission without a matching row is not always ended by the
    "No treatments found" error.  The survey answered with the concern
    "A2" finds no row in the sheet above, and the specification's order
    stops at the filter with that error; but [recommend_treatments] scores
    every row of the sheet before it filters, and the submission ends in
    the length error of the "B1" row, with the page and the session as
    they were. *)
Theorem no_match_lost_in_scoring :
  let w := (render_survey survey_concerns survey_questions survey_picks fresh_world).2 in
  let p_score := [VStr "A2"; VInt 2; VInt 2; VInt 2; VInt 2; VInt 1] in
  responses (session w) !! "Specific Interest" = Some (VStr "2) A2 - Acne scars")
  /\ List.filter (code_matches "A2") (rows unmatched_catalog) = []
  /\ filter_treatments unmatched_catalog (VStr "A2")
     = Raise (ValueError "No treatments found for Concern Code: A2")
  /\ matcher_filter_first p_score unmatched_catalog (VStr "A2")
     = Raise (ValueError "No treatments found for Concern Code: A2")
  /\ recommend_treatments (survey_env unmatched_catalog) p_score w
     = (Raise (ValueError "p_score and t_score must have the same length."), w)
  /\ main (survey_env unmatched_catalog) true w
     = (Raise (ValueError "p_score and t_score must have the same length."), w).
Proof. repeat split; vm_compute; reflexivity. Qed.

(** A sheet whose concern codes are all missing ends a submission in
    [AttributeError]. *)
Example main_all_codes_missing :
  let blank := {| columns := catalog_columns;
                  rows := [ {| label := 0; Concern_Code := None;
                               T_Score_cell := CStr "['A1', 2, 1, 1]";
                               attributes := ["Peel"] |} ] |} in
  main (example_env blank) true (example_world "1) A1 - Acne")
  = (Raise AttributeError, example_world "1) A1 - Acne").
Proof. vm_compute. reflexivity. Qed.

(** * Further properties of the program *)

(** ** Strings: numbers in decimal, separators *)

Lemma append_cons (c : ascii) (a b : string) : String c a +:+ b = String c (a +:+ b).
Proof. reflexivity. Qed.

Lemma append_nil_l (b : string) : "" +:+ b = b.
Proof. reflexivity. Qed.

Lemma append_nil_r (s : string) : s +:+ "" = s.
Proof. induction s as [|c s IH]; [done|]. by rewrite append_cons, IH. Qed.

Lemma append_assoc (a b c : string) : (a +:+ b) +:+ c = a +:+ (b +:+ c).
Proof. induction a as [|x a IH]; [done|]. by rewrite !append_cons, IH. Qed.

Lemma forall_chars_impl (p q : ascii -> bool) (s : string) :
  (forall c, p c = true -> q c = true) ->
  forall_chars p s = true -> forall_chars q s = true.
Proof.
  intros Hpq. induction s as [|c s IH]; simpl; [done|].
  intros [Hc Hs]%andb_true_iff. by rewrite (Hpq c Hc), IH.
Qed.

Lemma forall_chars_app (p : ascii -> bool) (a b : string) :
  forall_chars p (a +:+ b) = forall_chars p a && forall_chars p b.
Proof.
  induction a as [|c a IH]; [done|]. rewrite append_cons. simpl.
  by rewrite IH, andb_assoc.
Qed.

Lemma lacks_forall (c : ascii) (s : string) :
  lacks c s = forall_chars (fun d => negb (Ascii.eqb c d)) s.
Proof.
  unfold lacks. induction s as [|d s IH]; simpl; [done|].
  by rewrite negb_orb, IH.
Qed.

Lemma uint_digits (d : Decimal.uint) :
  forall_chars is_digit (NilEmpty.string_of_uint d) = true.
Proof. induction d; simpl; try done; by rewrite IHd. Qed.

Lemma str_of_nat_digits (n : nat) : forall_chars is_digit (str_of_nat n) = true.
Proof. apply uint_digits. Qed.

Lemma digit_lacks (c d : ascii) :
  is_digit c = false -> is_digit d = true -> negb (Ascii.eqb c d) = true.
Proof.
  intros Hc Hd. destruct (Ascii.eqb_spec c d) as [->|_]; [congruence|done].
Qed.

Lemma digits_lack (c : ascii) (s : string) :
  is_digit c = false -> forall_chars is_digit s = true -> lacks c s = true.
Proof.
  intros Hc Hs. rewrite lacks_forall.
  eapply forall_chars_impl; [|exact Hs]. intros d. by apply digit_lacks.
Qed.

Lemma digit_not_space (c : ascii) : is_digit c = true -> negb (PyStr.is_space c) = true.
Proof. destruct c as [[] [] [] [] [] [] [] []]; by vm_compute. Qed.

Lemma digit_not_int_space (c : ascii) :
  is_digit c = true -> negb (PyStr.is_int_space c) = true.
Proof. destruct c as [[] [] [] [] [] [] [] []]; by vm_compute. Qed.

Lemma lstrip_by_id (p : ascii -> bool) (s : string) :
  forall_chars (fun c => negb (p c)) s = true -> PyStr.lstrip_by p s = s.
Proof.
  destruct s as [|c s]; simpl; [done|].
  intros [Hc _]%andb_true_iff. by destruct (p c).
Qed.

Lemma rstrip_by_id (p : ascii -> bool) (s : string) :
  forall_chars (fun c => negb (p c)) s = true -> PyStr.rstrip_by p s = s.
Proof.
  induction s as [|c s IH]; simpl; [done|].
  intros [Hc Hs]%andb_true_iff. rewrite IH by done.
  destruct s; [by destruct (p c)|done].
Qed.

Lemma strip_by_id (p : ascii -> bool) (s : string) :
  forall_chars (fun c => negb (p c)) s = true -> PyStr.strip_by p s = s.
Proof.
  intros Hs. unfold PyStr.strip_by. by rewrite lstrip_by_id, rstrip_by_id.
Qed.

Lemma digits_go_uint (d : Decimal.uint) (acc : nat) :
  PyStr.digits_go (Z.of_nat acc) (NilEmpty.string_of_uint d)
  = Some (Z.of_nat (Nat.of_uint_acc d acc)).
Proof.
  revert acc. induction d as [|d IH|d IH|d IH|d IH|d IH|d IH|d IH|d IH|d IH|d IH];
    intros acc; [done|..];
    cbn [NilEmpty.string_of_uint PyStr.digits_go Nat.of_uint_acc];
    match goal with
    | |- context [PyStr.digit_value ?c] =>
        let v := eval vm_compute in (PyStr.digit_value c) in
        change (PyStr.digit_value c) with v; cbv iota
    end;
    rewrite <- IH; f_equal; rewrite Nat.tail_mul_spec; lia.
Qed.

Lemma uint_nonnil (n : nat) : Nat.to_uint n <> Decimal.Nil.
Proof.
  intros Hnil. pose proof (Unsigned.of_to n) as Hn. rewrite Hnil in Hn.
  simpl in Hn. subst n. discriminate.
Qed.

Lemma digits_uint (d : Decimal.uint) :
  d <> Decimal.Nil ->
  PyStr.digits (NilEmpty.string_of_uint d) = Some (Z.of_nat (Nat.of_uint d)).
Proof.
  intros Hd. unfold Nat.of_uint. rewrite <- (digits_go_uint d 0).
  destruct d; try done; reflexivity.
Qed.

(** [int(str(n)) == n] *)
Lemma parse_int_str_of_nat (n : nat) : PyStr.parse_int (str_of_nat n) = Some (Z.of_nat n).
Proof.
  unfold PyStr.parse_int. rewrite strip_by_id.
  - unfold str_of_nat. pose proof (uint_nonnil n) as Hn.
    rewrite <- (Unsigned.of_to n) at 2. rewrite <- (digits_uint _ Hn).
    by destruct (Nat.to_uint n).
  - eapply forall_chars_impl; [|apply str_of_nat_digits]. apply digit_not_int_space.
Qed.

Lemma prefix_app (sep rest : string) : String.prefix sep (sep +:+ rest) = true.
Proof.
  induction sep as [|c sep IH]; [by destruct rest|]. rewrite append_cons. simpl.
  destruct (ascii_dec c c); [done|congruence].
Qed.

Lemma split_go_skip (sep a rest piece : string) :
  PyStr.split_go sep (String.length a) piece (a +:+ rest)
  = PyStr.split_go sep 0 piece rest.
Proof.
  induction a as [|c a IH]; [by destruct rest|]. rewrite append_cons. simpl. apply IH.
Qed.

(** Up to the first separator: a segment in which the first character of
    the separator does not occur is cut off whole. *)
Lemma split_go_segment (c1 : ascii) (sep' a rest piece : string) :
  lacks c1 a = true ->
  PyStr.split_go (String c1 sep') 0 piece (a +:+ String c1 sep' +:+ rest)
  = (piece +:+ a) :: PyStr.split_go (String c1 sep') 0 "" rest.
Proof.
  revert piece. induction a as [|c a IH]; intros piece Ha.
  - rewrite append_nil_r, append_nil_l, append_cons.
    cbn [PyStr.split_go]. rewrite <- append_cons, prefix_app. f_equal.
    replace (String.length (String c1 sep') - 1) with (String.length sep')
      by (simpl; lia).
    apply split_go_skip.
  - unfold lacks in Ha. simpl in Ha. apply negb_true_iff, orb_false_iff in Ha as [Hc Ha].
    rewrite append_cons. cbn [PyStr.split_go]. cbn [String.prefix].
    destruct (ascii_dec c1 c) as [->|_]; [by rewrite Ascii.eqb_refl in Hc|].
    rewrite IH by (unfold lacks; by rewrite Ha).
    by rewrite append_assoc.
Qed.

Lemma split_go_last (c1 : ascii) (sep' a piece : string) :
  lacks c1 a = true ->
  PyStr.split_go (String c1 sep') 0 piece a = [piece +:+ a].
Proof.
  revert piece. induction a as [|c a IH]; intros piece Ha.
  - by rewrite append_nil_r.
  - unfold lacks in Ha. simpl in Ha. apply negb_true_iff, orb_false_iff in Ha as [Hc Ha].
    cbn [PyStr.split_go String.prefix].
    destruct (ascii_dec c1 c) as [->|_]; [by rewrite Ascii.eqb_refl in Hc|].
    rewrite IH by (unfold lacks; by rewrite Ha).
    by rewrite append_assoc.
Qed.

(** ** The select boxes *)

Lemma str_of_nat_head (n : nat) :
  exists c rest, str_of_nat n = String c rest /\ is_digit c = true.
Proof.
  unfold str_of_nat. pose proof (uint_nonnil n) as Hn.
  destruct (Nat.to_uint n); [done|..]; simpl; eauto.
Qed.

Lemma numbered_lookup (options : list string) (i : nat) :
  numbered options !! i
  = (fun option => str_of_nat (i + 1) +:+ ") " +:+ option) <$> options !! i.
Proof. unfold numbered. apply list_lookup_imap. Qed.

Lemma numbered_length (options : list string) : length (numbered options) = length options.
Proof. unfold numbered. apply length_imap. Qed.

Lemma numbered_not_placeholder (k : nat) (option : string) :
  String.eqb (str_of_nat k +:+ ") " +:+ option) placeholder = false.
Proof.
  destruct (str_of_nat_head k) as (c & rest & -> & Hc). rewrite append_cons.
  apply String.eqb_neq. intros [= -> _]. done.
Qed.

Lemma leading_number_numbered (k : nat) (option : string) :
  leading_number (str_of_nat k +:+ ") " +:+ option) = Ok (Z.of_nat k).
Proof.
  unfold leading_number, PyStr.split.
  change (") " +:+ option) with (String ")" "" +:+ " " +:+ option).
  rewrite split_go_segment by (apply digits_lack; [done|apply str_of_nat_digits]).
  rewrite append_nil_l. simpl. by rewrite parse_int_str_of_nat.
Qed.

Lemma selectbox_spec (options : list string) (pick : nat) :
  selectbox (placeholder :: numbered options) pick
  = match pick with
    | 0 => placeholder
    | S i => match options !! i with
             | Some option => str_of_nat (i + 1) +:+ ") " +:+ option
             | None => placeholder
             end
    end.
Proof.
  unfold selectbox. destruct pick as [|i]; [done|]. simpl.
  rewrite numbered_lookup. by destruct (options !! i).
Qed.

(** The value of [render_question] in closed form. *)
Lemma render_question_value (question_data : question) (pick : nat) :
  render_question question_data pick
  = match q_question question_data with
    | None => Raise (KeyError "question")
    | Some _ =>
        Ok (if bool_decide (1 <= pick <= length (q_options question_data))
            then VInt (Z.of_nat pick) else VNone)
    end.
Proof.
  unfold render_question. destruct (q_question question_data) as [title|]; [|done].
  rewrite selectbox_spec. destruct pick as [|i].
  - rewrite bool_decide_eq_false_2 by lia. done.
  - destruct (q_options question_data !! i) as [option|] eqn:Hi.
    + rewrite numbered_not_placeholder. simpl. rewrite leading_number_numbered. simpl.
      apply lookup_lt_Some in Hi. rewrite bool_decide_eq_true_2 by lia.
      do 2 f_equal. lia.
    + apply lookup_ge_None in Hi. rewrite bool_decide_eq_false_2 by lia. done.
Qed.

(** X1. [render_question] returns the 1-based position of the option the
    user picked, whatever the texts of the options contain: the number it
    reads back from the label it built is the position.  It returns [None]
    when the placeholder is selected, and raises [KeyError] on an entry
    without a "question" key. *)
Theorem render_question_position (question_data : question) (pick : nat) :
  (q_question question_data = None ->
   render_question question_data pick = Raise (KeyError "question"))
  /\ (q_question question_data <> None ->
      1 <= pick <= length (q_options question_data) ->
      render_question question_data pick = Ok (VInt (Z.of_nat pick)))
  /\ (q_question question_data <> None ->
      pick = 0 \/ length (q_options question_data) < pick ->
      render_question question_data pick = Ok VNone).
Proof.
  rewrite render_question_value. destruct (q_question question_data); repeat split;
    try done; intros _ Hp.
  - by rewrite bool_decide_eq_true_2.
  - by rewrite bool_decide_eq_false_2 by lia.
Qed.

Lemma render_question_position_witness :
  render_question {| q_question := Some "Budget";
                     q_options := ["Low (under 100)"; "2) Mid"; "High"] |} 2
  = Ok (VInt 2).
Proof.
  refine (proj1 (proj2 (render_question_position
    {| q_question := Some "Budget"; q_options := ["Low (under 100)"; "2) Mid"; "High"] |} 2))
    _ _).
  - discriminate.
  - simpl. lia.
Defined.

(** ** The concern code of a label *)

Lemma split_space_two (a b : string) :
  lacks " " a = true -> lacks " " b = true ->
  PyStr.split " " (a +:+ " " +:+ b) = [a; b].
Proof.
  intros Ha Hb. unfold PyStr.split.
  rewrite (split_go_segment " " "" a b "") by done.
  by rewrite (split_go_last " " "" b "") by done.
Qed.

Lemma split_space_more (a b rest : string) :
  lacks " " a = true -> lacks " " b = true ->
  exists more, PyStr.split " " (a +:+ " " +:+ b +:+ " " +:+ rest) = a :: b :: more.
Proof.
  intros Ha Hb. unfold PyStr.split.
  rewrite (split_go_segment " " "" a (b +:+ " " +:+ rest) "") by done.
  rewrite (split_go_segment " " "" b rest "") by done. eauto.
Qed.

Lemma append_not_empty (a b : string) : a +:+ " " +:+ b <> "".
Proof. destruct a; [done|]. by rewrite append_cons. Qed.

(** X2. [extract_concern_code] returns the second of the segments that
    single spaces separate: a string without a space has no code, and in
    [a b] and [a b rest] the code is [b]. *)
Theorem extract_concern_code_segments (a b rest : string) :
  lacks " " a = true -> lacks " " b = true ->
  extract_concern_code (VStr a) = Ok None
  /\ extract_concern_code (VStr (a +:+ " " +:+ b)) = Ok (Some b)
  /\ extract_concern_code (VStr (a +:+ " " +:+ b +:+ " " +:+ rest)) = Ok (Some b).
Proof.
  intros Ha Hb. unfold extract_concern_code. repeat split.
  - destruct (String.eqb a ""); [done|].
    unfold PyStr.split. by rewrite (split_go_last " " "" a "") by done.
  - rewrite (proj2 (String.eqb_neq _ _)) by apply append_not_empty.
    by rewrite split_space_two.
  - rewrite (proj2 (String.eqb_neq _ _)) by apply append_not_empty.
    by destruct (split_space_more a b rest Ha Hb) as [more ->].
Qed.

Lemma extract_concern_code_segments_witness :
  extract_concern_code (VStr "1)") = Ok None
  /\ extract_concern_code (VStr "1) A1") = Ok (Some "A1")
  /\ extract_concern_code (VStr "1) A1 - Acne scars") = Ok (Some "A1").
Proof.
  apply (extract_concern_code_segments "1)" "A1" "- Acne scars"); reflexivity.
Defined.

(** ** The survey *)

Lemma render_general_cons (ui : picks) (i : nat) (q : question) (title : string)
      (rest : list question) (w : world) :
  q_question q = Some title ->
  render_general ui i (q :: rest) w
  = render_general ui (S i) rest (after_question ui i q title w).
Proof.
  intros Hq. cbn [render_general]. unfold mbind, M_bind, lift.
  rewrite render_question_value, Hq. fold (answer_of q (question_pick ui i)).
  unfold after_question, write.
  destruct (truthy (answer_of q (question_pick ui i))); simpl;
    by destruct (Nat.eqb (i + 1) 6).
Qed.

Lemma render_general_cons_nokey (ui : picks) (i : nat) (q : question)
      (rest : list question) (w : world) :
  q_question q = None ->
  render_general ui i (q :: rest) w = (Raise (KeyError "question"), w).
Proof.
  intros Hq. cbn [render_general]. unfold mbind, M_bind, lift.
  by rewrite render_question_value, Hq.
Qed.

Lemma keeps_answers_refl (w : world) : keeps_answers w w.
Proof. by repeat split. Qed.

Lemma keeps_answers_trans (w1 w2 w3 : world) :
  keeps_answers w1 w2 -> keeps_answers w2 w3 -> keeps_answers w1 w3.
Proof.
  intros (Hf & Hv & Hp & Hk) (Hf' & Hv' & Hp' & Hk'). repeat split; try congruence.
  intros k Hin. by apply Hk', Hk.
Qed.

Lemma keeps_answers_write (k : string) (v : pyval) (w : world) :
  keeps_answers w (write k v w).
Proof.
  repeat split. simpl. intros k' Hin.
  destruct (decide (k = k')) as [->|Hne].
  - rewrite lookup_insert_eq. eauto.
  - by rewrite lookup_insert_ne.
Qed.

Lemma keeps_answers_after_question (ui : picks) (i : nat) (q : question)
      (title : string) (w : world) :
  keeps_answers w (after_question ui i q title w).
Proof.
  unfold after_question.
  destruct (truthy _), (Nat.eqb _ _);
    eauto using keeps_answers_refl, keeps_answers_write, keeps_answers_trans.
Qed.

Lemma render_general_keeps (ui : picks) (qs : list question) (i : nat) (w : world) :
  keeps_answers w (render_general ui i qs w).2.
Proof.
  revert i w. induction qs as [|q qs IH]; intros i w; [apply keeps_answers_refl|].
  destruct (q_question q) as [title|] eqn:Hq.
  - rewrite (render_general_cons _ _ _ title) by done.
    eapply keeps_answers_trans; [apply keeps_answers_after_question|apply IH].
  - rewrite render_general_cons_nokey by done. apply keeps_answers_refl.
Qed.

Lemma render_general_total (ui : picks) (qs : list question) (i : nat) (w : world) :
  titled qs -> (render_general ui i qs w).1 = Ok ().
Proof.
  intros Hqs. revert i w. induction Hqs as [|q qs Hq _ IH]; intros i w; [done|].
  destruct (q_question q) as [title|] eqn:Hq'; [|done].
  rewrite (render_general_cons _ _ _ title) by done. apply IH.
Qed.

Lemma render_general_nokey (ui : picks) (qs : list question) (i : nat) (w : world) :
  ~ titled qs -> (render_general ui i qs w).1 = Raise (KeyError "question").
Proof.
  revert i w. induction qs as [|q qs IH]; intros i w Hqs.
  - exfalso. apply Hqs. constructor.
  - destruct (q_question q) as [title|] eqn:Hq.
    + rewrite (render_general_cons _ _ _ title) by done. apply IH.
      intros Ht. apply Hqs. constructor; [congruence|done].
    + by rewrite render_general_cons_nokey.
Qed.

Lemma py_index_succ {A : Type} (l : list A) (i : nat) (x : A) :
  l !! i = Some x -> py_index l (Z.of_nat (S i) - 1) = Ok x.
Proof.
  intros Hi. unfold py_index.
  replace (Z.of_nat (S i) - 1)%Z with (Z.of_nat i) by lia.
  destruct (Z.ltb_spec (Z.of_nat i) 0) as [?|_]; [lia|].
  destruct (Z.ltb_spec (Z.of_nat i) 0) as [?|_]; [lia|].
  by rewrite Nat2Z.id, Hi.
Qed.

Lemma answer_of_succ (q : question) (i : nat) :
  answer_of q (S i)
  = match q_options q !! i with
    | Some _ => VInt (Z.of_nat (S i))
    | None => VNone
    end.
Proof.
  unfold answer_of. destruct (q_options q !! i) eqn:Hi.
  - apply lookup_lt_Some in Hi. by rewrite bool_decide_eq_true_2 by lia.
  - apply lookup_ge_None in Hi. by rewrite bool_decide_eq_false_2 by lia.
Qed.

(** [render_survey] on a question list whose first entry has its key: the
    first part, then the loop. *)
Lemma render_survey_cons (concerns : gmap string (list string)) (first : question)
      (title : string) (rest : list question) (ui : picks) (w : world) :
  q_question first = Some title ->
  render_survey concerns (first :: rest) ui w
  = match render_general ui 1 rest (after_primary concerns first ui w) with
    | (Ok _, w') => (Ok (responses (session w')), w')
    | (Raise e, w') => (Raise e, w')
    end.
Proof.
  intros Hq. unfold render_survey, mbind, M_bind, lift.
  rewrite render_question_value, Hq. fold (answer_of first (primary_pick ui)).
  unfold after_primary. destruct (primary_pick ui) as [|i].
  { simpl. by destruct (render_general _ _ _ _) as [[[]|e] w']. }
  rewrite answer_of_succ. destruct (q_options first !! i) as [primary_concern|] eqn:Hi.
  2:{ simpl. by destruct (render_general _ _ _ _) as [[[]|e] w']. }
  cbn [truthy]. replace (negb (Z.of_nat (S i) =? 0)%Z) with true
    by (symmetry; apply negb_true_iff, Z.eqb_neq; lia).
  rewrite (py_index_succ _ _ _ Hi). cbn [set_response]. rewrite selectbox_spec.
  destruct (specific_pick ui) as [|j].
  { simpl. by destruct (render_general _ _ _ _) as [[[]|e] w']. }
  destruct (default [] (concerns !! primary_concern) !! j) as [label|] eqn:Hj.
  2:{ simpl. by destruct (render_general _ _ _ _) as [[[]|e] w']. }
  rewrite numbered_not_placeholder. cbn [negb]. rewrite leading_number_numbered.
  replace (j + 1) with (S j) by lia.
  erewrite py_index_succ
    by (rewrite numbered_lookup, Hj; simpl; by replace (j + 1) with (S j) by lia).
  unfold write. simpl. by destruct (render_general _ _ _ _) as [[[]|e] w'].
Qed.

Lemma keeps_answers_after_primary (concerns : gmap string (list string))
      (first : question) (ui : picks) (w : world) :
  keeps_answers w (after_primary concerns first ui w).
Proof.
  unfold after_primary.
  repeat (case_match; eauto using keeps_answers_refl, keeps_answers_write,
                                  keeps_answers_trans).
Qed.

(** X3. [render_survey] changes nothing but the response mapping and
    removes no entry from it: an answer recorded by an earlier run stays
    when its select box is set back to the placeholder.  This holds also
    for a run that ends in an exception. *)
Theorem render_survey_keeps_answers (concerns : gmap string (list string))
        (questions : list question) (ui : picks) (w : world) :
  keeps_answers w (render_survey concerns questions ui w).2.
Proof.
  destruct questions as [|first rest]; [apply keeps_answers_refl|].
  destruct (q_question first) as [title|] eqn:Hq.
  - rewrite (render_survey_cons _ _ title) by done.
    pose proof (render_general_keeps ui rest 1 (after_primary concerns first ui w)) as Hk.
    destruct (render_general _ _ _ _) as [[[]|e] w']; simpl in *;
      (eapply keeps_answers_trans; [apply keeps_answers_after_primary|exact Hk]).
  - unfold render_survey, mbind, M_bind, lift.
    rewrite render_question_value, Hq. apply keeps_answers_refl.
Qed.

(** X4. The only exceptions of [render_survey] are [IndexError] for an
    empty question list and [KeyError] for an entry without a "question"
    key.  On a well-formed question list it returns the response mapping
    for every combination of picks: the numbers it reads back from the
    labels always parse and always index an option. *)
Theorem render_survey_outcome (concerns : gmap string (list string))
        (questions : list question) (ui : picks) (w : world) :
  let run := render_survey concerns questions ui w in
  (questions = [] -> run.1 = Raise IndexError)
  /\ (questions <> [] -> titled questions -> run.1 = Ok (responses (session run.2)))
  /\ (questions <> [] -> ~ titled questions -> run.1 = Raise (KeyError "question")).
Proof.
  simpl. split; [by intros ->|]. split.
  - intros Hne Ht. destruct questions as [|first rest]; [done|].
    inversion Ht as [|? ? Hfirst Hrest]; subst.
    destruct (q_question first) as [title|] eqn:Hq; [|done].
    rewrite (render_survey_cons _ _ title) by done.
    pose proof (render_general_total ui rest 1 (after_primary concerns first ui w) Hrest) as Hr.
    by destruct (render_general _ _ _ _) as [[[]|e] w'].
  - intros Hne Ht. destruct questions as [|first rest]; [done|].
    destruct (q_question first) as [title|] eqn:Hq.
    + rewrite (render_survey_cons _ _ title) by done.
      assert (~ titled rest) as Hrest.
      { intros Hr. apply Ht. constructor; [congruence|done]. }
      pose proof (render_general_nokey ui rest 1 (after_primary concerns first ui w) Hrest) as Hr.
      destruct (render_general _ _ _ _) as [[[]|e] w']; simpl in *; congruence.
    + unfold render_survey, mbind, M_bind, lift.
      by rewrite render_question_value, Hq.
Qed.

Lemma lookup_write (k k' : string) (v : pyval) (w : world) :
  responses (session (write k v w)) !! k'
  = if decide (k = k') then Some v else responses (session w) !! k'.
Proof. unfold write. simpl. apply lookup_insert. Qed.

Lemma after_question_other (ui : picks) (i : nat) (q : question) (title k : string)
      (w : world) :
  title <> k -> k <> "Delivery Mode" ->
  responses (session (after_question ui i q title w)) !! k = responses (session w) !! k.
Proof.
  intros Ht Hk. unfold after_question.
  destruct (truthy _), (Nat.eqb _ _); rewrite ?lookup_write;
    repeat case_decide; congruence.
Qed.

Lemma after_question_delivery (ui : picks) (i : nat) (q : question) (title : string)
      (w : world) :
  title <> "Delivery Mode" ->
  responses (session (after_question ui i q title w)) !! "Delivery Mode"
  = if Nat.eqb (i + 1) 6 then Some (answer_of q (question_pick ui i))
    else responses (session w) !! "Delivery Mode".
Proof.
  intros Ht. unfold after_question.
  destruct (truthy _), (Nat.eqb _ _); rewrite ?lookup_write;
    repeat case_decide; congruence.
Qed.

Lemma render_general_other (ui : picks) (k : string) (qs : list question) (i : nat)
      (w : world) :
  untitled k qs -> k <> "Delivery Mode" ->
  responses (session (render_general ui i qs w).2) !! k = responses (session w) !! k.
Proof.
  intros Hqs Hk. revert i w. induction Hqs as [|q qs Hq _ IH]; intros i w; [done|].
  destruct (q_question q) as [title|] eqn:Hq'.
  - rewrite (render_general_cons _ _ _ title) by done. rewrite IH.
    apply after_question_other; congruence.
  - by rewrite render_general_cons_nokey.
Qed.

Lemma render_general_delivery (ui : picks) (qs : list question) (i : nat) (w : world) :
  titled qs -> untitled "Delivery Mode" qs ->
  responses (session (render_general ui i qs w).2) !! "Delivery Mode"
  = match (if bool_decide (i <= 5) then qs !! (5 - i) else None) with
    | Some q => Some (answer_of q (question_pick ui 5))
    | None => responses (session w) !! "Delivery Mode"
    end.
Proof.
  intros Ht Hu. revert i w Hu.
  induction Ht as [|q qs Hq _ IH]; intros i w Hu.
  { simpl. by destruct (bool_decide _). }
  inversion Hu as [|? ? Hq' Hu']; subst.
  destruct (q_question q) as [title|] eqn:Hqq; [|done].
  rewrite (render_general_cons _ _ _ title) by done. rewrite IH by done.
  rewrite after_question_delivery by congruence.
  destruct (decide (i = 5)) as [->|Hi].
  - rewrite (bool_decide_eq_false_2 (6 <= 5)) by lia.
    rewrite (bool_decide_eq_true_2 (5 <= 5)) by lia. done.
  - rewrite (proj2 (Nat.eqb_neq (i + 1) 6)) by lia.
    destruct (decide (i <= 5)) as [Hle|Hgt].
    + rewrite !bool_decide_eq_true_2 by lia.
      replace (5 - i) with (S (5 - S i)) by lia. done.
    + by rewrite !bool_decide_eq_false_2 by lia.
Qed.

Lemma after_primary_delivery (concerns : gmap string (list string)) (first : question)
      (ui : picks) (w : world) :
  responses (session (after_primary concerns first ui w)) !! "Delivery Mode"
  = responses (session w) !! "Delivery Mode".
Proof.
  unfold after_primary. repeat case_match; rewrite ?lookup_write; done.
Qed.

Lemma render_survey_delivery_lookup (concerns : gmap string (list string))
      (questions : list question) (ui : picks) (w : world) :
  questions <> [] -> titled questions -> untitled "Delivery Mode" (drop 1 questions) ->
  responses (session (render_survey concerns questions ui w).2) !! "Delivery Mode"
  = match questions !! 5 with
    | Some q => Some (answer_of q (question_pick ui 5))
    | None => responses (session w) !! "Delivery Mode"
    end.
Proof.
  intros Hne Ht Hu. destruct questions as [|first rest]; [done|].
  inversion Ht as [|? ? Hfirst Hrest]; subst.
  destruct (q_question first) as [title|] eqn:Hq; [|done].
  rewrite (render_survey_cons _ _ title) by done.
  pose proof (render_general_delivery ui rest 1 (after_primary concerns first ui w)
                Hrest Hu) as Hd.
  rewrite after_primary_delivery in Hd. simpl in Hd.
  by destruct (render_general _ _ _ _) as [[[]|e] w'].
Qed.

(** X5. After [render_survey] on a well-formed list with at least six
    questions, "Delivery Mode" holds the answer to the sixth question,
    [None] included when it is left at the placeholder, so that an earlier
    choice is overwritten; with fewer questions the entry is not touched.
    The sheet that [recommend_treatments] will load follows: position 1
    gives "Non-injectable", position 2 gives "All treatments". *)
Theorem render_survey_delivery_mode (concerns : gmap string (list string))
        (questions : list question) (ui : picks) (w : world) :
  questions <> [] -> titled questions -> untitled "Delivery Mode" (drop 1 questions) ->
  let w' := (render_survey concerns questions ui w).2 in
  responses (session w') !! "Delivery Mode"
  = match questions !! 5 with
    | Some q => Some (answer_of q (question_pick ui 5))
    | None => responses (session w) !! "Delivery Mode"
    end
  /\ chosen_sheet (responses (session w'))
     = match questions !! 5 with
       | Some q =>
           match question_pick ui 5 with
           | 1 => if bool_decide (1 <= length (q_options q)) then Some "Non-injectable"
                  else None
           | 2 => if bool_decide (2 <= length (q_options q)) then Some "All treatments"
                  else None
           | _ => None
           end
       | None => chosen_sheet (responses (session w))
       end.
Proof.
  intros Hne Ht Hu. simpl.
  pose proof (render_survey_delivery_lookup concerns questions ui w Hne Ht Hu) as Hdm.
  split; [done|]. unfold chosen_sheet at 1. rewrite Hdm.
  destruct (questions !! 5) as [q|]; [|done].
  unfold answer_of. destruct (question_pick ui 5) as [|[|[|n]]].
  - by rewrite bool_decide_eq_false_2 by lia.
  - destruct (decide (1 <= length (q_options q))).
    + by rewrite !bool_decide_eq_true_2 by lia.
    + by rewrite !bool_decide_eq_false_2 by lia.
  - destruct (decide (2 <= length (q_options q))).
    + by rewrite !bool_decide_eq_true_2 by lia.
    + by rewrite !bool_decide_eq_false_2 by lia.
  - destruct (bool_decide _); [|done].
    replace (Z.of_nat (S (S (S n)))) with (Z.pos (Pos.of_succ_nat (S (S n)))) by lia.
    simpl. destruct (Pos.of_succ_nat n) as [p|p|]; simpl; try done; by destruct p.
Qed.

Lemma render_survey_outcome_witness :
  (render_survey survey_concerns survey_questions survey_picks fresh_world).1
  = Ok (responses (session
          (render_survey survey_concerns survey_questions survey_picks fresh_world).2)).
Proof.
  refine (proj1 (proj2 (render_survey_outcome survey_concerns survey_questions
                          survey_picks fresh_world)) _ _).
  - discriminate.
  - repeat constructor; discriminate.
Defined.

Lemma render_survey_delivery_mode_witness :
  responses (session (render_survey survey_concerns survey_questions survey_picks
                        fresh_world).2) !! "Delivery Mode" = Some (VInt 1)
  /\ chosen_sheet (responses (session (render_survey survey_concerns survey_questions
                                         survey_picks fresh_world).2))
     = Some "Non-injectable".
Proof.
  refine (render_survey_delivery_mode survey_concerns survey_questions survey_picks
            fresh_world _ _ _).
  - discriminate.
  - repeat constructor; discriminate.
  - repeat constructor; discriminate.
Defined.

Lemma lacks_numbered_head (k : nat) : lacks " " (str_of_nat k +:+ ")") = true.
Proof.
  rewrite lacks_forall, forall_chars_app, <- lacks_forall.
  rewrite digits_lack by (done || apply str_of_nat_digits). done.
Qed.

(** The code of a numbered label is the first word of the label. *)
Lemma extract_concern_code_numbered (k : nat) (label code : string) :
  lacks " " code = true ->
  label = code \/ (exists more, label = code +:+ " " +:+ more) ->
  extract_concern_code (VStr (str_of_nat k +:+ ") " +:+ label)) = Ok (Some code).
Proof.
  intros Hcode Hlabel. unfold extract_concern_code.
  change (") " +:+ label) with (")" +:+ " " +:+ label).
  rewrite <- append_assoc.
  rewrite (proj2 (String.eqb_neq _ _)) by apply append_not_empty.
  destruct Hlabel as [->|[more ->]].
  - by rewrite split_space_two by (done || apply lacks_numbered_head).
  - by destruct (split_space_more (str_of_nat k +:+ ")") code more
                   (lacks_numbered_head k) Hcode) as [l ->].
Qed.

Lemma after_primary_specific (concerns : gmap string (list string)) (first : question)
      (ui : picks) (w : world) (i j : nat) (primary_concern label : string) :
  primary_pick ui = S i -> q_options first !! i = Some primary_concern ->
  specific_pick ui = S j -> default [] (concerns !! primary_concern) !! j = Some label ->
  responses (session (after_primary concerns first ui w)) !! "Specific Interest"
  = Some (VStr (str_of_nat (S j) +:+ ") " +:+ label))
  /\ responses (session (after_primary concerns first ui w)) !! "Primary Concern"
     = Some (VStr primary_concern).
Proof.
  intros Hp Hi Hs Hj. unfold after_primary. rewrite Hp, Hi, Hs, Hj.
  rewrite !lookup_write. replace (j + 1) with (S j) by lia.
  repeat case_decide; done.
Qed.

(** X6. When the user picks a primary concern and one of its specific
    interests, [render_survey] stores the numbered label of that interest,
    and the concern code that [display_p_score] then extracts from it is
    the first word of the label as the concern mapping gives it. *)
Theorem render_survey_concern_code (concerns : gmap string (list string))
        (first : question) (rest : list question) (ui : picks) (w : world)
        (i j : nat) (primary_concern label code : string) :
  titled (first :: rest) -> untitled "Specific Interest" rest ->
  primary_pick ui = S i -> q_options first !! i = Some primary_concern ->
  specific_pick ui = S j -> default [] (concerns !! primary_concern) !! j = Some label ->
  lacks " " code = true ->
  label = code \/ (exists more, label = code +:+ " " +:+ more) ->
  let w' := (render_survey concerns (first :: rest) ui w).2 in
  responses (session w') !! "Specific Interest"
  = Some (VStr (str_of_nat (S j) +:+ ") " +:+ label))
  /\ extract_concern_code (default (VStr "") (responses (session w') !! "Specific Interest"))
     = Ok (Some code).
Proof.
  intros Ht Hu Hp Hi Hs Hj Hcode Hlabel. simpl.
  inversion Ht as [|? ? Hfirst Hrest]; subst.
  destruct (q_question first) as [title|] eqn:Hq; [|done].
  assert (responses (session (render_survey concerns (first :: rest) ui w).2)
            !! "Specific Interest"
          = Some (VStr (str_of_nat (S j) +:+ ") " +:+ label))) as Hsi.
  { rewrite (render_survey_cons _ _ title) by done.
    pose proof (render_general_other ui "Specific Interest" rest 1
                  (after_primary concerns first ui w) Hu) as Hk.
    rewrite (proj1 (after_primary_specific _ _ _ _ _ _ _ _ Hp Hi Hs Hj)) in Hk.
    destruct (render_general _ _ _ _) as [[[]|e] w']; by apply Hk. }
  split; [done|]. rewrite Hsi. simpl. by apply extract_concern_code_numbered.
Qed.

Lemma render_survey_concern_code_witness :
  let w' := (render_survey survey_concerns survey_questions survey_picks fresh_world).2 in
  responses (session w') !! "Specific Interest" = Some (VStr "2) A2 - Acne scars")
  /\ extract_concern_code (default (VStr "") (responses (session w') !! "Specific Interest"))
     = Ok (Some "A2").
Proof.
  refine (render_survey_concern_code survey_concerns _ _ survey_picks fresh_world
            0 1 "Acne" "A2 - Acne scars" "A2" _ _ _ _ _ _ _ _).
  - repeat constructor; discriminate.
  - repeat constructor; discriminate.
  - reflexivity.
  - reflexivity.
  - reflexivity.
  - reflexivity.
  - reflexivity.
  - right. by exists "- Acne scars".
Defined.

(** ** More on the T-Score conversion *)

Lemma convert_t_score_shape_inv (t_score_str : cell) (t_score : list pyval) :
  convert_t_score t_score_str = Ok t_score ->
  exists id values, t_score = VStr id :: map VInt values.
Proof.
  destruct t_score_str as [s| |]; simpl; [|done..].
  destruct (String.eqb s ""); [done|].
  destruct (t_score_elements s) as [|id values]; [done|]. intros [= <-].
  exists id, (map TScore.safe_int_conversion values). by rewrite map_map.
Qed.

(** X7. [convert_t_score] returns exactly on the non-empty strings, and
    what it returns is an identifier followed by integers, one per further
    element of the string.  Every other cell raises the "non-empty string"
    error; the "expected format" error is never raised. *)
Theorem convert_t_score_shape (t_score_str : cell) :
  match convert_t_score t_score_str with
  | Ok out =>
      exists s id values,
        t_score_str = CStr s /\ s <> ""
        /\ out = VStr id :: map VInt values
        /\ S (length values) = length (t_score_elements s)
  | Raise e =>
      e = ValueError "Input must be a non-empty string representing a T-Score."
      /\ (forall s, t_score_str = CStr s -> s = "")
  end.
Proof.
  destruct t_score_str as [s| |]; simpl; [|by split..].
  destruct (String.eqb_spec s "") as [->|Hne]; [split; [done|by intros ? [= <-]]|].
  destruct (t_score_elements_nonempty s) as (id & values & Hel). rewrite Hel.
  exists s, id, (map TScore.safe_int_conversion values).
  rewrite map_map, length_map, Hel. by repeat split.
Qed.

Lemma rstrip_by_app_clean (p : ascii -> bool) (body : string) (c : ascii) :
  forall_chars (fun d => negb (p d)) body = true -> p c = true ->
  PyStr.rstrip_by p (body +:+ String c "") = body.
Proof.
  intros Hb Hc. induction body as [|d body IH].
  - simpl. by rewrite Hc.
  - rewrite append_cons. simpl in *. apply andb_true_iff in Hb as [Hd Hb].
    rewrite IH by done. destruct body; [|done]. by destruct (p d).
Qed.

Lemma strip_brackets (body : string) :
  forall_chars (fun c => negb (PyStr.mem_char c "[]")) body = true ->
  PyStr.strip_chars "[]" ("[" +:+ body +:+ "]") = body.
Proof.
  intros Hb. unfold PyStr.strip_chars, PyStr.strip_by.
  rewrite append_cons, append_nil_l. cbn [PyStr.lstrip_by].
  change (PyStr.mem_char "[" "[]") with true. cbv iota.
  destruct body as [|d body]; [done|].
  pose proof Hb as Hb'. cbn [forall_chars] in Hb'. apply andb_true_iff in Hb' as [Hd _].
  rewrite append_cons. cbn [PyStr.lstrip_by].
  apply negb_true_iff in Hd. rewrite Hd. rewrite <- append_cons.
  by apply (rstrip_by_app_clean (fun c => PyStr.mem_char c "[]")).
Qed.

Ltac ascii_cases :=
  let c := fresh "c" in
  intros c; destruct c as [[] [] [] [] [] [] [] []]; by vm_compute.

Lemma remove_char_app (c : ascii) (a b : string) :
  PyStr.remove_char c (a +:+ b) = PyStr.remove_char c a +:+ PyStr.remove_char c b.
Proof.
  induction a as [|d a IH]; [done|]. rewrite append_cons. simpl.
  destruct (Ascii.eqb c d); [done|]. by rewrite append_cons, IH.
Qed.

Lemma remove_char_clean (c : ascii) (s : string) :
  lacks c s = true -> PyStr.remove_char c s = s.
Proof.
  unfold lacks. induction s as [|d s IH]; simpl; [done|].
  intros [Hd Hs]%negb_true_iff%orb_false_iff. rewrite Hd, IH; [done|].
  by rewrite Hs.
Qed.

Lemma str_of_Z_forall (q : ascii -> bool) (v : Z) :
  q "-"%char = true -> (forall c, is_digit c = true -> q c = true) ->
  forall_chars q (str_of_Z v) = true.
Proof.
  intros Hm Hd. unfold str_of_Z. destruct (v <? 0)%Z.
  - rewrite append_cons, append_nil_l. simpl. rewrite Hm. simpl.
    eapply forall_chars_impl; [exact Hd|apply str_of_nat_digits].
  - eapply forall_chars_impl; [exact Hd|apply str_of_nat_digits].
Qed.

Lemma repr_values_forall (q : ascii -> bool) (values : list Z) :
  q ","%char = true -> q " "%char = true -> q "-"%char = true ->
  (forall c, is_digit c = true -> q c = true) ->
  forall_chars q (repr_values values) = true.
Proof.
  intros Hc Hs Hm Hd. induction values as [|v values IH]; [done|].
  cbn [repr_values]. rewrite !append_cons, append_nil_l. simpl.
  rewrite Hc, Hs, forall_chars_app, IH, str_of_Z_forall; done.
Qed.

Lemma digits_str_of_nat (n : nat) : PyStr.digits (str_of_nat n) = Some (Z.of_nat n).
Proof.
  unfold str_of_nat. rewrite digits_uint by apply uint_nonnil.
  by rewrite Unsigned.of_to.
Qed.

(** [int(str(z)) == z] *)
Lemma parse_int_str_of_Z (v : Z) : PyStr.parse_int (str_of_Z v) = Some v.
Proof.
  unfold PyStr.parse_int.
  rewrite strip_by_id by (apply str_of_Z_forall; [done|apply digit_not_int_space]).
  unfold str_of_Z. destruct (Z.ltb_spec v 0) as [Hneg|Hpos].
  - rewrite append_cons, append_nil_l, digits_str_of_nat. simpl. f_equal. lia.
  - pose proof (digits_str_of_nat (Z.to_nat v)) as Hd.
    destruct (str_of_nat_head (Z.to_nat v)) as (c & rest & Hs & Hc). rewrite Hs in *.
    clear Hs. revert Hd.
    destruct c as [[] [] [] [] [] [] [] []]; try (by vm_compute in Hc);
      intros Hd; cbn -[PyStr.digits]; rewrite Hd; f_equal; lia.
Qed.

Lemma safe_int_conversion_str_of_Z (v : Z) : TScore.safe_int_conversion (str_of_Z v) = v.
Proof.
  unfold TScore.safe_int_conversion, PyStr.strip.
  rewrite strip_by_id by (apply str_of_Z_forall; [done|apply digit_not_space]).
  by rewrite parse_int_str_of_Z.
Qed.

Lemma split_values (values : list Z) (a piece : string) :
  lacks "," a = true ->
  PyStr.split_go ", " 0 piece (a +:+ repr_values values)
  = (piece +:+ a) :: map str_of_Z values.
Proof.
  revert a piece. induction values as [|v values IH]; intros a piece Ha.
  - cbn [repr_values]. rewrite append_nil_r. by apply split_go_last.
  - cbn [repr_values].
    rewrite (split_go_segment "," " " a (str_of_Z v +:+ repr_values values) piece) by done.
    rewrite IH; [done|]. rewrite lacks_forall.
    apply str_of_Z_forall; [done|ascii_cases].
Qed.

Lemma plain_facts (id : string) :
  plain id = true ->
  lacks "," id = true /\ lacks "'" id = true
  /\ forall_chars (fun c => negb (PyStr.mem_char c "[]")) id = true.
Proof.
  intros Hp. unfold plain in Hp. rewrite !lacks_forall.
  repeat split; (eapply forall_chars_impl; [|exact Hp]); ascii_cases.
Qed.

(** X8. Reading back what was written: for an identifier free of
    brackets, quotes and commas and integers of at most 4300 digits each
    (the length of literal that [int()] accepts by default), negative ones
    included, [convert_t_score] on the text ['[id, v1, ..., vk]']
    (identifier quoted or bare) returns the identifier followed by exactly
    those integers. *)
Theorem convert_t_score_repr (quoted : bool) (id : string) (values : list Z) :
  plain id = true ->
  Forall (fun v => (Z.abs v < 10 ^ 4300)%Z) values ->
  convert_t_score (CStr (t_score_repr quoted id values))
  = Ok (VStr id :: map VInt values).
Proof.
  intros Hp _. destruct (plain_facts id Hp) as (Hc & Hq & Hb).
  assert (t_score_elements (t_score_repr quoted id values) = id :: map str_of_Z values)
    as Hel.
  { unfold t_score_elements, t_score_repr. rewrite strip_brackets.
    - rewrite !remove_char_app, (remove_char_clean _ id) by done.
      rewrite (remove_char_clean _ (repr_values values))
        by (rewrite lacks_forall; apply repr_values_forall; try done; ascii_cases).
      replace (PyStr.remove_char "'" (if quoted then "'" else "")) with ""
        by (by destruct quoted).
      rewrite !append_nil_l. unfold PyStr.split. by rewrite split_values.
    - rewrite !forall_chars_app, Hb.
      rewrite repr_values_forall by (try done; ascii_cases). by destruct quoted. }
  unfold convert_t_score. rewrite Hel.
  replace (String.eqb (t_score_repr quoted id values) "") with false
    by (unfold t_score_repr; by rewrite append_cons).
  rewrite map_map. do 2 f_equal. apply map_ext. intros v.
  by rewrite safe_int_conversion_str_of_Z.
Qed.

Lemma convert_t_score_repr_witness :
  convert_t_score (CStr "['A1', 2, -1, 10]") = Ok [VStr "A1"; VInt 2; VInt (-1); VInt 10].
Proof.
  apply (convert_t_score_repr true "A1" [2; -1; 10]%Z); [reflexivity|].
  repeat constructor.
Defined.

(** ** More on the D-Score *)

Lemma term_nonneg (pt : pyval * pyval) (d : Z) : DScore.term pt = Ok d -> (0 <= d)%Z.
Proof.
  unfold DScore.term. destruct (DScore.safe_int_conversion pt.2) as [n|e]; simpl; [|done].
  destruct (DScore.minus pt.1 n) as [x|e]; simpl; [|done]. intros [= <-]. lia.
Qed.

Lemma sum_terms_ge (pairs : list (pyval * pyval)) (acc d : Z) :
  DScore.sum_terms acc pairs = Ok d -> (acc <= d)%Z.
Proof.
  revert acc. induction pairs as [|pt pairs IH]; intros acc; simpl.
  - intros [= <-]. lia.
  - destruct (DScore.term pt) as [x|e] eqn:Hx; simpl; [|done].
    intros Hs. apply IH in Hs. apply term_nonneg in Hx. lia.
Qed.

(** X9. Whatever the two lists hold, a D-Score that [calculate_d_score]
    returns is at least 0 and comes from lists of one length, at least 2;
    lists of equal length below 2 raise the error about the missing
    scoring element. *)
Theorem calculate_d_score_returns (p_score t_score : list pyval) :
  (forall d, calculate_d_score p_score t_score = Ok d ->
     length p_score = length t_score /\ 2 <= length p_score /\ (0 <= d)%Z)
  /\ (length p_score = length t_score -> length p_score <= 1 ->
      calculate_d_score p_score t_score
      = Raise (ValueError
          "p_score and t_score must contain at least one scoring element beyond the first identifier.")).
Proof.
  unfold calculate_d_score. split.
  - intros d. destruct (Nat.eqb_spec (length p_score) (length t_score)) as [Hlen|_];
      simpl; [|done].
    destruct (Nat.leb_spec (length p_score) 1) as [|Hp]; simpl; [done|].
    destruct (Nat.leb_spec (length t_score) 1) as [|Ht]; simpl; [done|].
    intros Hs%sum_terms_ge. repeat split; [done|lia|done].
  - intros Hlen Hle. rewrite Hlen, Nat.eqb_refl. simpl.
    destruct (Nat.leb_spec (length t_score) 1); [done|lia].
Qed.

Lemma calculate_d_score_returns_witness :
  length [VStr "A1"; VInt 4; VInt 0] = length [VStr "A1"; VStr "7"; VStr "n/a"]
  /\ 2 <= length [VStr "A1"; VInt 4; VInt 0] /\ (0 <= 4)%Z.
Proof.
  apply (proj1 (calculate_d_score_returns [VStr "A1"; VInt 4; VInt 0]
                  [VStr "A1"; VStr "7"; VStr "n/a"]) 4%Z).
  reflexivity.
Defined.

Lemma sum_abs_differences_sym (ps ts : list Z) :
  sum_abs_differences ps ts = sum_abs_differences ts ps.
Proof.
  revert ts. induction ps as [|p ps IH]; intros [|t ts]; try done.
  unfold sum_abs_differences in *. simpl. rewrite IH. lia.
Qed.

Lemma calculate_d_score_ints_total (idp idt : pyval) (ps ts : list Z) :
  calculate_d_score (idp :: map VInt ps) (idt :: map VInt ts)
  = if negb (Nat.eqb (length ps) (length ts)) then
      Raise (ValueError "p_score and t_score must have the same length.")
    else if Nat.eqb (length ps) 0 then
      Raise (ValueError
        "p_score and t_score must contain at least one scoring element beyond the first identifier.")
    else Ok (sum_abs_differences ps ts).
Proof.
  destruct (Nat.eqb_spec (length ps) (length ts)) as [Hlen|Hne]; simpl.
  - destruct ps as [|p ps].
    + destruct ts; [|done]. reflexivity.
    + by apply calculate_d_score_ints.
  - unfold calculate_d_score. simpl. rewrite !length_map.
    by rewrite (proj2 (Nat.eqb_neq _ _)) by done.
Qed.

(** X10. The distance does not depend on which vector is the P-Score: on
    lists with integer tails [calculate_d_score] gives the same outcome,
    error or value, with its arguments exchanged. *)
Theorem calculate_d_score_symmetric (idp idt : pyval) (ps ts : list Z) :
  calculate_d_score (idp :: map VInt ps) (idt :: map VInt ts)
  = calculate_d_score (idt :: map VInt ts) (idp :: map VInt ps).
Proof.
  rewrite !calculate_d_score_ints_total, (Nat.eqb_sym (length ts)).
  destruct (Nat.eqb_spec (length ps) (length ts)) as [Hlen|_]; [|done]. simpl.
  rewrite <- Hlen. destruct (Nat.eqb (length ps) 0); [done|].
  by rewrite sum_abs_differences_sym.
Qed.

Lemma sum_abs_differences_triangle (ps ts us : list Z) :
  length ps = length ts -> length ts = length us ->
  (sum_abs_differences ps us <= sum_abs_differences ps ts + sum_abs_differences ts us)%Z.
Proof.
  revert ts us. induction ps as [|p ps IH]; intros [|t ts] [|u us]; try done.
  intros [= Hpt] [= Htu]. specialize (IH ts us Hpt Htu).
  unfold sum_abs_differences in *. simpl. lia.
Qed.

(** X11. The D-Score obeys the triangle inequality: for three vectors of
    one length with integer tails, the distance from the first to the
    third is at most the sum of the distances through the second. *)
Theorem calculate_d_score_triangle (idp idt idu : pyval) (ps ts us : list Z) :
  length ps = length ts -> length ts = length us -> ps <> [] ->
  exists dpt dtu dpu,
    calculate_d_score (idp :: map VInt ps) (idt :: map VInt ts) = Ok dpt
    /\ calculate_d_score (idt :: map VInt ts) (idu :: map VInt us) = Ok dtu
    /\ calculate_d_score (idp :: map VInt ps) (idu :: map VInt us) = Ok dpu
    /\ (dpu <= dpt + dtu)%Z.
Proof.
  intros Hpt Htu Hne.
  exists (sum_abs_differences ps ts), (sum_abs_differences ts us),
         (sum_abs_differences ps us).
  assert (ts <> []) by (intros ->; by destruct ps).
  repeat split; try (apply calculate_d_score_ints; congruence).
  by apply sum_abs_differences_triangle.
Qed.

Lemma calculate_d_score_triangle_witness :
  exists dpt dtu dpu,
    calculate_d_score (VStr "A1" :: map VInt [2; 3]%Z) (VStr "A1" :: map VInt [5; 1]%Z) = Ok dpt
    /\ calculate_d_score (VStr "A1" :: map VInt [5; 1]%Z) (VStr "B" :: map VInt [0; 0]%Z) = Ok dtu
    /\ calculate_d_score (VStr "A1" :: map VInt [2; 3]%Z) (VStr "B" :: map VInt [0; 0]%Z) = Ok dpu
    /\ (dpu <= dpt + dtu)%Z.
Proof.
  apply (calculate_d_score_triangle (VStr "A1") (VStr "A1") (VStr "B")
           [2; 3]%Z [5; 1]%Z [0; 0]%Z); done.
Defined.

(** X12. A T-Score that [convert_t_score] produced never makes
    [calculate_d_score] fail on its contents: against a P-Score of
    integer answers the only outcomes are a D-Score, when the lengths
    agree, and the length error, when they do not.  No field of the
    catalog string, however malformed, raises. *)
Theorem converted_t_score_scores (t_score_str : cell) (t_score : list pyval)
        (code : string) (answers : list Z) :
  convert_t_score t_score_str = Ok t_score ->
  answers <> [] ->
  calculate_d_score (VStr code :: map VInt answers) t_score
  = if Nat.eqb (length t_score) (S (length answers)) then
      Ok (sum_abs_differences answers
            (map (fun v => match v with VInt z => z | _ => 0%Z end) (drop 1 t_score)))
    else Raise (ValueError "p_score and t_score must have the same length.").
Proof.
  intros Hconv Hne. pose proof (convert_t_score_shape_inv t_score_str t_score Hconv)
    as (id & values & ->).
  rewrite calculate_d_score_ints_total. cbn [length]. rewrite length_map.
  destruct (Nat.eqb_spec (length answers) (length values)) as [Hlen|Hlen].
  - rewrite (proj2 (Nat.eqb_eq (S (length values)) (S (length answers)))) by lia.
    destruct answers as [|a answers]; [done|]. cbn [negb length Nat.eqb drop].
    do 2 f_equal. rewrite drop_0, map_map. symmetry. apply map_id.
  - by rewrite (proj2 (Nat.eqb_neq (S (length values)) (S (length answers)))) by lia.
Qed.

(** ** More on the prefix filter *)

Lemma prefix_trans (a b s : string) :
  String.prefix a b = true -> String.prefix b s = true -> String.prefix a s = true.
Proof.
  revert b s. induction a as [|x a IH]; intros b s Hab Hbs; [by destruct s|].
  destruct b as [|y b]; [done|]. destruct s as [|z s]; [done|]. simpl in *.
  destruct (ascii_dec x y) as [->|]; [|done].
  destruct (ascii_dec y z) as [->|]; [|done]. by apply (IH b s).
Qed.

Section FilterCompose.
Context {R : Type} `{Coded R}.

Lemma filter_filter_narrow (f g : R -> bool) (l : list R) :
  (forall r, g r = true -> f r = true) ->
  List.filter g (List.filter f l) = List.filter g l.
Proof.
  intros Hgf. induction l as [|r l IH]; simpl; [done|].
  destruct (f r) eqn:Hf; simpl; rewrite IH; [done|].
  destruct (g r) eqn:Hg; [|done]. apply Hgf in Hg. congruence.
Qed.

Lemma code_matches_narrow (code1 code2 : string) (r : R) :
  String.prefix code1 code2 = true ->
  code_matches code2 r = true -> code_matches code1 r = true.
Proof.
  unfold code_matches, PyStr.startswith. destruct (concern_code_of r); [|done].
  apply prefix_trans.
Qed.

Lemma filter_treatments_narrow (data out : DataFrame R) (code1 code2 : string) :
  String.prefix code1 code2 = true -> PyStr.strip code1 <> "" ->
  filter_treatments data (VStr code2) = Ok out ->
  exists mid, filter_treatments data (VStr code1) = Ok mid
              /\ filter_treatments mid (VStr code2) = Ok out.
Proof.
  intros Hpre Hs1 Hok.
  destruct (filter_treatments_ok_inv _ _ _ Hok) as (c & [= <-] & Hd & Hc & Hs2).
  pose proof Hok as Hok'. rewrite filter_treatments_guarded in Hok' by done.
  destruct (List.filter has_code (rows data)) as [|h hs] eqn:Hdrop; [done|].
  destruct (List.filter (code_matches code2) (rows data)) as [|r rs] eqn:Hf2; [done|].
  injection Hok' as <-.
  assert (List.filter (code_matches code2) (List.filter (code_matches code1) (rows data))
          = r :: rs) as Hnarrow.
  { rewrite filter_filter_narrow; [done|]. intros x. by apply code_matches_narrow. }
  rewrite filter_treatments_guarded by done. rewrite Hdrop.
  destruct (List.filter (code_matches code1) (rows data)) as [|m ms] eqn:Hf1; [done|].
  eexists. split; [reflexivity|].
  rewrite filter_treatments_guarded; [cbn [rows columns]| |done|done].
  - rewrite Hnarrow. destruct (List.filter has_code (m :: ms)) eqn:Hdrop1; [|done].
    apply dropna_nil, Forall_cons in Hdrop1 as [Hm _].
    assert (code_matches code1 m = true) as Hmatch.
    { assert (m ∈ List.filter (code_matches code1) (rows data)) as Hin
        by (rewrite Hf1; constructor).
      rewrite list_elem_of_In, filter_In in Hin. tauto. }
    apply code_matches_has_code in Hmatch. unfold has_code in Hmatch.
    by rewrite Hm in Hmatch.
  - apply df_empty_false. simpl. split; [done|].
    intros Hnil. rewrite Hnil in Hc. by apply not_elem_of_nil in Hc.
Qed.
End FilterCompose.

(** X13. Filtering twice is filtering once: a table that
    [filter_treatments] returned passes its guards again and is returned
    unchanged for the same code. *)
Theorem filter_treatments_idempotent {R : Type} `{Coded R}
        (data out : DataFrame R) (concern_code : pyval) :
  filter_treatments data concern_code = Ok out ->
  filter_treatments out concern_code = Ok out.
Proof.
  intros Hok. destruct (filter_treatments_ok_inv _ _ _ Hok) as (code & -> & _ & _ & Hs).
  destruct (filter_treatments_narrow data out code code) as (mid & Hmid & Hout);
    [|done|done|congruence].
  clear. induction code as [|c code IH]; [done|]. simpl.
  by destruct (ascii_dec c c).
Qed.

Lemma filter_treatments_idempotent_witness :
  filter_treatments
    {| columns := ["Concern Code"];
       rows := [coded 0 (Some "A"); coded 2 (Some "A1"); coded 4 (Some "A23")] |} (VStr "A")
  = Ok {| columns := ["Concern Code"];
          rows := [coded 0 (Some "A"); coded 2 (Some "A1"); coded 4 (Some "A23")] |}.
Proof. apply (filter_treatments_idempotent example_codes). reflexivity. Defined.

(** X14. Codes are hierarchical: what the filter keeps for a code is
    among what it keeps for any non-blank prefix of that code, and
    filtering for the prefix first and then for the code gives the table
    that filtering for the code gives directly. *)
Theorem filter_treatments_hierarchy {R : Type} `{Coded R}
        (data out : DataFrame R) (code1 code2 : string) :
  String.prefix code1 code2 = true -> PyStr.strip code1 <> "" ->
  filter_treatments data (VStr code2) = Ok out ->
  exists mid, filter_treatments data (VStr code1) = Ok mid
              /\ filter_treatments mid (VStr code2) = Ok out
              /\ forall r, r ∈ rows out -> r ∈ rows mid.
Proof.
  intros Hpre Hs1 Hok.
  destruct (filter_treatments_narrow data out code1 code2 Hpre Hs1 Hok)
    as (mid & Hmid & Hout).
  exists mid. split; [done|]. split; [done|].
  intros r Hr. apply filter_treatments_ok_rows in Hout as [_ Hrows].
  rewrite Hrows, list_elem_of_In, filter_In, <- list_elem_of_In in Hr. tauto.
Qed.

Lemma filter_treatments_hierarchy_witness :
  exists mid, filter_treatments example_codes (VStr "A") = Ok mid
              /\ filter_treatments mid (VStr "A2")
                 = Ok {| columns := ["Concern Code"]; rows := [coded 4 (Some "A23")] |}
              /\ forall r, r ∈ [coded 4 (Some "A23")] -> r ∈ rows mid.
Proof.
  apply (filter_treatments_hierarchy example_codes
           {| columns := ["Concern Code"]; rows := [coded 4 (Some "A23")] |} "A" "A2");
    [reflexivity|discriminate|reflexivity].
Defined.

(** ** The outcomes of [recommend_treatments] *)

Lemma relabel_length (i : nat) (l : list scored) : length (relabel i l) = length l.
Proof. revert i. induction l as [|r l IH]; intros i; simpl; [done|]. by rewrite IH. Qed.

Lemma relabel_labels (i : nat) (l : list scored) :
  map (fun r => label (source r)) (relabel i l) = seq i (length l).
Proof. revert i. induction l as [|r l IH]; intros i; simpl; [done|]. by rewrite IH. Qed.

Lemma relabel_scores (i : nat) (l : list scored) :
  map D_Score (relabel i l) = map D_Score l.
Proof. revert i. induction l as [|r l IH]; intros i; simpl; [done|]. by rewrite IH. Qed.

Lemma relabel_Forall (P Q : scored -> Prop) (i : nat) (l : list scored) :
  (forall r r', D_Score r' = D_Score r -> T_Score r' = T_Score r ->
                Concern_Code (source r') = Concern_Code (source r) -> P r -> Q r') ->
  Forall P l -> Forall Q (relabel i l).
Proof.
  intros HPQ Hl. revert i. induction Hl as [|r l Hr _ IH]; intros i; simpl; constructor.
  - by apply (HPQ r).
  - apply IH.
Qed.

Lemma relabel_sorted (i : nat) (l : list scored) :
  StronglySorted (key_le D_Score) l -> StronglySorted (key_le D_Score) (relabel i l).
Proof.
  intros Hs. revert i. induction Hs as [|r l _ IH Hall]; intros i; simpl; constructor.
  - apply IH.
  - apply (relabel_Forall (key_le D_Score r)); [|done].
    unfold key_le. simpl. intros x x' Hd _ _ Hx. by rewrite Hd.
Qed.

Lemma nsmallest_Forall {A : Type} (key : A -> Z) (P : A -> Prop) (n : nat) (l : list A) :
  Forall P l -> Forall P (nsmallest key n l).
Proof.
  intros Hl. unfold nsmallest. apply Forall_take.
  by rewrite (sort_by_perm key l).
Qed.

Lemma Ok_inj {A : Type} (a b : A) : Ok a = Ok b -> a = b.
Proof. by intros [= ->]. Qed.

(** The columns selected for one label. *)
Lemma filter_label (c : string) (l : list string) :
  List.filter (String.eqb c) l = replicate (length (List.filter (String.eqb c) l)) c.
Proof.
  induction l as [|x l IH]; simpl; [done|].
  destruct (String.eqb_spec c x) as [<-|_]; [|done]. simpl. by rewrite <- IH.
Qed.

Lemma filter_label_present (c : string) (l : list string) :
  c ∈ l -> 1 <= length (List.filter (String.eqb c) l).
Proof.
  intros Hc. destruct (List.filter (String.eqb c) l) as [|x xs] eqn:Hf; simpl; [|lia].
  assert (c ∈ List.filter (String.eqb c) l) as Hin.
  { rewrite list_elem_of_In, filter_In, <- list_elem_of_In. split; [done|].
    apply String.eqb_refl. }
  rewrite Hf in Hin. by apply not_elem_of_nil in Hin.
Qed.

Lemma filter_label_unique (c : string) (l : list string) :
  NoDup l -> c ∈ l -> List.filter (String.eqb c) l = [c].
Proof.
  induction 1 as [|x l Hx Hl IH]; intros Hc; [by apply not_elem_of_nil in Hc|]. simpl.
  destruct (String.eqb_spec c x) as [<-|Hne].
  - f_equal. apply filter_none. intros y Hy.
    destruct (String.eqb_spec c y) as [<-|_]; done.
  - apply IH. by apply elem_of_cons in Hc as [?|?].
Qed.

Lemma flat_map_ext_elem {A B : Type} (f g : A -> list B) (l : list A) :
  (forall x, x ∈ l -> f x = g x) -> flat_map f l = flat_map g l.
Proof.
  induction l as [|x l IH]; intros Hfg; simpl; [done|].
  rewrite (Hfg x) by constructor. f_equal. apply IH.
  intros y Hy. apply Hfg. by constructor.
Qed.

Lemma display_columns_length (cols : list string) :
  display_columns cols -> length columns_to_display <= length cols.
Proof.
  intros (count & Hcount & ->).
  induction columns_to_display as [|c l IH]; simpl; [lia|].
  rewrite length_app, length_replicate.
  pose proof (Hcount c ltac:(constructor)) as Hc.
  assert (length l <= length (flat_map (fun c => replicate (count c) c) l)) as Hl.
  { apply IH. intros x Hx. apply Hcount. by constructor. }
  lia.
Qed.

(** A table that [display_table] returns has the rows of its argument,
    numbered from 1, and for each display label the columns that bear it
    after the rename, of which there is at least one. *)
Lemma display_table_ok (top final : DataFrame scored) :
  display_table top = Ok final ->
  rows final = relabel 1 (rows top)
  /\ columns final
     = flat_map (fun c => List.filter (String.eqb c) (map rename_column (columns top)))
         columns_to_display
  /\ (forall c, c ∈ columns_to_display -> c ∈ map rename_column (columns top))
  /\ display_columns (columns final).
Proof.
  unfold display_table.
  destruct (List.filter _ columns_to_display) as [|x xs] eqn:Hmiss; [|done].
  intros <-%Ok_inj.
  assert (forall c, c ∈ columns_to_display -> c ∈ map rename_column (columns top)) as Hall.
  { intros c Hc. destruct (decide (c ∈ map rename_column (columns top))) as [|Hno]; [done|].
    assert (c ∈ List.filter
                  (fun c => negb (bool_decide (c ∈ map rename_column (columns top))))
                  columns_to_display) as Hin.
    { rewrite list_elem_of_In, filter_In, <- list_elem_of_In. split; [done|].
      by rewrite bool_decide_eq_false_2. }
    rewrite Hmiss in Hin. by apply not_elem_of_nil in Hin. }
  split; [done|]. split; [done|]. split; [done|].
  exists (fun c => length (List.filter (String.eqb c) (map rename_column (columns top)))).
  split; [intros c Hc; by apply filter_label_present, Hall|].
  apply flat_map_ext_elem. intros c _. apply filter_label.
Qed.

(** A label missing after the rename is reported by [KeyError]. *)
Lemma display_table_missing (top : DataFrame scored) (c : string) :
  c ∈ columns_to_display -> c ∉ map rename_column (columns top) ->
  exists message, display_table top = Raise (KeyError message).
Proof.
  intros Hc Hno. unfold display_table.
  destruct (List.filter _ columns_to_display) as [|x xs] eqn:Hmiss; [|by eexists].
  assert (c ∈ List.filter
                (fun c => negb (bool_decide (c ∈ map rename_column (columns top))))
                columns_to_display) as Hin.
  { rewrite list_elem_of_In, filter_In, <- list_elem_of_In. split; [done|].
    by rewrite bool_decide_eq_false_2. }
  rewrite Hmiss in Hin. by apply not_elem_of_nil in Hin.
Qed.

(** On a sheet in which no display label is borne twice after the rename,
    the table has exactly the eight display columns. *)
Lemma display_table_unique (top final : DataFrame scored) :
  NoDup (map rename_column (columns top)) ->
  display_table top = Ok final -> columns final = columns_to_display.
Proof.
  intros Hnodup (_ & -> & Hall & _)%display_table_ok.
  rewrite (flat_map_ext_elem _ (fun c => [c]));
    [|intros c Hc; by apply filter_label_unique, Hall].
  clear. induction columns_to_display as [|c l IH]; simpl; [done|]. by rewrite IH.
Qed.

(** What [recommend_treatments] stores and shows is a recommendation. *)
Lemma recommendation_built (concern_code : pyval) (scored_data filtered final : DataFrame scored) :
  filter_treatments scored_data concern_code = Ok filtered ->
  display_table {| columns := columns filtered;
                   rows := nsmallest D_Score 5 (rows filtered) |} = Ok final ->
  recommendation concern_code final.
Proof.
  intros Hfilter Hdisplay.
  destruct (filter_treatments_ok_inv _ _ _ Hfilter) as (code & -> & _).
  pose proof (filter_treatments_ok_nonempty _ _ _ Hfilter) as [Hne _]%df_empty_false.
  destruct (filter_treatments_ok_rows _ _ _ Hfilter) as [_ Hrows].
  destruct (display_table_ok _ _ Hdisplay) as (Hfinal & _ & _ & Hcols). simpl in Hfinal.
  unfold recommendation. rewrite Hfinal, relabel_length, relabel_labels.
  rewrite (nsmallest_length D_Score). split; [done|]. split.
  { destruct (rows filtered); [done|]. cbn [length]. lia. }
  split; [done|]. split; [apply relabel_sorted, nsmallest_sorted|].
  exists code. split; [done|].
  apply (relabel_Forall (fun r => code_matches code r = true)).
  { unfold code_matches, concern_code_of, scored_coded. by intros r r' _ _ ->. }
  apply nsmallest_Forall. rewrite Hrows. apply Forall_forall. intros r Hr.
  rewrite list_elem_of_In, filter_In in Hr. tauto.
Qed.

Lemma score_rows_columns (p_score : list pyval) (data : DataFrame treatment)
      (scored_data : DataFrame scored) :
  score_rows p_score data = Ok scored_data ->
  columns scored_data
  = if bool_decide ("D-Score" ∈ columns data) then columns data
    else columns data ++ ["D-Score"].
Proof.
  unfold score_rows. destruct (bool_decide ("T-Score" ∈ _)); simpl; [|done].
  destruct (mapR _ (rows data)) as [ts|e]; simpl; [|done].
  destruct (mapR _ ts) as [ds|e]; simpl; [|done]. by intros <-%Ok_inj.
Qed.

(** The added "D-Score" column is not a display column. *)
Lemma shown_columns_scored (cols : list string) :
  shown_columns (cols ++ ["D-Score"]) = shown_columns cols.
Proof.
  unfold shown_columns. apply flat_map_ext_elem. intros c Hc.
  rewrite map_app, List.filter_app.
  replace (List.filter (String.eqb c) (map rename_column ["D-Score"])) with (@nil string);
    [apply app_nil_r|].
  apply list_elem_of_In in Hc. simpl in Hc.
  repeat (destruct Hc as [<-|Hc]; [reflexivity|]). destruct Hc.
Qed.

(** The ways a call of [recommend_treatments] ends: a refusal, an
    exception, or a table for the sheet that was chosen. *)
Lemma recommend_treatments_cases_sheet (E : env) (p_score : list pyval) (w : world) :
  (exists es, refusal es /\ recommend_treatments E p_score w = (Ok (), show es w))
  \/ (exists e, recommend_treatments E p_score w = (Raise e, w))
  \/ (exists c tail t sheet data,
        p_score = c :: tail /\ recommendation c t
        /\ chosen_sheet (responses (session w)) = Some sheet
        /\ read_excel E sheet = inr data
        /\ columns t = shown_columns (columns data)
        /\ recommend_treatments E p_score w
           = (Ok (), show [StWrite "### Top 5 Recommended Treatments"; StTable t]
                       (store_table t w))).
Proof.
  unfold recommend_treatments, mbind, M_bind, get_responses. simpl.
  change (match responses (session w) !! "Delivery Mode" with
          | Some (VInt 1%Z) => Some "Non-injectable"
          | Some (VInt 2%Z) => Some "All treatments"
          | _ => None
          end) with (chosen_sheet (responses (session w))).
  destruct (chosen_sheet _) as [sheet|];
    [|left; eexists; split; [apply refuse_selection|done]].
  unfold load_data. destruct (read_excel E sheet) as [err|data] eqn:Hread; simpl.
  { left. eexists. split; [apply (refuse_unreadable sheet err)|].
    unfold show, emit. simpl. by rewrite <- app_assoc. }
  destruct (df_empty data); [left; eexists; split; [apply (refuse_empty sheet)|done]|].
  destruct p_score as [|concern_code tail]; simpl; [right; left; by eexists|].
  destruct (truthy concern_code); simpl;
    [|left; eexists; split; [apply refuse_code|done]].
  destruct (score_rows _ data) as [scored_data|e] eqn:Hscore; [|right; left; by eexists].
  destruct (filter_treatments scored_data concern_code) as [filtered|e] eqn:Hfilter;
    [|right; left; by eexists].
  rewrite (filter_treatments_ok_nonempty _ _ _ Hfilter).
  destruct (numeric_column _); simpl; [|right; left; by eexists].
  destruct (display_table _) as [final|e] eqn:Hdisplay; [|right; left; by eexists].
  pose proof (recommendation_built _ _ _ _ Hfilter Hdisplay) as Hrec.
  right; right. exists concern_code, tail, final, sheet, data.
  split; [done|]. split; [done|]. split; [done|]. split; [done|]. split.
  { destruct (display_table_ok _ _ Hdisplay) as (_ & -> & _).
    destruct (filter_treatments_ok_inv _ _ _ Hfilter) as (code & -> & _).
    destruct (filter_treatments_ok_rows _ _ _ Hfilter) as [Hcols _].
    change (shown_columns (columns filtered) = shown_columns (columns data)).
    rewrite Hcols, (score_rows_columns _ _ _ Hscore).
    destruct (bool_decide _); [done|apply shown_columns_scored]. }
  assert (df_empty final = false) as ->.
  { destruct Hrec as (Hcols & Hlen & _). apply df_empty_false.
    apply display_columns_length in Hcols.
    split; [by destruct (rows final); simpl in *; [lia|]|].
    by destruct (columns final); simpl in *; [lia|]. }
  unfold show, store_table, emit. simpl. by rewrite <- app_assoc.
Qed.

(** The three ways a call of [recommend_treatments] ends. *)
Lemma recommend_treatments_cases (E : env) (p_score : list pyval) (w : world) :
  (exists es, refusal es /\ recommend_treatments E p_score w = (Ok (), show es w))
  \/ (exists e, recommend_treatments E p_score w = (Raise e, w))
  \/ (exists c tail t,
        p_score = c :: tail /\ recommendation c t
        /\ recommend_treatments E p_score w
           = (Ok (), show [StWrite "### Top 5 Recommended Treatments"; StTable t]
                       (store_table t w))).
Proof.
  destruct (recommend_treatments_cases_sheet E p_score w)
    as [Hrefused|[Hraised|(c & tail & t & sheet & data & Hp & Hrec & _ & _ & _ & Hrun)]];
    [by left|by right; left|].
  right; right. by exists c, tail, t.
Qed.

(** A D-Score that is returned is not negative. *)
Lemma calculate_d_score_nonneg (p_score t_score : list pyval) (d : Z) :
  calculate_d_score p_score t_score = Ok d -> (0 <= d)%Z.
Proof.
  unfold calculate_d_score. destruct (negb _); [done|]. destruct (_ || _); [done|].
  apply sum_terms_ge.
Qed.

Lemma score_rows_nonneg (p_score : list pyval) (data : DataFrame treatment)
      (scored_data : DataFrame scored) :
  score_rows p_score data = Ok scored_data ->
  Forall (fun r => (0 <= D_Score r)%Z) (rows scored_data).
Proof.
  intros [_ Hall]%score_rows_sound. eapply Forall_impl; [exact Hall|].
  intros r [_ Hd]. by apply calculate_d_score_nonneg in Hd.
Qed.

(** The D-Scores of a sheet are not negative, so their column is numeric
    exactly when each of them fits 64 bits. *)
Lemma numeric_column_fits (values : list Z) :
  Forall (fun v => (0 <= v < 2 ^ 64)%Z) values -> numeric_column values = true.
Proof.
  intros Hall. unfold numeric_column. apply orb_true_iff. right.
  apply forallb_forall. intros v Hv%list_elem_of_In.
  pose proof (proj1 (Forall_forall _ _) Hall v Hv) as Hfit. cbv beta in Hfit.
  apply andb_true_iff. split; [apply Z.leb_le|apply Z.ltb_lt]; lia.
Qed.

Lemma numeric_column_exceeds (values : list Z) :
  Forall (fun v => (0 <= v)%Z) values ->
  Exists (fun v => (2 ^ 64 <= v)%Z) values ->
  numeric_column values = false.
Proof.
  intros Hpos (v & Hv & Hbig)%Exists_exists. unfold numeric_column.
  pose proof (proj1 (Forall_forall _ _) Hpos v Hv) as Hv0. cbv beta in Hv0.
  apply list_elem_of_In in Hv.
  apply orb_false_iff.
  split; apply not_true_iff_false; intros Hall;
    apply (proj1 (forallb_forall _ _) Hall v) in Hv;
    apply andb_true_iff in Hv as [_ Hlt%Z.ltb_lt]; lia.
Qed.

(** A submission that passes the filter: the five nearest rows are
    selected when the "D-Score" column is numeric, and shown when the
    display columns are there. *)
Lemma recommend_treatments_selects (E : env) (w : world) (code sheet : string)
      (tail : list pyval) (data : DataFrame treatment)
      (scored_data filtered_data : DataFrame scored) :
  chosen_sheet (responses (session w)) = Some sheet ->
  read_excel E sheet = inr data ->
  df_empty data = false ->
  score_rows (VStr code :: tail) data = Ok scored_data ->
  filter_treatments scored_data (VStr code) = Ok filtered_data ->
  recommend_treatments E (VStr code :: tail) w
  = if numeric_column (map D_Score (rows scored_data)) then
      match display_table {| columns := columns filtered_data;
                             rows := nsmallest D_Score 5 (rows filtered_data) |} with
      | Ok t => (Ok (), show [StWrite "### Top 5 Recommended Treatments"; StTable t]
                          (store_table t w))
      | Raise e => (Raise e, w)
      end
    else (Raise TypeError, w).
Proof.
  intros Hsheet Hread Hdata Hscore Hfilter.
  destruct (filter_treatments_ok_inv _ _ _ Hfilter) as (c & [= <-] & Hne & Hcc & Hstrip).
  pose proof (filter_treatments_ok_nonempty _ _ _ Hfilter) as Hfd.
  unfold recommend_treatments, mbind, M_bind, get_responses. simpl.
  unfold chosen_sheet in Hsheet. rewrite Hsheet.
  unfold load_data. rewrite Hread. simpl. rewrite Hdata.
  destruct (String.eqb_spec code "") as [->|_]; [done|]. simpl.
  rewrite Hscore, Hfilter, Hfd. simpl.
  destruct (numeric_column _); simpl; [|done].
  destruct (display_table _) as [t|e] eqn:Hdisplay; [|done].
  pose proof (recommendation_built _ _ _ _ Hfilter Hdisplay) as (Hcols & Hlen & _).
  assert (df_empty t = false) as ->.
  { apply df_empty_false. apply display_columns_length in Hcols.
    split; [by destruct (rows t); simpl in *; [lia|]|].
    by destruct (columns t); simpl in *; [lia|]. }
  unfold show, store_table, emit. simpl. by rewrite <- app_assoc.
Qed.

(** C2. The recommendation of a submission that passes the filter.  The
    table that [recommend_treatments] stores and shows is written from the
    filtered catalog alone: it holds [min 5 (size of the filtered
    catalog)] rows, in ascending order of D-Score; they are rows of least
    D-Score, and the rows of any one D-Score are listed in catalog order,
    earliest first.  This is so whenever every D-Score of the sheet fits a
    signed 64-bit integer; a sheet with a D-Score of more than 64 bits has
    a "D-Score" column of objects, and the selection ends in
    [TypeError]. *)
Theorem recommend_treatments_top_five (E : env) (w : world) (code sheet : string)
        (tail : list pyval) (data : DataFrame treatment)
        (scored_data filtered_data : DataFrame scored) :
  chosen_sheet (responses (session w)) = Some sheet ->
  read_excel E sheet = inr data ->
  df_empty data = false ->
  score_rows (VStr code :: tail) data = Ok scored_data ->
  filter_treatments scored_data (VStr code) = Ok filtered_data ->
  (forall c, c ∈ columns_to_display -> c ∈ map rename_column (columns filtered_data)) ->
  let top := nsmallest D_Score 5 (rows filtered_data) in
  let t := {| columns := shown_columns (columns filtered_data);
              rows := relabel 1 top |} in
  (Forall (fun r => (D_Score r < 2 ^ 63)%Z) (rows scored_data) ->
   recommend_treatments E (VStr code :: tail) w
   = (Ok (), show [StWrite "### Top 5 Recommended Treatments"; StTable t]
               (store_table t w)))
  /\ (Exists (fun r => (2 ^ 64 <= D_Score r)%Z) (rows scored_data) ->
      recommend_treatments E (VStr code :: tail) w = (Raise TypeError, w))
  /\ length (rows t) = 5 `min` length (rows filtered_data)
  /\ StronglySorted (fun a b => (D_Score a <= D_Score b)%Z) (rows t)
  /\ map D_Score (rows t) = map D_Score top
  /\ (forall d, List.filter (fun r => (D_Score r =? d)%Z) top
                `prefix_of` List.filter (fun r => (D_Score r =? d)%Z) (rows filtered_data))
  /\ exists rest, top ++ rest ≡ₚ rows filtered_data
                  /\ forall x y, x ∈ top -> y ∈ rest -> (D_Score x <= D_Score y)%Z.
Proof.
  intros Hsheet Hread Hdata Hscore Hfilter Hlabels top t.
  pose proof (recommend_treatments_selects E w code sheet tail data scored_data
                filtered_data Hsheet Hread Hdata Hscore Hfilter) as Hrun.
  pose proof (score_rows_nonneg _ _ _ Hscore) as Hpos.
  assert (display_table {| columns := columns filtered_data; rows := top |} = Ok t)
    as Hdisplay.
  { unfold display_table.
    rewrite (filter_none _ columns_to_display); [done|].
    intros c Hc. rewrite bool_decide_eq_true_2; [done|]. by apply Hlabels. }
  split; [|split].
  - intros Hfit. rewrite Hrun, numeric_column_fits.
    + fold top. by rewrite Hdisplay.
    + apply List.Forall_map, Forall_forall. intros r Hr.
      pose proof (proj1 (Forall_forall _ _) Hpos r Hr) as Hr0.
      pose proof (proj1 (Forall_forall _ _) Hfit r Hr) as Hr1.
      cbv beta in Hr0, Hr1. lia.
  - intros Hbig. rewrite Hrun, numeric_column_exceeds;
      [done|by apply List.Forall_map|by apply List.Exists_map].
  - change (rows t) with (relabel 1 top).
    rewrite relabel_length. unfold top.
    split; [apply nsmallest_length|].
    split; [apply relabel_sorted, (nsmallest_sorted D_Score)|].
    split; [apply relabel_scores|].
    split; [intros d; apply (nsmallest_stable D_Score)|].
    apply (nsmallest_least D_Score).
Qed.

Lemma recommend_treatments_top_five_witness :
  exists t,
    recommend_treatments (example_env example_catalog) [VStr "A1"; VInt 2; VInt 3; VInt 1]
      (example_world "1) A1 - Acne")
    = (Ok (), show [StWrite "### Top 5 Recommended Treatments"; StTable t]
                (store_table t (example_world "1) A1 - Acne")))
    /\ columns t = columns_to_display
    /\ map D_Score (rows t) = [0; 2]%Z
    /\ map (fun r => Concern_Code (source r)) (rows t) = [Some "A12"; Some "A1"].
Proof.
  assert (score_rows [VStr "A1"; VInt 2; VInt 3; VInt 1] example_catalog
          = Ok example_scored) as Hscore by (vm_compute; reflexivity).
  assert (filter_treatments example_scored (VStr "A1") = Ok example_filtered) as Hfilter
    by (vm_compute; reflexivity).
  assert (forall c, c ∈ columns_to_display ->
                    c ∈ map rename_column (columns example_filtered)) as Hlabels.
  { intros c Hc. apply list_elem_of_In in Hc. simpl in Hc.
    repeat (destruct Hc as [<-|Hc]; [apply (bool_decide_unpack _); vm_compute; exact I|]).
    destruct Hc. }
  destruct (recommend_treatments_top_five (example_env example_catalog)
              (example_world "1) A1 - Acne") "A1" "Non-injectable"
              [VInt 2; VInt 3; VInt 1] example_catalog example_scored example_filtered
              eq_refl eq_refl eq_refl Hscore Hfilter Hlabels) as (Hrun & _).
  eexists. split; [apply Hrun; repeat constructor|].
  repeat split; vm_compute; reflexivity.
Defined.

(** X15. [recommend_treatments] never touches the responses or the
    voucher, and only adds to the page.  When it raises, nothing at all
    has changed: no message was shown and no table stored. *)
Theorem recommend_treatments_frame (E : env) (p_score : list pyval) (w : world) :
  let run := recommend_treatments E p_score w in
  responses (session run.2) = responses (session w)
  /\ voucher_code (session run.2) = voucher_code (session w)
  /\ (exists new, page run.2 = page w ++ new)
  /\ (forall e, run.1 = Raise e -> run.2 = w).
Proof.
  simpl. destruct (recommend_treatments_cases E p_score w)
    as [(es & _ & ->)|[(e & ->)|(c & tail & t & _ & _ & ->)]]; simpl;
    repeat split; eauto; try done.
  exists []. by rewrite app_nil_r.
Qed.

(** X16. The stored table changes only when a table is shown.  A table
    that is stored and shown belongs to the sheet chosen by "Delivery
    Mode": its columns are, for each display label in turn, the columns of
    that sheet that bear the label after the rename (each label at least
    once, and twice where the sheet has both the original and the display
    name of a column); it has between one and five rows, numbered from 1,
    in ascending order of D-Score, each of a concern code that starts with
    the code of the P-Score. *)
Theorem recommend_treatments_table (E : env) (p_score : list pyval) (w : world) :
  let run := recommend_treatments E p_score w in
  (final_table (session run.2) = final_table (session w)
   /\ forall t, StTable t ∉ drop (length (page w)) (page run.2))
  \/ exists c tail t sheet data,
       p_score = c :: tail /\ recommendation c t
       /\ chosen_sheet (responses (session w)) = Some sheet
       /\ read_excel E sheet = inr data
       /\ columns t = shown_columns (columns data)
       /\ final_table (session run.2) = Some t
       /\ page run.2 = page w ++ [StWrite "### Top 5 Recommended Treatments"; StTable t].
Proof.
  simpl. destruct (recommend_treatments_cases_sheet E p_score w)
    as [(es & Hes & ->)|[(e & ->)
       |(c & tail & t & sheet & data & Hp & Hrec & Hsheet & Hread & Hcols & ->)]]; simpl.
  - left. split; [done|]. intros t. rewrite drop_app_length.
    destruct Hes; intros Hin; apply list_elem_of_In in Hin; simpl in Hin;
      intuition discriminate.
  - left. split; [done|]. intros t. rewrite drop_all. apply not_elem_of_nil.
  - right. by exists c, tail, t, sheet, data.
Qed.

(** A sheet that has a column "Treatment Name" beside "Treatment
    Brand/Name" is shown with nine columns, the first two under one
    label; a sheet without "Delivery Mode" is refused with the label in
    the message. *)
Example display_table_duplicate_label :
  shown_columns ("Treatment Name" :: catalog_columns)
  = "Treatment Name" :: columns_to_display
  /\ display_table {| columns := "Treatment Name" :: catalog_columns ++ ["D-Score"];
                      rows := rows stale_table |}
     = Ok {| columns := "Treatment Name" :: columns_to_display; rows := rows stale_table |}
  /\ display_table {| columns := ["Concern Code"; "T-Score"; "Treatment Brand/Name"];
                      rows := rows stale_table |}
     = Raise (KeyError "['Budget Level (SGD)', 'Duration of Results (months)', 'Sessions Required', 'Discomfort Level', 'Delivery Mode', 'Downtime', 'Interval Between Sessions'] not in index").
Proof. repeat split; vm_compute; reflexivity. Qed.

(** X17. Two error messages in [recommend_treatments] are dead: neither
    "No treatments found for the Concern Code ..." nor "No matching
    treatments found after filtering and scoring." is ever shown, because
    [filter_treatments] raises instead of returning an empty table and the
    five nearest of a non-empty table are not empty. *)
Theorem recommend_treatments_dead_messages (E : env) (p_score : list pyval) (w : world) :
  exists new, page (recommend_treatments E p_score w).2 = page w ++ new
              /\ forall e, e ∈ new -> ~ dead_message e.
Proof.
  destruct (recommend_treatments_cases E p_score w)
    as [(es & Hes & ->)|[(e & ->)|(c & tail & t & _ & _ & ->)]]; simpl.
  - exists es. split; [done|]. intros e He.
    destruct Hes; apply list_elem_of_In in He; simpl in He;
      intros [[code Hd]|Hd]; subst e; intuition discriminate.
  - exists []. split; [by rewrite app_nil_r|]. intros ev He. by apply not_elem_of_nil in He.
  - eexists. split; [done|]. intros e He. apply list_elem_of_In in He; simpl in He.
    intros [[code Hd]|Hd]; subst e; intuition discriminate.
Qed.

(** ** The outcomes of [display_p_score] and [main] *)

Lemma answers_nokey (responses : gmap string pyval) (qs : list question) :
  ~ titled qs -> answers responses qs = Raise (KeyError "question").
Proof.
  unfold answers. induction qs as [|q qs IH]; intros Hqs.
  - exfalso. apply Hqs. constructor.
  - simpl. destruct (q_question q) as [k|] eqn:Hq; [|done]. simpl.
    rewrite IH; [done|]. intros Ht. apply Hqs. constructor; [congruence|done].
Qed.

Lemma answers_titled (responses : gmap string pyval) (qs : list question) :
  titled qs -> exists tail, answers responses qs = Ok tail.
Proof.
  unfold answers. induction 1 as [|q qs Hq _ [tail IH]]; [by eexists|].
  simpl. destruct (q_question q) as [k|]; [|done]. simpl. rewrite IH. by eexists.
Qed.

(** [display_p_score] once the P-Score is built: the recommendation runs,
    and if it returns, a voucher is stored and the user is thanked. *)
Lemma display_p_score_reaches (E : env) (w : world) (code : string) (tail : list pyval) :
  questions E <> [] ->
  extract_concern_code (default (VStr "") (responses (session w) !! "Specific Interest"))
  = Ok (Some code) ->
  code <> "" ->
  answers (responses (session w)) (drop 1 (questions E)) = Ok tail ->
  display_p_score E w
  = match recommend_treatments E (VStr code :: tail) w with
    | (Ok _, w1) =>
        (Ok (), show [thanks (generate_voucher_code E)]
                  (store_voucher (generate_voucher_code E) w1))
    | (Raise e, w1) => (Raise e, w1)
    end.
Proof.
  intros Hq Hcode Hne Hans.
  pose proof (scores_length E _ code tail Hq Hans) as Hlen.
  unfold display_p_score, mbind, M_bind, get_responses. simpl.
  rewrite bool_decide_eq_false_2 by done.
  unfold lift at 1. rewrite Hcode. destruct code as [|c code]; [done|].
  rewrite Hans. simpl in Hlen. simpl. rewrite <- Hlen, Nat.eqb_refl. simpl.
  by destruct (recommend_treatments E _ w) as [[[]|e] w1].
Qed.

(** X18. A recommendation that is refused still earns a voucher.  Once
    the P-Score is built, whenever [recommend_treatments] returns, be it
    after showing a table or after showing an error, [display_p_score]
    stores a fresh voucher and thanks the user; with an invalid "Delivery
    Mode" the page gets the error followed by the thanks. *)
Theorem display_p_score_voucher (E : env) (w : world) (code : string) (tail : list pyval) :
  questions E <> [] ->
  extract_concern_code (default (VStr "") (responses (session w) !! "Specific Interest"))
  = Ok (Some code) ->
  code <> "" ->
  answers (responses (session w)) (drop 1 (questions E)) = Ok tail ->
  let voucher := generate_voucher_code E in
  (forall w1, recommend_treatments E (VStr code :: tail) w = (Ok (), w1) ->
     display_p_score E w = (Ok (), show [thanks voucher] (store_voucher voucher w1)))
  /\ (chosen_sheet (responses (session w)) = None ->
      display_p_score E w
      = (Ok (), show [selection_invalid; thanks voucher] (store_voucher voucher w))).
Proof.
  intros Hq Hcode Hne Hans. simpl.
  rewrite (display_p_score_reaches E w code tail) by done. split.
  - by intros w1 ->.
  - intros Hsheet. unfold recommend_treatments, mbind, M_bind, get_responses. simpl.
    unfold chosen_sheet in Hsheet. rewrite Hsheet.
    unfold show, store_voucher, emit. simpl. by rewrite <- app_assoc.
Qed.

(** X19. [display_p_score] stops before the recommendation, with one
    message and the session as it was (no voucher), when the question list
    is empty, when no specific interest is stored or its text has no
    second word, and when a question after the first has no "question"
    key. *)
Theorem display_p_score_early_exit (E : env) (w : world) :
  (questions E = [] -> display_p_score E w = (Ok (), show [questions_missing] w))
  /\ (questions E <> [] ->
      (responses (session w) !! "Specific Interest" = None
       \/ exists s, responses (session w) !! "Specific Interest" = Some (VStr s)
                    /\ lacks " " s = true) ->
      display_p_score E w = (Ok (), show [code_missing] w))
  /\ (forall code,
      questions E <> [] ->
      extract_concern_code (default (VStr "") (responses (session w) !! "Specific Interest"))
      = Ok (Some code) ->
      code <> "" -> ~ titled (drop 1 (questions E)) ->
      display_p_score E w = (Ok (), show [key_missing] w)).
Proof.
  unfold display_p_score, mbind, M_bind, get_responses. simpl. repeat split.
  - intros ->. done.
  - intros Hq Hsi. rewrite bool_decide_eq_false_2 by done. unfold lift at 1.
    assert (extract_concern_code
              (default (VStr "") (responses (session w) !! "Specific Interest")) = Ok None)
      as ->; [|done].
    destruct Hsi as [->|(s & -> & Hs)]; [done|]. simpl.
    destruct (String.eqb s ""); [done|].
    unfold PyStr.split. by rewrite (split_go_last " " "" s "") by done.
  - intros code Hq Hcode Hne Ht. rewrite bool_decide_eq_false_2 by done.
    unfold lift at 1. rewrite Hcode. destruct code; [done|].
    by rewrite answers_nokey.
Qed.

Lemma display_p_score_early_exit_witness :
  display_p_score (example_env example_catalog) fresh_world
  = (Ok (), show [code_missing] fresh_world).
Proof.
  refine (proj1 (proj2 (display_p_score_early_exit (example_env example_catalog)
                          fresh_world)) _ _).
  - discriminate.
  - by left.
Defined.

Lemma display_p_score_voucher_witness :
  display_p_score (example_env example_catalog)
    (write "Specific Interest" (VStr "1) A1 - Acne") fresh_world)
  = (Ok (), show [selection_invalid; thanks "3f2b8c1e"]
              (store_voucher "3f2b8c1e"
                 (write "Specific Interest" (VStr "1) A1 - Acne") fresh_world))).
Proof.
  refine (proj2 (display_p_score_voucher (example_env example_catalog)
                   (write "Specific Interest" (VStr "1) A1 - Acne") fresh_world)
                   "A1" [VInt 1; VInt 1; VInt 1] _ _ _ _) _).
  - discriminate.
  - reflexivity.
  - discriminate.
  - reflexivity.
  - reflexivity.
Defined.

Lemma main_halves (E : env) (submit : bool) (w : world) :
  main E submit w
  = match (if submit then display_p_score E w else (Ok (), w)) with
    | (Ok _, w1) => (Ok (), offer_pdf w1)
    | (Raise e, w1) => (Raise e, w1)
    end.
Proof.
  unfold main, mbind, M_bind, get_final_table, generate_pdf_from_dataframe,
    get_voucher_code, offer_pdf.
  destruct submit; simpl.
  - destruct (display_p_score E w) as [[[]|e] w1]; [|done]. simpl.
    destruct (final_table (session w1)); [|done].
    unfold show, emit, download. simpl. by rewrite <- app_assoc.
  - destruct (final_table (session w)); [|done].
    unfold show, emit, download. simpl. by rewrite <- app_assoc.
Qed.

(** The four ways a call of [display_p_score] ends. *)
Lemma display_p_score_cases (E : env) (w : world) :
  let voucher := generate_voucher_code E in
  (exists msg, display_p_score E w = (Ok (), show [StError msg] w))
  \/ (exists e, display_p_score E w = (Raise e, w))
  \/ (exists es, refusal es
                 /\ display_p_score E w
                    = (Ok (), show (es ++ [thanks voucher]) (store_voucher voucher w)))
  \/ (exists c t, recommendation c t
                  /\ display_p_score E w
                     = (Ok (), show [StWrite "### Top 5 Recommended Treatments"; StTable t;
                                     thanks voucher]
                                 (store_voucher voucher (store_table t w)))).
Proof.
  simpl. destruct (decide (questions E = [])) as [Hq|Hq].
  { left. eexists. unfold display_p_score, mbind, M_bind, get_responses. simpl.
    by rewrite bool_decide_eq_true_2. }
  destruct (extract_concern_code
              (default (VStr "") (responses (session w) !! "Specific Interest")))
    as [[code|]|e] eqn:Hcode.
  - destruct (decide (code = "")) as [->|Hne].
    { left. eexists. unfold display_p_score, mbind, M_bind, get_responses. simpl.
      rewrite bool_decide_eq_false_2 by done. unfold lift at 1. by rewrite Hcode. }
    destruct (answers (responses (session w)) (drop 1 (questions E))) as [tail|e] eqn:Hans.
    + rewrite (display_p_score_reaches E w code tail) by done.
      destruct (recommend_treatments_cases E (VStr code :: tail) w)
        as [(es & Hes & ->)|[(e & ->)|(c & tl & t & _ & Hrec & ->)]].
      * right; right; left. exists es. split; [done|].
        unfold show, store_voucher. simpl. by rewrite <- app_assoc.
      * right; left. by eexists.
      * right; right; right. exists c, t. split; [done|].
        unfold show, store_voucher, store_table. simpl. by rewrite <- app_assoc.
    + unfold display_p_score, mbind, M_bind, get_responses. simpl.
      rewrite bool_decide_eq_false_2 by done. unfold lift at 1. rewrite Hcode.
      destruct code; [done|]. rewrite Hans.
      destruct e; [right; left; by eexists|right; left; by eexists|left; by eexists
                  |right; left; by eexists|right; left; by eexists].
  - left. eexists. unfold display_p_score, mbind, M_bind, get_responses. simpl.
    rewrite bool_decide_eq_false_2 by done. unfold lift at 1. by rewrite Hcode.
  - right; left. exists e. unfold display_p_score, mbind, M_bind, get_responses. simpl.
    rewrite bool_decide_eq_false_2 by done. unfold lift at 1. by rewrite Hcode.
Qed.

Lemma drop_page_show (es : list event) (w w0 : world) :
  page w = page w0 -> drop (length (page w0)) (page (show es w)) = es.
Proof. intros Hp. unfold show. simpl. rewrite Hp. apply drop_app_length. Qed.

(** X20. A download is never offered without a voucher.  If every stored
    table comes with a stored voucher before a run of [main], the same
    holds after it, and every download button the run puts on the page
    carries the stored table and the stored voucher, never the "N/A"
    placeholder. *)
Theorem main_voucher_with_table (E : env) (submit : bool) (w : world) :
  voucher_with_table w ->
  let run := main E submit w in
  voucher_with_table run.2
  /\ forall f, StDownloadButton f ∈ drop (length (page w)) (page run.2) ->
       final_table (session run.2) = Some (pdf_table f)
       /\ voucher_code (session run.2) = Some (pdf_voucher f).
Proof.
  intros Hinv. simpl. rewrite main_halves.
  assert (forall w1 es,
    voucher_with_table w1 -> page w1 = page w ++ es ->
    (forall f, StDownloadButton f ∉ es) ->
    voucher_with_table (offer_pdf w1)
    /\ forall f, StDownloadButton f ∈ drop (length (page w)) (page (offer_pdf w1)) ->
         final_table (session (offer_pdf w1)) = Some (pdf_table f)
         /\ voucher_code (session (offer_pdf w1)) = Some (pdf_voucher f)) as Hoffer.
  { intros w1 es Hinv1 Hpage Hes. unfold offer_pdf, voucher_with_table in *.
    destruct (final_table (session w1)) as [t|] eqn:Ht.
    - simpl. rewrite Ht. split; [done|]. intros f. rewrite Hpage, <- app_assoc.
      rewrite drop_app_length. intros [Hin|Hin]%elem_of_app; [by apply Hes in Hin|].
      apply list_elem_of_In in Hin. simpl in Hin.
      destruct Hin as [Hin|[Hin|[]]]; [done|]. injection Hin as <-. simpl.
      destruct (voucher_code (session w1)); [done|]. by destruct Hinv1.
    - rewrite Ht. split; [done|]. intros f. rewrite Hpage, drop_app_length.
      intros Hin. by apply Hes in Hin. }
  destruct submit.
  - destruct (display_p_score_cases E w)
      as [(msg & ->)|[(e & ->)|[(es & Hes & ->)|(c & t & _ & ->)]]]; cbn [fst snd].
    + apply (Hoffer _ [StError msg]); [done|done|].
      intros f Hin. apply list_elem_of_In in Hin. simpl in Hin. intuition discriminate.
    + split; [done|]. intros f. rewrite drop_all. intros Hin.
      by apply not_elem_of_nil in Hin.
    + apply (Hoffer _ (es ++ [thanks (generate_voucher_code E)])); [done|done|].
      intros f [Hin|Hin]%elem_of_app.
      * destruct Hes; apply list_elem_of_In in Hin; simpl in Hin; intuition discriminate.
      * apply list_elem_of_In in Hin. simpl in Hin. intuition discriminate.
    + apply (Hoffer _ [StWrite "### Top 5 Recommended Treatments"; StTable t;
                       thanks (generate_voucher_code E)]); [done|done|].
      intros f Hin. apply list_elem_of_In in Hin. simpl in Hin. intuition discriminate.
  - apply (Hoffer w []); [done|by rewrite app_nil_r|].
    intros f Hin. by apply not_elem_of_nil in Hin.
Qed.

(** X21. A stale table outlives a refused submission.  When a table is
    already stored and a submission is refused by [recommend_treatments]
    with an error message, [main] still thanks the user, stores a new
    voucher, and offers the download of the earlier table with the new
    voucher. *)
Theorem main_refused_keeps_table (E : env) (w : world) (code : string)
        (tail : list pyval) (es : list event) (t : DataFrame scored) :
  questions E <> [] ->
  extract_concern_code (default (VStr "") (responses (session w) !! "Specific Interest"))
  = Ok (Some code) ->
  code <> "" ->
  answers (responses (session w)) (drop 1 (questions E)) = Ok tail ->
  recommend_treatments E (VStr code :: tail) w = (Ok (), show es w) ->
  final_table (session w) = Some t ->
  let voucher := generate_voucher_code E in
  main E true w
  = (Ok (), show (es ++ [thanks voucher; please_download; download t (Some voucher)])
              (store_voucher voucher w)).
Proof.
  intros Hq Hcode Hne Hans Hrec Ht. simpl.
  rewrite main_halves, (display_p_score_reaches E w code tail), Hrec by done.
  unfold offer_pdf. simpl. rewrite Ht.
  unfold show. simpl. by rewrite <- !app_assoc.
Qed.

Lemma main_voucher_with_table_witness :
  voucher_with_table (main (example_env example_catalog) true stale_world).2.
Proof.
  refine (proj1 (main_voucher_with_table (example_env example_catalog) true stale_world _)).
  intros _. discriminate.
Defined.

Lemma main_refused_keeps_table_witness :
  main (example_env example_catalog) true stale_world
  = (Ok (), show [selection_invalid; thanks "3f2b8c1e"; please_download;
                  download stale_table (Some "3f2b8c1e")]
              (store_voucher "3f2b8c1e" stale_world)).
Proof.
  refine (main_refused_keeps_table (example_env example_catalog) stale_world "A1"
            [VInt 1; VInt 1; VInt 1] [selection_invalid] stale_table _ _ _ _ _ _).
  - discriminate.
  - reflexivity.
  - discriminate.
  - reflexivity.
  - reflexivity.
  - reflexivity.
Defined.

(** ** The voucher and the PDF *)

Lemma substring_0_length (n : nat) (s : string) :
  String.length (String.substring 0 n s) = n `min` String.length s.
Proof.
  revert n. induction s as [|c s IH]; intros [|n]; simpl; try done. by rewrite IH.
Qed.

Lemma substring_0_prefix (n : nat) (s : string) :
  String.prefix (String.substring 0 n s) s = true.
Proof.
  revert n. induction s as [|c s IH]; intros [|n]; simpl; try done.
  destruct (ascii_dec c c); [apply IH|done].
Qed.

(** X22. The voucher code is the beginning of the identifier string: its
    first 8 characters, or all of it when it is shorter.  For the 36
    characters of a UUID it has length 8. *)
Theorem generate_voucher_code_prefix (E : env) :
  String.prefix (generate_voucher_code E) (uuid4 E) = true
  /\ String.length (generate_voucher_code E) = 8 `min` String.length (uuid4 E)
  /\ (String.length (uuid4 E) = 36 -> String.length (generate_voucher_code E) = 8).
Proof.
  unfold generate_voucher_code. split; [apply substring_0_prefix|].
  rewrite substring_0_length. split; [done|]. intros ->. done.
Qed.

Lemma generate_voucher_code_prefix_witness :
  String.length (generate_voucher_code (example_env example_catalog)) = 8.
Proof.
  apply (proj2 (proj2 (generate_voucher_code_prefix (example_env example_catalog)))).
  reflexivity.
Defined.

(** X23. The voucher row of the PDF table has two cells plus padding up
    to the width of the header: it is as wide as the header for a table of
    at least two columns, and wider than the header, with two cells, for a
    narrower one.  For every table that [display_table] builds the widths
    agree. *)
Theorem voucher_row_width (voucher_code : string) (df : DataFrame scored) :
  length (voucher_row voucher_code df) = 2 `max` length (columns df)
  /\ forall top, display_table top = Ok df ->
       length (voucher_row voucher_code df) = length (columns df).
Proof.
  unfold voucher_row. rewrite length_app, length_replicate. simpl. split; [lia|].
  intros top (_ & _ & _ & Hcols%display_columns_length)%display_table_ok.
  simpl in Hcols. lia.
Qed.

Lemma voucher_row_width_witness :
  length (voucher_row "3f2b8c1e" stale_table) = length (columns stale_table).
Proof.
  refine (proj2 (voucher_row_width "3f2b8c1e" stale_table)
            {| columns := catalog_columns; rows := rows stale_table |} _).
  reflexivity.
Defined.

(** ** Scoring a sheet, and the survey in front of it *)

(** X24. Scoring a sheet is all or nothing.  [score_rows] returns a
    table exactly when the sheet has a "T-Score" column and every one of
    its rows converts and scores; the table then has the rows of the
    sheet in the same order, each with its own T-Score and D-Score, and
    the columns of the sheet with "D-Score" added. *)
Theorem score_rows_all_or_nothing (p_score : list pyval) (data : DataFrame treatment)
        (scored_data : DataFrame scored) :
  score_rows p_score data = Ok scored_data
  <-> "T-Score" ∈ columns data
      /\ map source (rows scored_data) = rows data
      /\ Forall (scored_by p_score) (rows scored_data)
      /\ columns scored_data
         = if bool_decide ("D-Score" ∈ columns data) then columns data
           else columns data ++ ["D-Score"].
Proof.
  split.
  - intros Hok. destruct (score_rows_sound _ _ _ Hok) as [Hcol Hall].
    destruct (score_rows_ok _ _ _ Hok) as [Hsrc _]. repeat split; try done.
    revert Hok. unfold score_rows. rewrite bool_decide_eq_true_2 by done. simpl.
    destruct (mapR _ (rows data)); simpl; [|done]. destruct (mapR _ _); simpl; [|done].
    by intros [= <-].
  - intros (Hcol & Hsrc & Hall & Hcols). destruct data as [cols rs].
    destruct scored_data as [cols' zs]. simpl in *. subst rs cols'.
    by apply score_rows_complete.
Qed.

Lemma score_rows_all_or_nothing_witness :
  exists scored_data,
    score_rows [VStr "A1"; VInt 2; VInt 3; VInt 1] example_catalog = Ok scored_data
    /\ map source (rows scored_data) = rows example_catalog.
Proof.
  eexists. split; [vm_compute; reflexivity|].
  apply (proj1 (score_rows_all_or_nothing [VStr "A1"; VInt 2; VInt 3; VInt 1]
                  example_catalog _)).
  vm_compute. reflexivity.
Defined.

(** X25. The survey needs six questions.  "Delivery Mode" is written only
    by the sixth question, so after [render_survey] on a shorter
    well-formed question list, in a session without an earlier choice,
    [recommend_treatments] refuses every P-Score with "Invalid selection
    for injectable preference." and changes nothing else. *)
Theorem short_survey_refused (E : env) (concerns : gmap string (list string))
        (ui : picks) (p_score : list pyval) (w : world) :
  questions E <> [] -> length (questions E) < 6 ->
  titled (questions E) -> untitled "Delivery Mode" (drop 1 (questions E)) ->
  responses (session w) !! "Delivery Mode" = None ->
  let w1 := (render_survey concerns (questions E) ui w).2 in
  recommend_treatments E p_score w1 = (Ok (), show [selection_invalid] w1).
Proof.
  intros Hne Hlen Ht Hu Hdm. simpl.
  pose proof (render_survey_delivery_lookup concerns (questions E) ui w Hne Ht Hu) as Hd.
  rewrite (lookup_ge_None_2 (questions E) 5) in Hd by lia. rewrite Hdm in Hd.
  unfold recommend_treatments, mbind, M_bind, get_responses. simpl. by rewrite Hd.
Qed.

Lemma short_survey_refused_witness :
  let w1 := (render_survey survey_concerns example_questions survey_picks fresh_world).2 in
  recommend_treatments (example_env example_catalog) [VStr "A2"; VInt 2; VInt 2; VInt 2] w1
  = (Ok (), show [selection_invalid] w1).
Proof.
  refine (short_survey_refused (example_env example_catalog) survey_concerns survey_picks
            [VStr "A2"; VInt 2; VInt 2; VInt 2] fresh_world _ _ _ _ _).
  - discriminate.
  - simpl. lia.
  - repeat constructor; discriminate.
  - repeat constructor; discriminate.
  - reflexivity.
Defined.

Lemma converted_t_score_scores_witness :
  calculate_d_score (VStr "A1" :: map VInt [2; 3; 1]%Z)
    [VStr "A1"; VInt 2; VInt (-1); VInt 3]
  = Ok 6%Z.
Proof.
  apply (converted_t_score_scores (CStr "['A1', 2, x, 3]")
           [VStr "A1"; VInt 2; VInt (-1); VInt 3] "A1" [2; 3; 1]%Z);
    [reflexivity|discriminate].
Defined.

(** X26. A sheet that cannot be read costs two messages.  [load_data]
    reports the exception of the reader and hands back an empty table, for
    which [recommend_treatments] adds "Unable to load data ..." and
    returns; a sheet that is read but empty gets the second message alone.
    In both cases nothing is scored and the session is untouched. *)
Theorem recommend_treatments_unreadable (E : env) (p_score : list pyval) (w : world)
        (sheet : string) :
  chosen_sheet (responses (session w)) = Some sheet ->
  let unable := StError ("Unable to load data from the '" +:+ sheet +:+ "' sheet.") in
  (forall err, read_excel E sheet = inl err ->
     recommend_treatments E p_score w
     = (Ok (), show [StError ("Error loading data from sheet '" +:+ sheet +:+ "': " +:+ err);
                     unable] w))
  /\ (forall data, read_excel E sheet = inr data -> df_empty data = true ->
      recommend_treatments E p_score w = (Ok (), show [unable] w)).
Proof.
  intros Hsheet. simpl. unfold chosen_sheet in Hsheet.
  unfold recommend_treatments, mbind, M_bind, get_responses, load_data. simpl.
  rewrite Hsheet. split.
  - intros err ->. unfold show, emit. simpl. by rewrite <- app_assoc.
  - intros data -> Hempty. simpl. by rewrite Hempty.
Qed.

Lemma recommend_treatments_unreadable_witness :
  recommend_treatments (example_env example_catalog) [VStr "A1"; VInt 1]
    (write "Delivery Mode" (VInt 2) fresh_world)
  = (Ok (), show [StError "Error loading data from sheet 'All treatments': Worksheet not found";
                  StError "Unable to load data from the 'All treatments' sheet."]
              (write "Delivery Mode" (VInt 2) fresh_world)).
Proof.
  refine (proj1 (recommend_treatments_unreadable (example_env example_catalog)
                   [VStr "A1"; VInt 1] (write "Delivery Mode" (VInt 2) fresh_world)
                   "All treatments" _) "Worksheet not found" _); reflexivity.
Defined.
